(* ===== verification/_CoqProject ===== *)
-Q . S2P
Prelude.v
Sdk.v
Native.v
Fake.v
Lifecycle.v
Helpers.v
Simulate.v
Refinement.v
Deploy.v
Drivers.v
Ledger.v
LedgerSteps.v
Contracts.v
Chain.v
DriverRuns.v
