(* ===== verification/Prelude.v ===== *)
(** * A verification development for get-started-with-stellar-sdk

    The repository is a set of TypeScript scripts that deploy and call
    Soroban smart contracts through the Stellar RPC interface of
    [@stellar/stellar-sdk].  Its own logic is the transaction pipeline of
    [src/src/utils]: build a transaction, prepare it, sign it, send it and
    poll it to a terminal status ([helpers.ts], [deploy.ts]), or build it
    and only simulate it ([simulate_transaction.ts]).  The example drivers
    ([increment/index.ts], [hello_world/index.ts], [events/index.ts]) and
    the deploy wrappers ([increment/deploy.ts], [events/deploy.ts])
    compose these helpers: upload a wasm file, deploy it, call the
    contract, print what it returns and, for the events example, query
    and print the events it published.

    ** How the program is modelled

    Every function of the scripts is a computation in the state and
    exception monad [M] of this file, over the world [Sdk.Rpc.World]: the
    network (any instance of the interface [Sdk.Rpc.RpcServer]), the trace
    of RPC requests sent so far, the lines printed on stdout and stderr,
    the milliseconds slept, and the files on disk.  An [await] is a
    [bind]; a [throw] is [Throw]; [try]/[catch] is [try_catch], which
    catches thrown errors only; [process.exit] is [Exit]; a [for] loop
    over a counter is [for_loop] and a [for ... of] loop is [for_of].  The
    [provider] argument of the scripts is the network of the world.
    JavaScript errors are [JsError] records and their [toString] is
    modelled, since the scripts build messages from caught errors.

    ** Files, in dependency order

    - [Prelude.v] (this file): errors, outcomes, the monad and its
      notation ([let*], [;;], [let?] in [ts_scope]), the monad lemmas (hint
      database [ts]), the loops [for_loop] and [for_of] with the loop
      invariant rule [for_loop_ok], string lemmas, bytes as an
      [EqDecision]/[Countable] type and their big-endian encoding
      [be_bytes] (injective on its range).
    - [Sdk.v]: the SDK surface, which is not code of the repository and is
      modelled from its documented behaviour: [Xdr] (values and the union
      accessors [.bytes()], [.address()]), [Keys] ([Keypair], and the
      typeclass [Crypto] for key derivation and strkey encodings, which are
      not modelled), [TxBuild] ([Account], [Contract.call], the fluent
      [TransactionBuilder] with its checks and sequence increment), [Rpc]
      (responses, the interface [RpcServer], the world, the requests as
      script steps, and the SDK's polling loop [pollTransaction]),
      [RpcFacts] (each request's effect, the loop's bound, the frame
      property [preserves_io] with the hint database [io] and the tactic
      [solve_io]).
    - [Native.v]: the JavaScript side of the SDK's conversions:
      [scValToNative], [nativeToScVal] of a string, [String(v)] as a
      template literal applies it ([js_String]) and the line
      [console.log(a, b)] prints ([format_log]); Node's buffer decoding and
      [util.inspect] of arrays, Node's report of an unhandled rejection,
      the error of its module loader for an unresolved import and
      [dotenv]'s line parser are the class [NodeRuntime].
    - [Fake.v]: a scripted server (fixed answers, a queue of poll answers)
      instantiating [RpcServer]: the fake network client of the spec's
      test scenarios, on which the helpers' witnesses are evaluated.
    - [Lifecycle.v]: the transaction lifecycle of the spec (sections 3,
      4.2, 4.3, 5), which is not code of the repository.  [Lifecycle]:
      the order of its requests, a labelled step relation [lc_step] on
      [Phase] (account fetched, prepared, submitted, polled [n] times,
      simulated) and its runs [lc_run].  [ServerLifecycle]: the
      lifecycle against the server, a step relation [nstep] on a phase
      and the server's state, each step a request and the server's
      answer (the account answered, the transaction built on it, the
      prepared transaction answered, sent with the signer's signature
      attached, the hash answered, polled to a terminal status within
      [MAX_POLLS] queries, [NFailed] after a refused step), and its runs
      [nrun] with their bound by rule induction.
    - [Helpers.v]: [helpers.ts]: [getPollingTransaction],
      [submitStellarTransaction] (with its builder chain
      [stellar_transaction]) and [submitTransaction];
      [HelpersLifecycle]: the pipeline refines the server lifecycle.
    - [Simulate.v]: [simulate_transaction.ts]: [simulateTransaction] and its
      [catch] [simulation_failed].
    - [Refinement.v]: the pipeline's and the simulator's requests follow
      the lifecycle's order ([lc_run]).
    - [Deploy.v]: [deploy.ts]: [buildTransaction], [buildAndSendTransaction],
      [uploadWasm], [deployContract] (with [contract_address_of] for lines
      58-65), and the collaborators Node [Buffer.from(s, "hex")]
      ([hex_decode]) and [Operation.createCustomContract].
    - [Drivers.v]: [Drivers] has the deploy wrappers
      ([deployIncrementContract], [deployEventsContract]) and the three
      [main] functions, each part of them a definition named after what
      its lines do ([banner], [increment_calls] for the [for] loop of three
      [increment_call]s, [get_current_value], [reset_value],
      [verify_reset], [list_events] with its query [events_request] and
      its loop body [print_event]); [main_hello] takes the
      [deployHelloWorldContract] its missing [./deploy.js] would export as
      a parameter, and [program_hello], the hello world module as the
      repository has it, is the load failure of that import: Node reports
      it and exits with code 1 before any statement of the module runs.  [banner] includes the two constructors that may
      throw, [new rpc.Server(STELLAR_RPC_URL)] ([Sdk.Rpc.Server_new],
      which refuses a URL that is not [https]) and [Keypair.fromSecret]
      ([Sdk.Keys.Keypair_fromSecret]).  The increment and events
      modules' top level is [program_increment] and [program_events]:
      [dotenv.config()] ([dotenv_config]), then [main();] ([node_main]:
      a rejected promise is reported by Node and ends the process with
      code 1).  [DriversFacts]: the examples on any server when the
      configuration is refused and when the wasm file is missing.
    - [Ledger.v]: a model of the network itself, not code of the
      repository: a ledger (accounts with sequence numbers, uploaded code
      by hash, contract instances, transaction results by hash, events,
      the last closed ledger) whose requests instantiate [RpcServer].
      [send_check] gives the send status (replay is [DUPLICATE]; unknown
      source, wrong sequence number or no signature is [ERROR]);
      [apply_tx] consumes the sequence number, runs the one operation
      ([run_op], through the typeclass [Host] that executes contract
      code, with the laws [HostLaws] its hashes obey) and closes a ledger
      recording the result.  [LedgerFacts]: what a send of a fresh or a
      seen transaction does, and what [apply_tx] records.
      [LedgerPipeline]: the submission pipeline of [helpers.ts] run
      against the ledger.
    - [LedgerSteps.v]: the one-step lemmas the driver runs are composed
      of: on an account that is [ready] (its next sequence numbers have no
      recorded result), each helper's run on the ledger, as a change of
      the world by [advance] (new network, requests appended, lines
      printed).
    - [Contracts.v]: the example contracts as the drivers expect them (the
      counter with its checked [u32] addition, the counter publishing an
      event, hello world) as an instance of [Host] and [HostLaws], with a
      transaction hash that is the big-endian sequence number followed by
      the source.
    - [Chain.v]: the submission pipeline evaluated on a concrete ledger
      running the increment contract.
    - [DriverRuns.v]: the three examples run end to end on the ledger
      ([DriverRuns]), and their witnesses on concrete ledgers
      ([DriverWitnesses]).

    ** What the theorems show

    - The poller ([Helpers.HelpersFacts]): its result on every branch (a
      success with a return value is returned; everything else becomes the
      single error ["Error fetching transaction"]), what it returns is a
      success with a value, and it terminates after at most 30 requests and
      29 s of sleep, whatever the server answers.  Its liveness
      ([Helpers.HelpersLiveness]): it returns a transaction exactly when
      the network confirms the hash within 30 answers ([confirms_within],
      a bounded [eventually] over the network's answers).
    - The submission pipeline: the exact requests in order, the transaction
      built (next sequence number, fee, passphrase, 30 s timeout, one
      operation, signed by the signer), that the send status is ignored,
      and that a failing account fetch or preparation aborts the rest with
      the error unchanged.
    - The simulator: each answer of the simulation, the exact (doubly
      prefixed) error messages, and that it is read only: at most an
      account fetch and a simulation, never a send, and nothing printed,
      read, written or slept.
    - Refinement of the spec's lifecycle ([Helpers.HelpersLifecycle],
      [Refinement.LifecycleRefinement], [Deploy.DeployLifecycle]): on any server and every branch, the
      requests of [submitStellarTransaction] and of [uploadWasm], with
      the server's answers, are one run of the server lifecycle from its
      start to a terminal phase (strictly sequential, no step after one
      the server refused, the prepared transaction sent signed, the
      answered hash polled, at most [3 + 30] requests), and the result
      returned is the confirmed transaction the run ends with; the
      simulator's requests never go past its dry run.
    - Deployment: [buildAndSendTransaction] is equivalent to
      [submitStellarTransaction] with default fee and passphrase;
      [uploadWasm] exits with its three messages when the file is missing
      and otherwise returns a success and prints one line;
      [deployContract]'s error paths, the salt taken from the upload hash
      (hex decoding round-trips), and that its [else] branch is dead.
    - The pipeline against the ledger ([LedgerPipeline]): a successful
      call submitted through [submitStellarTransaction] is sent once on
      the next sequence number, found by the first poll and returned
      with the call's value, and resending it is [DUPLICATE].
    - The drivers ([DriverRuns], [DriversFacts]): the increment example
      prints exactly its transcript (counts 1, 2, 3, current value 3,
      final value 0) and leaves the counter at 0 after seven
      transactions; the events example prints the topic and the three
      values of its events when the ledger is past its first 95 ledgers,
      and throws when it is not ([sequence - 100] is then not a positive
      ledger); the hello world [main], given a deploy function, prints
      [Hello, World]; the events loop stops at an event without topic;
      without the wasm file the increment example exits with code 1
      before any request; an unset or non-[https] RPC URL, or a key that
      is not a secret seed, stops each example after its three banner
      lines, and run as a module the process then ends with code 1; the
      hello world module as the repository has it never gets that far:
      it fails to load and ends with code 1 without printing anything;
      the events module on a young ledger ends with code 1 after its
      increments.

    ** Bounds and fuel

    The loops are structural and need no fuel: the SDK's
    [pollTransaction], called by [getPollingTransaction] without options,
    so that [maxAttempts] is the default 30 and [poll_loop] runs on the 29
    iterations left followed by one last request, as the SDK's [for] loop
    does; the drivers' [for (let i = 1; i <= 3; i++)] is [for_loop 3 1];
    [for ... of] is [for_of] on the list.  Sleeps are
    [BasicSleepStrategy], 1000 ms.  Sequence numbers and ledger numbers are
    unbounded [Z], as in the SDK ([BigNumber]); the driver theorems ask the
    sequence numbers they consume to stay below [2^63], the range of the
    network's [int64] sequence numbers, on which the example transaction
    hash is injective.  The counter is a [u32]: [U32_MAX = 2^32 - 1].

    ** Not modelled

    Cryptography (signatures are the signer's public key appended to the
    transaction; key derivation and strkey encodings are the class
    [Crypto], and so is the error the strkey decoder gives a bad secret);
    the RPC wire format; the clock (time bounds are relative); which
    network a URL reaches (an accepted URL gives the world's network);
    the syntax of [.env] lines, UTF-8 decoding, [util.inspect]'s layout
    of compound values and the stack Node prints for an unhandled
    rejection (class [NodeRuntime]); the hello world example's deploy
    module, which the repository does not have (the module that imports
    it fails to load; [main_hello] is checked on a deploy function given
    as a parameter); the Rust contracts themselves (only their expected behaviour, in
    [Contracts.v]); fees, resource limits and transactions of several
    operations on the ledger.  Every line of [src/] but the [import]
    statements is translated by a definition of the development; the
    imports only name the SDK, [dotenv], [fs] and the sibling modules,
    whose modelled parts are listed above. *)

From stdpp Require Export base strings gmap list.
From Stdlib Require Export ZArith Lia.
From Stdlib.Strings Require Import Byte.

(** ** JavaScript errors *)

(** An [Error] object: its [name] and its [message]. *)
Record JsError := mkJsError { err_name : string; err_message : string }.

(** [new Error(msg)]. *)
Definition new_Error (msg : string) : JsError := mkJsError "Error" msg.

(** [Error.prototype.toString]: the name, then [": "] and the message,
    either part omitted when empty. *)
Definition js_error_toString (e : JsError) : string :=
  if String.eqb (err_message e) "" then err_name e
  else if String.eqb (err_name e) "" then err_message e
  else err_name e +:+ ": " +:+ err_message e.

Lemma js_error_toString_new_Error (msg : string) :
  msg <> "" -> js_error_toString (new_Error msg) = "Error: " +:+ msg.
Proof.
  intros Hmsg. unfold js_error_toString. cbn.
  apply String.eqb_neq in Hmsg. by rewrite Hmsg.
Qed.

#[export] Instance JsError_eq_dec : EqDecision JsError.
Proof. solve_decision. Defined.

(** ** Outcomes and the script monad *)

(** A step of a script returns a value, throws, or ends the process. *)
Inductive outcome (A : Type) :=
| Ok (a : A)
| Throw (e : JsError)
| Exit (code : Z).
Arguments Ok {A} a.
Arguments Throw {A} e.
Arguments Exit {A} code.

(** The result of an operation of an external collaborator: it returns
    or throws (a library call never ends the process). *)
Abbreviation Res A := (sum JsError A).

Definition M (S A : Type) : Type := S -> outcome A * S.

Section Monad.
Context {S : Type}.

Definition ret {A} (a : A) : M S A := fun s => (Ok a, s).

Definition bind {A B} (m : M S A) (f : A -> M S B) : M S B :=
  fun s =>
    match m s with
    | (Ok a, s') => f a s'
    | (Throw e, s') => (Throw e, s')
    | (Exit c, s') => (Exit c, s')
    end.

Definition throw {A} (e : JsError) : M S A := fun s => (Throw e, s).

(** [process.exit(code)]. *)
Definition exit {A} (code : Z) : M S A := fun s => (Exit code, s).

(** [try { m } catch (error) { h(error) }]: only a thrown error is
    caught. *)
Definition try_catch {A} (m : M S A) (h : JsError -> M S A) : M S A :=
  fun s =>
    match m s with
    | (Throw e, s') => h e s'
    | r => r
    end.

(** A fallible pure computation inside a script. *)
Definition of_res {A} (r : Res A) : M S A :=
  match r with
  | inl e => throw e
  | inr a => ret a
  end.

(** Sequencing of fallible pure steps (a chain of calls that may
    throw, such as the fluent calls on a builder). *)
Definition res_bind {A B} (r : Res A) (f : A -> Res B) : Res B :=
  match r with
  | inl e => inl e
  | inr a => f a
  end.

Definition outcome_of_res {A} (r : Res A) : outcome A :=
  match r with
  | inl e => Throw e
  | inr a => Ok a
  end.
End Monad.

Declare Scope ts_scope.
Delimit Scope ts_scope with ts.
Notation "'let*' x := m 'in' k" := (bind m (fun x => k))
  (at level 100, x name, m at next level, right associativity) : ts_scope.
Notation "'let?' x := r 'in' k" := (res_bind r (fun x => k))
  (at level 100, x name, r at next level, right associativity) : ts_scope.
Notation "m ;; k" := (bind m (fun _ => k))
  (at level 100, right associativity) : ts_scope.
Open Scope ts_scope.

(** ** Lemmas on the monad *)

Create HintDb ts discriminated.
Create Rewrite HintDb ts.

Section MonadLemmas.
Context {S : Type}.

Lemma bind_ret_l {A B} (a : A) (f : A -> M S B) s :
  bind (ret a) f s = f a s.
Proof. reflexivity. Qed.

Lemma bind_ret_r {A} (m : M S A) s : bind m ret s = m s.
Proof. unfold bind, ret. by destruct (m s) as [[] ?]. Qed.

Lemma bind_assoc {A B C} (m : M S A) (f : A -> M S B) (g : B -> M S C) s :
  bind (bind m f) g s = bind m (fun a => bind (f a) g) s.
Proof. unfold bind. by destruct (m s) as [[] ?]. Qed.

Lemma bind_Ok {A B} (m : M S A) (f : A -> M S B) s a s' :
  m s = (Ok a, s') -> bind m f s = f a s'.
Proof. unfold bind. by intros ->. Qed.

Lemma bind_Throw {A B} (m : M S A) (f : A -> M S B) s e s' :
  m s = (Throw e, s') -> bind m f s = (Throw e, s').
Proof. unfold bind. by intros ->. Qed.

Lemma bind_Exit {A B} (m : M S A) (f : A -> M S B) s c s' :
  m s = (Exit c, s') -> bind m f s = (Exit c, s').
Proof. unfold bind. by intros ->. Qed.

Lemma bind_Ok_inv {A B} (m : M S A) (f : A -> M S B) s b s' :
  bind m f s = (Ok b, s') -> exists a s1, m s = (Ok a, s1) /\ f a s1 = (Ok b, s').
Proof. unfold bind. destruct (m s) as [[a|e|c] s1]; intros Hb; [eauto | discriminate..]. Qed.

Lemma try_catch_Ok {A} (m : M S A) h s a s' :
  m s = (Ok a, s') -> try_catch m h s = (Ok a, s').
Proof. unfold try_catch. by intros ->. Qed.

Lemma try_catch_Throw {A} (m : M S A) h s e s' :
  m s = (Throw e, s') -> try_catch m h s = h e s'.
Proof. unfold try_catch. by intros ->. Qed.

Lemma try_catch_Exit {A} (m : M S A) h s c s' :
  m s = (Exit c, s') -> try_catch m h s = (Exit c, s').
Proof. unfold try_catch. by intros ->. Qed.

(** A handler that always throws makes the whole [try] either return
    what the body returned or throw what the handler throws. *)
Lemma try_catch_rethrow {A} (m : M S A) (e0 : JsError) s :
  match try_catch m (fun _ => throw e0) s with
  | (Throw e, _) => e = e0
  | (Ok a, s') => m s = (Ok a, s')
  | (Exit c, s') => m s = (Exit c, s')
  end.
Proof. unfold try_catch, throw. by destruct (m s) as [[] ?]. Qed.
End MonadLemmas.

(** ** Loops

    [for (let i = lo; i <= hi; i++) body] runs [body] on [hi - lo + 1]
    consecutive values from [lo]; [for (const x of xs) body] runs it on
    the elements of [xs] in order.  Both stop at the first [Throw] or
    [Exit] of the body, as [bind] does.  They are structural on the
    number of iterations left, so they always terminate. *)
Fixpoint for_loop {S} (k : nat) (i : Z) (body : Z -> M S unit) : M S unit :=
  match k with
  | O => ret tt
  | S k' => body i ;; for_loop k' (i + 1) body
  end.

Fixpoint for_of {S A} (xs : list A) (body : A -> M S unit) : M S unit :=
  match xs with
  | [] => ret tt
  | x :: xs' => body x ;; for_of xs' body
  end.

Section LoopLemmas.
Context {S : Type}.

(** A loop whose body, run from a state satisfying [P j], returns and
    reaches [P (j + 1)], returns from [P i] and reaches [P (i + k)]. *)
Lemma for_loop_ok (P : Z -> S -> Prop) k i (body : Z -> M S unit) s :
  P i s ->
  (forall j s1, (i <= j < i + Z.of_nat k)%Z -> P j s1 ->
     exists s2, body j s1 = (Ok tt, s2) /\ P (j + 1)%Z s2) ->
  exists s', for_loop k i body s = (Ok tt, s') /\ P (i + Z.of_nat k)%Z s'.
Proof.
  revert i s. induction k as [|k IH]; intros i s Hs Hbody.
  - exists s. split; [done|]. by rewrite Z.add_0_r.
  - destruct (Hbody i s) as (s2 & Hb & Hs2); [lia | done |].
    destruct (IH (i + 1)%Z s2) as (s' & Hl & Hs'); [done | intros j s1 Hj HP; apply Hbody; [lia | done] |].
    exists s'. cbn. rewrite (bind_Ok _ _ _ _ _ Hb). split; [done|].
    by replace (i + Z.of_nat (Datatypes.S k))%Z with (i + 1 + Z.of_nat k)%Z by lia.
Qed.

Lemma for_of_app {A} (xs ys : list A) (body : A -> M S unit) s :
  for_of (xs ++ ys) body s = bind (for_of xs body) (fun _ => for_of ys body) s.
Proof.
  revert s. induction xs as [|x xs IH]; intros s; [done|].
  cbn. rewrite bind_assoc. unfold bind at 1 2. destruct (body x s) as [[[]|e|c] s1]; [|done..].
  apply IH.
Qed.
End LoopLemmas.

#[export] Hint Rewrite @bind_ret_l @bind_ret_r @bind_assoc : ts.
#[export] Hint Resolve bind_Ok bind_Throw bind_Exit : ts.
#[export] Hint Resolve try_catch_Ok try_catch_Throw try_catch_Exit : ts.

(** Unfold the monad's combinators and compute: the usual first step of
    a proof about a script on a concrete or a partly known state. *)
Ltac run_M :=
  repeat unfold bind, ret, throw, exit, try_catch, of_res, outcome_of_res, res_bind;
  cbn -[String.append].

(** Run the first step [m] of [bind m f] from what [H : m s = (Ok a, s')]
    says it returns, and go on with [f a]. *)
Ltac step H := rewrite (bind_Ok _ _ _ _ _ H); cbv beta iota zeta.

(** ** Strings *)

(** [sub] occurs in [s]: what a test that an error message "contains" a
    text checks. *)
Definition contains (s sub : string) : Prop :=
  exists p q, s = p +:+ sub +:+ q.

Lemma string_app_nil_r (s : string) : s +:+ "" = s.
Proof. induction s as [|c s IH]; [done | exact (f_equal (String c) IH)]. Qed.

Lemma string_app_assoc (a b c : string) : a +:+ b +:+ c = (a +:+ b) +:+ c.
Proof. induction a as [|x a IH]; [done | exact (f_equal (String x) IH)]. Qed.

Lemma contains_suffix (p sub : string) : contains (p +:+ sub) sub.
Proof. exists p, "". by rewrite string_app_nil_r. Qed.

Lemma contains_app_l (p s sub : string) :
  contains s sub -> contains (p +:+ s) sub.
Proof.
  intros (p' & q & ->). exists (p +:+ p'), q.
  by rewrite !string_app_assoc.
Qed.

#[export] Hint Resolve contains_suffix contains_app_l : ts.

(** ** Bytes *)

Abbreviation bytes := (list byte).

#[export] Instance byte_eq_decision : EqDecision byte := Byte.byte_eq_dec.

#[export] Instance byte_countable : Countable byte.
Proof.
  apply (inj_countable Byte.to_N Byte.of_N).
  apply Byte.of_to_N.
Defined.

(** The byte of value [z mod 256]. *)
Definition byte_of_Z (z : Z) : byte :=
  default Byte.x00 (Byte.of_N (Z.to_N (z mod 256))).

Lemma byte_of_Z_value (z : Z) : Z.of_N (Byte.to_N (byte_of_Z z)) = (z mod 256)%Z.
Proof.
  unfold byte_of_Z. destruct (Byte.of_N _) as [b|] eqn:Hb; cbn.
  - apply Byte.to_of_N in Hb. rewrite Hb. apply Z2N.id, Z.mod_pos_bound. lia.
  - apply Byte.of_N_None_iff in Hb. pose proof (Z.mod_pos_bound z 256). lia.
Qed.

(** The [n] bytes of [z] in big-endian order, as a fixed-width integer
    field is laid out, and the value of a big-endian byte string. *)
Fixpoint be_bytes (n : nat) (z : Z) : bytes :=
  match n with
  | O => []
  | S n' => be_bytes n' (z / 256) ++ [byte_of_Z z]
  end.

Definition be_value (bs : bytes) : Z :=
  fold_left (fun acc b => acc * 256 + Z.of_N (Byte.to_N b))%Z bs 0%Z.

Lemma be_bytes_length n z : length (be_bytes n z) = n.
Proof. revert z. induction n as [|n IH]; intros z; [done|]. cbn. rewrite length_app, IH. cbn. lia. Qed.

Lemma mod_mul_256 (z P : Z) : (0 < P)%Z -> (z mod (P * 256) = (z / 256) mod P * 256 + z mod 256)%Z.
Proof.
  intros HP. symmetry. apply Z.mod_unique with ((z / 256) / P)%Z.
  - left. pose proof (Z.mod_pos_bound (z / 256) P HP). pose proof (Z.mod_pos_bound z 256). nia.
  - rewrite (Z.div_mod z 256) at 1 by lia. rewrite (Z.div_mod (z / 256) P) at 1 by lia. ring.
Qed.

(** Reading back [n] big-endian bytes gives the value modulo [256^n]. *)
Lemma be_value_bytes n z : be_value (be_bytes n z) = (z mod 256 ^ Z.of_nat n)%Z.
Proof.
  revert z. induction n as [|n IH]; intros z; [cbn; by rewrite Z.mod_1_r|].
  unfold be_value. cbn [be_bytes]. rewrite fold_left_app. fold (be_value (be_bytes n (z / 256))).
  cbn [fold_left]. rewrite IH, byte_of_Z_value.
  rewrite Nat2Z.inj_succ, Z.pow_succ_r by lia.
  rewrite (Z.mul_comm 256 (256 ^ Z.of_nat n)), mod_mul_256 by (apply Z.pow_pos_nonneg; lia).
  lia.
Qed.

Lemma be_bytes_inj n z z' :
  (0 <= z < 256 ^ Z.of_nat n)%Z -> (0 <= z' < 256 ^ Z.of_nat n)%Z ->
  be_bytes n z = be_bytes n z' -> z = z'.
Proof.
  intros Hz Hz' Heq. apply (f_equal be_value) in Heq.
  rewrite !be_value_bytes, !Z.mod_small in Heq by done. done.
Qed.
