(* ===== verification/Sdk.v ===== *)
(** * The SDK surface the scripts call

    The classes of [@stellar/stellar-sdk] that the repository uses are not
    code of the repository; this file states what the scripts rely on:
    - [Xdr]: the contract values ([xdr.ScVal], [xdr.ScAddress]) and the
      union arm accessors ([.bytes()], [.address()]);
    - [Keys]: [Keypair] and the key and address encodings, behind the
      typeclass [Crypto] (no cryptography is modelled);
    - [TxBuild]: [Account], [Contract.call], the three operations, and the
      fluent [TransactionBuilder] with its checks and its sequence
      increment;
    - [Rpc]: the RPC responses, the interface [RpcServer] that a network
      model implements, the world a script runs in (network, trace of
      requests, console, clock, files) and the SDK's polling loop
      [pollTransaction]. *)

From S2P Require Import Prelude.

(** ** Contract values *)
Module Xdr.

Inductive ScAddress :=
| ScAddressAccount (accountId : string)
| ScAddressContract (contractId : bytes).

(** The arms of [xdr.ScVal] the scripts build or read. *)
Inductive ScVal :=
| ScvVoid
| ScvBool (b : bool)
| ScvU32 (n : Z)
| ScvI32 (n : Z)
| ScvU64 (n : Z)
| ScvString (s : string)
| ScvSymbol (s : string)
| ScvBytes (b : bytes)
| ScvAddress (a : ScAddress)
| ScvVec (v : list ScVal).

(** The arm accessor of an XDR union: the value of the arm when it is
    the one set, [undefined] on a void arm, a [TypeError] otherwise. *)
Definition arm_not_set (arm : string) : JsError :=
  mkJsError "TypeError" (arm +:+ " not set").

Definition ScVal_bytes (v : ScVal) : Res (option bytes) :=
  match v with
  | ScvBytes b => inr (Some b)
  | ScvVoid => inr None
  | _ => inl (arm_not_set "bytes")
  end.

Definition ScVal_address (v : ScVal) : Res (option ScAddress) :=
  match v with
  | ScvAddress a => inr (Some a)
  | ScvVoid => inr None
  | _ => inl (arm_not_set "address")
  end.

End Xdr.

(** ** Keys and encodings *)
Module Keys.

(** The external encodings: the public key of a secret seed, the raw
    key of an account address, and the [C...] strkey of a contract id. *)
Class Crypto := {
  secret_seed_error : string -> option string;
  public_of_secret : string -> string;
  account_raw : string -> bytes;
  encodeContract : bytes -> string
}.

Record Keypair := mkKeypair { kp_secret : string }.

Definition fromSecret (s : string) : Keypair := mkKeypair s.
Definition secret (k : Keypair) : string := kp_secret k.

(** [Keypair.fromSecret(s)], which decodes the [S...] strkey and throws
    the decoder's error ([invalid encoded string], [invalid version
    byte ...], [invalid checksum]) when it is not a secret seed. *)
Definition Keypair_fromSecret `{Crypto} (s : string) : Res Keypair :=
  match secret_seed_error s with
  | Some msg => inl (new_Error msg)
  | None => inr (fromSecret s)
  end.
Definition publicKey `{Crypto} (k : Keypair) : string :=
  public_of_secret (kp_secret k).

(** [Address.fromScAddress(a).toBuffer()]. *)
Definition address_toBuffer `{Crypto} (a : Xdr.ScAddress) : bytes :=
  match a with
  | Xdr.ScAddressAccount id => account_raw id
  | Xdr.ScAddressContract c => c
  end.

End Keys.

(** ** Transactions and their builder *)
Module TxBuild.
Import Xdr.

Record Account := mkAccount { acc_accountId : string; acc_sequence : Z }.

Definition incrementSequenceNumber (a : Account) : Account :=
  mkAccount (acc_accountId a) (acc_sequence a + 1).

Inductive Operation :=
| OpInvokeContract (contract : string) (function : string) (args : list ScVal)
| OpUploadContractWasm (wasm : bytes)
| OpCreateCustomContract (address : ScAddress) (wasmHash : bytes) (salt : bytes).

Record Contract := mkContract { contract_address : string }.

(** [contract.call(method, ...params)]. *)
Definition call (c : Contract) (method : string) (params : list ScVal) : Operation :=
  OpInvokeContract (contract_address c) method params.

(** A built transaction.  [tx_timeout] is the upper time bound relative
    to the moment of building, in seconds ([0] is no bound); the clock
    itself is not modelled.  [tx_signatures] lists the public keys that
    signed it. *)
Record Transaction := mkTransaction {
  tx_source : string;
  tx_sequence : Z;
  tx_fee : string;
  tx_networkPassphrase : string;
  tx_timeout : Z;
  tx_operations : list Operation;
  tx_signatures : list string
}.

(** [transaction.sign(keypair)]: the signature is attached in place. *)
Definition sign `{Keys.Crypto} (kp : Keys.Keypair) (tx : Transaction) : Transaction :=
  mkTransaction (tx_source tx) (tx_sequence tx) (tx_fee tx)
    (tx_networkPassphrase tx) (tx_timeout tx) (tx_operations tx)
    (tx_signatures tx ++ [Keys.publicKey kp]).

Record TransactionBuilder := mkBuilder {
  tb_source : Account;
  tb_baseFee : string;
  tb_networkPassphrase : option string;
  tb_timebounds : option Z;
  tb_operations : list Operation
}.

Record BuilderOptions := mkOptions {
  opt_fee : string;
  opt_networkPassphrase : option string
}.

(** [new TransactionBuilder(account, opts)]. *)
Definition new_TransactionBuilder (src : Account) (o : BuilderOptions) : Res TransactionBuilder :=
  if String.eqb (opt_fee o) "" then
    inl (new_Error "must specify fee for the transaction (in stroops)")
  else inr (mkBuilder src (opt_fee o) (opt_networkPassphrase o) None []).

Definition setNetworkPassphrase (p : string) (b : TransactionBuilder) : TransactionBuilder :=
  mkBuilder (tb_source b) (tb_baseFee b) (Some p) (tb_timebounds b) (tb_operations b).

Definition setTimeout (t : Z) (b : TransactionBuilder) : Res TransactionBuilder :=
  match tb_timebounds b with
  | Some m =>
      if (0 <? m)%Z then
        inl (new_Error "TimeBounds.max_time has been already set - setting timeout would overwrite it.")
      else if (t <? 0)%Z then inl (new_Error "timeout cannot be negative")
      else inr (mkBuilder (tb_source b) (tb_baseFee b) (tb_networkPassphrase b)
                  (Some t) (tb_operations b))
  | None =>
      if (t <? 0)%Z then inl (new_Error "timeout cannot be negative")
      else inr (mkBuilder (tb_source b) (tb_baseFee b) (tb_networkPassphrase b)
                  (Some t) (tb_operations b))
  end.

Definition addOperation (op : Operation) (b : TransactionBuilder) : TransactionBuilder :=
  mkBuilder (tb_source b) (tb_baseFee b) (tb_networkPassphrase b) (tb_timebounds b)
    (tb_operations b ++ [op]).

(** [build()]: the transaction takes the next sequence number of the
    source account, and the account object itself is incremented. *)
Definition build (b : TransactionBuilder) : Res (Transaction * Account) :=
  match tb_timebounds b, tb_networkPassphrase b with
  | None, _ =>
      inl (new_Error "TimeBounds has to be set or you must call setTimeout(TimeoutInfinite).")
  | Some _, None =>
      inl (new_Error "Invalid passphrase provided to Transaction: expected a string but got a object")
  | Some t, Some p =>
      let src := tb_source b in
      inr (mkTransaction (acc_accountId src) (acc_sequence src + 1) (tb_baseFee b) p t
             (tb_operations b) [],
           incrementSequenceNumber src)
  end.

(** [Networks.TESTNET] and [BASE_FEE]. *)
Definition TESTNET : string := "Test SDF Network ; September 2015".
Definition BASE_FEE : string := "100".

End TxBuild.

(** ** The RPC interface and the world of a script *)
Module Rpc.
Import Xdr TxBuild.

Inductive GetTransactionStatus := SUCCESS | FAILED | NOT_FOUND.

#[export] Instance GetTransactionStatus_eq_dec : EqDecision GetTransactionStatus.
Proof. solve_decision. Defined.

(** [rpc.Api.GetTransactionResponse], a union tagged by its status. *)
Inductive GetTransactionResponse :=
| GetSuccess (txHash : string) (ledger : Z) (returnValue : option ScVal)
| GetFailed (txHash : string) (ledger : Z)
| GetNotFound (txHash : string).

Definition status (r : GetTransactionResponse) : GetTransactionStatus :=
  match r with
  | GetSuccess _ _ _ => SUCCESS
  | GetFailed _ _ => FAILED
  | GetNotFound _ => NOT_FOUND
  end.

Definition txHash (r : GetTransactionResponse) : string :=
  match r with
  | GetSuccess h _ _ | GetFailed h _ | GetNotFound h => h
  end.

Definition returnValue (r : GetTransactionResponse) : option ScVal :=
  match r with
  | GetSuccess _ _ rv => rv
  | _ => None
  end.

Inductive SendStatus := PENDING | DUPLICATE | TRY_AGAIN_LATER | ERROR.

Record SendTransactionResponse := mkSendResponse {
  send_status : SendStatus;
  send_hash : string
}.

Record SimulateHostFunctionResult := mkSimResult { retval : ScVal }.

(** The parsed simulation: an error, a success whose [result] may be
    absent, or a success that needs a restore first. *)
Inductive SimulateTransactionResponse :=
| SimError (error : string)
| SimSuccess (result : option SimulateHostFunctionResult)
| SimRestore (result : SimulateHostFunctionResult).

Record GetEventsRequest := mkEventsRequest {
  ev_startLedger : Z;
  ev_contractIds : list string;
  ev_limit : Z
}.

Record EventResponse := mkEvent {
  event_contractId : string;
  event_topic : list ScVal;
  event_value : ScVal;
  event_ledger : Z
}.

(** What an [rpc.Server] offers.  Each method may throw, and may change
    the network's state. *)
Class RpcServer (N : Type) := {
  rpc_getAccount : string -> N -> Res Account * N;
  rpc_prepareTransaction : Transaction -> N -> Res Transaction * N;
  rpc_sendTransaction : Transaction -> N -> Res SendTransactionResponse * N;
  rpc_getTransaction : string -> N -> Res GetTransactionResponse * N;
  rpc_simulateTransaction : Transaction -> N -> Res SimulateTransactionResponse * N;
  rpc_getLatestLedger : N -> Res Z * N;
  rpc_getEvents : GetEventsRequest -> N -> Res (list EventResponse) * N
}.

(** A request sent to the server, as recorded in the trace. *)
Inductive RpcCall :=
| CallGetAccount (address : string)
| CallPrepareTransaction (tx : Transaction)
| CallSendTransaction (tx : Transaction)
| CallGetTransaction (hash : string)
| CallSimulateTransaction (tx : Transaction)
| CallGetLatestLedger
| CallGetEvents (req : GetEventsRequest).

(** The world a script runs in: the network, the requests sent so far,
    the lines written to stdout and stderr, the milliseconds slept, and
    the files on disk. *)
Record World (N : Type) := mkWorld {
  w_net : N;
  w_calls : list RpcCall;
  w_stdout : list string;
  w_stderr : list string;
  w_clock : Z;
  w_files : gmap string bytes
}.
Arguments mkWorld {N}.
Arguments w_net {N}. Arguments w_calls {N}. Arguments w_stdout {N}.
Arguments w_stderr {N}. Arguments w_clock {N}. Arguments w_files {N}.

(** ** [new rpc.Server(serverURL)]

    The constructor parses the URL with urijs and refuses any protocol
    but [https] (no [allowHttp] option is passed).  [uri_protocol] is
    urijs's [protocol()]: the text before the first [:] when it is a
    scheme (a letter, then letters, digits, [+], [-] or [.]), and [""]
    otherwise or for a URL starting with [//]; urijs first cuts the
    fragment and the query off, which cannot turn a prefix that is not a
    scheme into one or back. *)
Definition is_letter (c : Ascii.ascii) : bool :=
  let n := Ascii.nat_of_ascii c in ((65 <=? n) && (n <=? 90)) || ((97 <=? n) && (n <=? 122)).

Definition is_digit (c : Ascii.ascii) : bool :=
  let n := Ascii.nat_of_ascii c in (48 <=? n) && (n <=? 57).

(** A letter, a digit, [+] (43), [-] (45) or [.] (46). *)
Definition is_scheme_char (c : Ascii.ascii) : bool :=
  is_letter c || is_digit c || existsb (Nat.eqb (Ascii.nat_of_ascii c)) [43; 45; 46].

Fixpoint all_scheme_chars (s : string) : bool :=
  match s with
  | EmptyString => true
  | String c s' => is_scheme_char c && all_scheme_chars s'
  end.

Definition is_scheme (s : string) : bool :=
  match s with
  | EmptyString => false
  | String c s' => is_letter c && all_scheme_chars s'
  end.

Definition uri_protocol (url : string) : string :=
  if String.prefix "//" url then ""
  else match String.index 0 ":" url with
       | Some pos => let p := String.substring 0 pos url in if is_scheme p then p else ""
       | None => ""
       end.

Definition INSECURE_SERVER : string :=
  "Cannot connect to insecure Soroban RPC server if `allowHttp` isn't set".

Definition Server_new (serverURL : string) : Res unit :=
  if String.eqb (uri_protocol serverURL) "https" then inr tt
  else inl (new_Error INSECURE_SERVER).

Section Requests.
Context {N : Type} `{RpcServer N}.

(** An [await] on a server method: the request is recorded, the
    server answers and changes state. *)
Definition request {A} (c : RpcCall) (op : N -> Res A * N) : M (World N) A :=
  fun w =>
    let '(r, n') := op (w_net w) in
    (outcome_of_res r,
     mkWorld n' (w_calls w ++ [c]) (w_stdout w) (w_stderr w) (w_clock w) (w_files w)).

Definition getAccount (address : string) : M (World N) Account :=
  request (CallGetAccount address) (rpc_getAccount address).
Definition prepareTransaction (tx : Transaction) : M (World N) Transaction :=
  request (CallPrepareTransaction tx) (rpc_prepareTransaction tx).
Definition sendTransaction (tx : Transaction) : M (World N) SendTransactionResponse :=
  request (CallSendTransaction tx) (rpc_sendTransaction tx).
Definition getTransaction (hash : string) : M (World N) GetTransactionResponse :=
  request (CallGetTransaction hash) (rpc_getTransaction hash).
Definition simulateTransaction (tx : Transaction) : M (World N) SimulateTransactionResponse :=
  request (CallSimulateTransaction tx) (rpc_simulateTransaction tx).
Definition getLatestLedger : M (World N) Z :=
  request CallGetLatestLedger rpc_getLatestLedger.
Definition getEvents (req : GetEventsRequest) : M (World N) (list EventResponse) :=
  request (CallGetEvents req) (rpc_getEvents req).

(** [await Utils.sleep(ms)]. *)
Definition sleep (ms : Z) : M (World N) unit :=
  fun w => (Ok tt, mkWorld (w_net w) (w_calls w) (w_stdout w) (w_stderr w)
                     (w_clock w + ms) (w_files w)).

Definition console_log (line : string) : M (World N) unit :=
  fun w => (Ok tt, mkWorld (w_net w) (w_calls w) (w_stdout w ++ [line]) (w_stderr w)
                     (w_clock w) (w_files w)).

Definition console_error (line : string) : M (World N) unit :=
  fun w => (Ok tt, mkWorld (w_net w) (w_calls w) (w_stdout w) (w_stderr w ++ [line])
                     (w_clock w) (w_files w)).

(** [fs.existsSync(path)] and [fs.readFileSync(path)]. *)
Definition existsSync (path : string) : M (World N) bool :=
  fun w => (Ok (bool_decide (is_Some (w_files w !! path))), w).

Definition readFileSync (path : string) : M (World N) bytes :=
  fun w =>
    match w_files w !! path with
    | Some b => (Ok b, w)
    | None =>
        (Throw (new_Error ("ENOENT: no such file or directory, open '" +:+ path +:+ "'")), w)
    end.

(** ** [server.pollTransaction(hash, opts)]

    The SDK's loop: up to [maxAttempts - 1] requests that stop at the
    first status other than [NOT_FOUND], with a sleep of
    [BasicSleepStrategy(i)] milliseconds after each [NOT_FOUND], then
    one last request whose answer is returned whatever it is. *)
Definition DEFAULT_POLLING_ATTEMPTS : Z := 30.
Definition BasicSleepStrategy (iter : Z) : Z := 1000.

Fixpoint poll_loop (k : nat) (i : Z) (hash : string) : M (World N) GetTransactionResponse :=
  match k with
  | O => getTransaction hash
  | S k' =>
      let* foundInfo := getTransaction hash in
      match status foundInfo with
      | NOT_FOUND => sleep (BasicSleepStrategy i) ;; poll_loop k' (i + 1) hash
      | _ => ret foundInfo
      end
  end.

Definition maxAttempts (attempts : option Z) : Z :=
  if (default 0 attempts <? 1)%Z then DEFAULT_POLLING_ATTEMPTS
  else default DEFAULT_POLLING_ATTEMPTS attempts.

Definition pollTransaction (hash : string) (attempts : option Z) : M (World N) GetTransactionResponse :=
  poll_loop (Z.to_nat (maxAttempts attempts - 1)) 1 hash.
End Requests.

End Rpc.

(** ** The polling loop is bounded *)
Module RpcFacts.
Import TxBuild Rpc.

Section RpcFactsSec.
Context {N : Type} `{RpcServer N}.

(** What one request does to the world: the server's answer, and the
    request appended to the trace. *)
Lemma request_run {A} c (op : N -> Res A * N) (w : World N) :
  request c op w =
    (outcome_of_res (op (w_net w)).1,
     mkWorld (op (w_net w)).2 (w_calls w ++ [c]) (w_stdout w) (w_stderr w)
       (w_clock w) (w_files w)).
Proof. unfold request. by destruct (op (w_net w)). Qed.

Lemma maxAttempts_pos attempts : (1 <= maxAttempts attempts)%Z.
Proof.
  unfold maxAttempts, DEFAULT_POLLING_ATTEMPTS.
  destruct attempts as [a|]; cbn; [|lia].
  destruct (Z.ltb_spec a 1); lia.
Qed.

(** The loop with [k] iterations left sends between one and [k + 1]
    [getTransaction] requests for [hash] and nothing else, sleeps one
    second after each but the last, leaves console and files alone,
    never ends the process, and returns [NOT_FOUND] only after using
    every attempt. *)
Lemma poll_loop_run k i hash (w : World N) :
  let '(o, w') := poll_loop k i hash w in
  exists n, (1 <= n <= S k)%nat /\
    w_calls w' = w_calls w ++ replicate n (CallGetTransaction hash) /\
    w_clock w' = (w_clock w + 1000 * Z.of_nat (n - 1))%Z /\
    w_stdout w' = w_stdout w /\ w_stderr w' = w_stderr w /\
    w_files w' = w_files w /\
    (forall c, o <> Exit c) /\
    (forall r, o = Ok r -> status r = NOT_FOUND -> n = S k).
Proof.
  revert i w. induction k as [|k IH]; intros i w; cbn [poll_loop].
  - unfold getTransaction. rewrite request_run.
    destruct (rpc_getTransaction hash (w_net w)) as [[e|r] n']; cbn;
      exists 1%nat; rewrite ?Z.add_0_r; repeat split; done || lia.
  - unfold bind at 1, getTransaction. rewrite request_run.
    destruct (rpc_getTransaction hash (w_net w)) as [[e|r] n']; cbn.
    + exists 1%nat. rewrite Z.add_0_r. repeat split; done || lia.
    + destruct (status r) eqn:Hs; cbn;
        [exists 1%nat; rewrite Z.add_0_r; repeat split; (done || lia || congruence)..|].
      specialize (IH (i + 1)%Z
        (mkWorld n' (w_calls w ++ [CallGetTransaction hash]) (w_stdout w) (w_stderr w)
           (w_clock w + BasicSleepStrategy i) (w_files w))).
      destruct (poll_loop k _ hash _) as [o w'].
      destruct IH as (n & Hn & Hc & Hk & Ho & He & Hf & Hx & Hnf); cbn in *.
      exists (S n). rewrite Hc, Hk, Ho, He, Hf, <- app_assoc. cbn.
      unfold BasicSleepStrategy. repeat split; try done; try lia.
      intros r0 Hr0 Hs0. specialize (Hnf r0 Hr0 Hs0). lia.
Qed.
End RpcFactsSec.

(** ** Network code leaves console and files alone *)

(** [m] writes nothing on stdout or stderr and changes no file, whatever
    the world and whatever the server answers. *)
Definition preserves_io {N A} (m : M (World N) A) : Prop :=
  forall w, w_stdout (m w).2 = w_stdout w /\ w_stderr (m w).2 = w_stderr w /\
            w_files (m w).2 = w_files w.

Create HintDb io discriminated.

Section PreservesIo.
Context {N : Type} `{RpcServer N}.

Lemma request_io {A} c (op : N -> Res A * N) : preserves_io (request c op).
Proof. intros w. by rewrite request_run. Qed.

Lemma ret_io {A} (a : A) : preserves_io (N:=N) (ret a).
Proof. done. Qed.

Lemma throw_io {A} e : preserves_io (N:=N) (A:=A) (throw e).
Proof. done. Qed.

Lemma of_res_io {A} (r : Res A) : preserves_io (N:=N) (of_res r).
Proof. by destruct r. Qed.

Lemma sleep_io ms : preserves_io (N:=N) (sleep ms).
Proof. done. Qed.

Lemma bind_io {A B} (m : M (World N) A) (f : A -> M (World N) B) :
  preserves_io m -> (forall a, preserves_io (f a)) -> preserves_io (bind m f).
Proof.
  intros Hm Hf w. unfold bind. specialize (Hm w).
  destruct (m w) as [[a|e|c] w1]; cbn in *; [|done..].
  destruct (Hf a w1) as (? & ? & ?), Hm as (? & ? & ?). split_and!; congruence.
Qed.

Lemma try_catch_io {A} (m : M (World N) A) h :
  preserves_io m -> (forall e, preserves_io (h e)) -> preserves_io (try_catch m h).
Proof.
  intros Hm Hh w. unfold try_catch. specialize (Hm w).
  destruct (m w) as [[a|e|c] w1]; cbn in *; [done| |done].
  destruct (Hh e w1) as (? & ? & ?), Hm as (? & ? & ?). split_and!; congruence.
Qed.

Lemma poll_loop_io k i hash : preserves_io (N:=N) (poll_loop k i hash).
Proof.
  intros w. pose proof (poll_loop_run k i hash w) as Hrun.
  destruct (poll_loop k i hash w) as [o w']. cbn.
  destruct Hrun as (n & _ & _ & _ & ? & ? & ? & _). done.
Qed.
End PreservesIo.

#[export] Hint Resolve request_io ret_io throw_io of_res_io sleep_io bind_io try_catch_io
  poll_loop_io : io.

(** Prove [preserves_io] of a script from its parts. *)
Ltac solve_io :=
  repeat (intros; lazymatch goal with
    | |- preserves_io (match ?x with _ => _ end) => destruct x
    | |- preserves_io (if ?b then _ else _) => destruct b
    | |- preserves_io (let _ := _ in _) => cbv zeta
    | |- preserves_io (bind _ _) => apply bind_io
    | |- preserves_io (try_catch _ _) => apply try_catch_io
    | _ => first [ solve [eauto with io] | progress unfold pollTransaction | progress cbn beta ]
    end).

(** Unfold a request and substitute the server's answer [Hans]. *)
Ltac answer Hans := rewrite request_run; cbn [w_net]; rewrite Hans; cbn.
End RpcFacts.

Module PollBound.
Import TxBuild Rpc RpcFacts.

Section PollBoundSec.
Context {N : Type} `{RpcServer N}.

(** C3: [pollTransaction] terminates after at most [maxAttempts]
    requests (30 by default), sleeping one second between two of them,
    and answers [NOT_FOUND] only when every attempt was used. *)
Theorem pollTransaction_bounded hash attempts (w : World N) :
  let '(o, w') := pollTransaction hash attempts w in
  exists n, (1 <= Z.of_nat n <= maxAttempts attempts)%Z /\
    w_calls w' = w_calls w ++ replicate n (CallGetTransaction hash) /\
    w_clock w' = (w_clock w + 1000 * (Z.of_nat n - 1))%Z /\
    (forall c, o <> Exit c) /\
    (forall r, o = Ok r -> status r = NOT_FOUND -> Z.of_nat n = maxAttempts attempts).
Proof.
  unfold pollTransaction. pose proof (maxAttempts_pos attempts) as Hpos.
  pose proof (poll_loop_run (Z.to_nat (maxAttempts attempts - 1)) 1 hash w) as Hrun.
  destruct (poll_loop _ _ _ _) as [o w'].
  destruct Hrun as (n & Hn & Hc & Hk & _ & _ & _ & Hx & Hnf).
  exists n. repeat split; try done; try lia.
  intros r Hr Hs. specialize (Hnf r Hr Hs). lia.
Qed.
End PollBoundSec.
End PollBound.
