(* ===== verification/Native.v ===== *)
(** * JavaScript values and how the drivers print them

    The drivers turn contract values into JavaScript values with the
    SDK's [scValToNative] and print them in template literals
    ([`... ${v}`], which is [String(v)]) or as extra arguments of
    [console.log] (which [util.format] renders: strings as they are,
    everything else through [util.inspect]).  This file has
    - [Native]: the JavaScript values [scValToNative] produces;
    - [scValToNative] on the arms of [Xdr.ScVal], and [nativeToScVal] of a
      string with [{ type: "string" }];
    - [js_String]: [String(v)], where an array is its elements joined
      with [","] and [null] or [undefined] elements are empty;
    - [format_log]: the line [console.log(a1, ..., an)] prints.
    Five things of Node are behind the typeclass [NodeRuntime] and not
    modelled: UTF-8 decoding of a [Buffer] ([buf.toString()]), the
    layout [util.inspect] gives arrays and buffers (line breaking and
    grouping depend on the width of the output), the report Node prints
    for an unhandled rejection, the error its module loader raises for
    an import it cannot resolve, and [dotenv]'s line parser.  Numbers, big integers,
    strings, booleans, [null] and [undefined] are printed exactly. *)

From S2P Require Import Prelude Sdk.
From stdpp Require Import pretty.
Import Xdr Keys.

Module Native.

(** The values [scValToNative] returns for the arms of [ScVal]. *)
Inductive Native :=
| NUndefined
| NNull
| NBool (b : bool)
| NNumber (n : Z)
| NBigInt (n : Z)
| NString (s : string)
| NBuffer (b : bytes)
| NArray (elems : list Native).

(** What the Node runtime and its libraries do that is not modelled:
    UTF-8 decoding of a buffer, [util.inspect] of a compound value, the
    lines Node prints on stderr for an unhandled rejection (the error's
    stack, which names files and lines), the [ERR_MODULE_NOT_FOUND]
    error of the ES module loader for an import specifier that names no
    file (its message holds the resolved absolute paths), and the parser
    of [dotenv] ([KEY=VALUE] lines with comments, quotes and
    [export]). *)
Class NodeRuntime := {
  buffer_toString : bytes -> string;
  inspect_object : Native -> string;
  uncaught_report : JsError -> list string;
  module_not_found : string -> JsError;
  dotenv_parse : bytes -> list (string * string)
}.

Section NativeSec.
Context `{Crypto} `{NodeRuntime}.

(** [Address.fromScAddress(a).toString()]: the strkey of the address. *)
Definition address_toString (a : ScAddress) : string :=
  match a with
  | ScAddressAccount id => id
  | ScAddressContract c => encodeContract c
  end.

(** [scValToNative]: [void] is [null], 32-bit integers are numbers, 64-bit
    ones are [BigInt]s, strings and symbols are strings, bytes a
    [Buffer], an address its strkey and a vector an array. *)
Fixpoint scValToNative (v : ScVal) : Native :=
  match v with
  | ScvVoid => NNull
  | ScvBool b => NBool b
  | ScvU32 n | ScvI32 n => NNumber n
  | ScvU64 n => NBigInt n
  | ScvString s | ScvSymbol s => NString s
  | ScvBytes b => NBuffer b
  | ScvAddress a => NString (address_toString a)
  | ScvVec vs => NArray (map scValToNative vs)
  end.

(** [nativeToScVal(s, { type: "string" })]. *)
Definition nativeToScVal_string (s : string) : ScVal := ScvString s.

(** [String(v)], as a template literal converts its holes. *)
Fixpoint js_String (v : Native) : string :=
  match v with
  | NUndefined => "undefined"
  | NNull => "null"
  | NBool b => if b then "true" else "false"
  | NNumber n | NBigInt n => pretty n
  | NString s => s
  | NBuffer b => buffer_toString b
  | NArray vs =>
      String.concat ","
        (map (fun e => match e with NNull | NUndefined => "" | _ => js_String e end) vs)
  end.

(** [util.inspect(v)]. *)
Definition inspect (v : Native) : string :=
  match v with
  | NUndefined => "undefined"
  | NNull => "null"
  | NBool b => if b then "true" else "false"
  | NNumber n => pretty n
  | NBigInt n => pretty n +:+ "n"
  | NString s => "'" +:+ s +:+ "'"
  | NBuffer _ | NArray _ => inspect_object v
  end.

(** The line [console.log(a1, ..., an)] prints when the first argument
    has no [%] directive: the arguments separated by spaces, strings as
    they are and the other values inspected. *)
Definition format_arg (v : Native) : string :=
  match v with
  | NString s => s
  | _ => inspect v
  end.

Definition format_log (args : list Native) : string :=
  String.concat " " (map format_arg args).

End NativeSec.
End Native.
