(* ===== verification/Fake.v ===== *)
(** * A scripted RPC server

    A network model whose answers are fixed in advance, as the fake
    network client of a test would be: accounts with their sequence
    numbers, whether [prepareTransaction] rejects, the hash and status
    [sendTransaction] answers, the queue of answers [getTransaction] gives
    in order ([NOT_FOUND] once the queue is empty), the simulation answer,
    the latest ledger and the stored events.  It is an instance of
    [Sdk.Rpc.RpcServer] and, with [fake_crypto], gives the concrete worlds
    on which the theorems of the other files are applied. *)

From S2P Require Import Prelude Sdk.
Import Xdr Keys TxBuild Rpc.

Module Fake.

Record FakeNet := mkFake {
  fk_accounts : gmap string Z;
  fk_prepare_error : option string;
  fk_hash : string;
  fk_send_status : SendStatus;
  fk_polls : list GetTransactionResponse;
  fk_sim : SimulateTransactionResponse;
  fk_sent : list Transaction;
  fk_ledger : Z;
  fk_events : list EventResponse
}.

Definition with_polls (n : FakeNet) (ps : list GetTransactionResponse) : FakeNet :=
  mkFake (fk_accounts n) (fk_prepare_error n) (fk_hash n) (fk_send_status n) ps
    (fk_sim n) (fk_sent n) (fk_ledger n) (fk_events n).

Definition with_sent (n : FakeNet) (tx : Transaction) : FakeNet :=
  mkFake (fk_accounts n) (fk_prepare_error n) (fk_hash n) (fk_send_status n) (fk_polls n)
    (fk_sim n) (fk_sent n ++ [tx]) (fk_ledger n) (fk_events n).

Definition fake_getAccount (a : string) (n : FakeNet) : Res Account * FakeNet :=
  match fk_accounts n !! a with
  | Some s => (inr (mkAccount a s), n)
  | None => (inl (new_Error ("Account not found: " +:+ a)), n)
  end.

Definition fake_prepare (tx : Transaction) (n : FakeNet) : Res Transaction * FakeNet :=
  match fk_prepare_error n with
  | Some e => (inl (new_Error e), n)
  | None => (inr tx, n)
  end.

Definition fake_send (tx : Transaction) (n : FakeNet) : Res SendTransactionResponse * FakeNet :=
  (inr (mkSendResponse (fk_send_status n) (fk_hash n)), with_sent n tx).

Definition fake_getTransaction (h : string) (n : FakeNet) : Res GetTransactionResponse * FakeNet :=
  match fk_polls n with
  | [] => (inr (GetNotFound h), n)
  | r :: rs => (inr r, with_polls n rs)
  end.

Definition fake_getEvents (req : GetEventsRequest) (n : FakeNet) : Res (list EventResponse) * FakeNet :=
  (inr (filter (fun e => event_contractId e ∈ ev_contractIds req /\
                         (ev_startLedger req <= event_ledger e)%Z) (fk_events n)), n).

#[export] Instance fake_server : RpcServer FakeNet := {
  rpc_getAccount := fake_getAccount;
  rpc_prepareTransaction := fake_prepare;
  rpc_sendTransaction := fake_send;
  rpc_getTransaction := fake_getTransaction;
  rpc_simulateTransaction := fun _ n => (inr (fk_sim n), n);
  rpc_getLatestLedger := fun n => (inr (fk_ledger n), n);
  rpc_getEvents := fake_getEvents
}.

(** A toy encoding: every non-empty string is a seed, and the public key
    of seed [s] is ["G" ++ s]. *)
#[export] Instance fake_crypto : Crypto := {
  secret_seed_error := fun s => if String.eqb s "" then Some "invalid encoded string" else None;
  public_of_secret := fun s => "G" +:+ s;
  account_raw := fun a => String.list_byte_of_string a;
  encodeContract := fun b => "C" +:+ String.string_of_list_byte b
}.

(** The scenario of the spec: account [GS] at sequence 5, send answers
    hash ["abc"], the polls answer [polls]. *)
Definition scenario (polls : list GetTransactionResponse) (sim : SimulateTransactionResponse) : FakeNet :=
  mkFake {[ "GS" := 5%Z ]} None "abc" PENDING polls sim [] 1000 [].

Definition start (n : FakeNet) : World FakeNet := mkWorld n [] [] [] 0 ∅.

Definition signer : Keypair := fromSecret "S".

End Fake.
