(* ===== verification/Lifecycle.v ===== *)
(** * The transaction lifecycle of the spec

    The spec (sections 3, 4.2, 4.3 and 5) describes the lifecycle of one
    transaction: the account is fetched, a one-operation transaction is
    built on it and handed to the network's preparation, the prepared
    transaction is signed and submitted, then its hash is polled a
    bounded number of times; a simulation replaces preparation,
    signature, submission and polling by one dry run.  The steps are
    strictly sequential and no step runs after one that failed.  This
    file states that lifecycle; it is not code of the repository.

    [Lifecycle.lc_step pk op] is the order of the lifecycle's requests
    as a labelled step relation on [Phase], each label a request of the
    trace [w_calls]; [lc_run] is its closure along a list of requests,
    with the bound [lc_run_bound] by rule induction.
    [ServerLifecycle.nstep pk fee passphrase op] is the lifecycle against
    the server: its state is a phase and the server's state, each step a
    request and the server's answer; the transaction prepared is the one
    built on the account the server answered, the one sent is the
    prepared one the server answered with the signer's signature
    attached, the hash polled is the one the server answered to the
    submission, and a refused step ends the run in [NFailed], from which
    no step leaves.  [nrun] is its closure, bounded by [nrun_bound].
    The refinement theorems are [Helpers.HelpersLifecycle] (the
    submission pipeline against the server) and [Refinement.v] (the
    order of the requests of the pipeline and the simulator). *)

From S2P Require Import Prelude Sdk.
Import Xdr Keys TxBuild Rpc.

Module Lifecycle.

Inductive Phase :=
| Start
| Fetched
| Prepared
| Submitted
| Polled (hash : string) (n : nat)
| Simulated.

(** The bound on the status queries of one hash: the SDK's default. *)
Definition MAX_POLLS : nat := Z.to_nat DEFAULT_POLLING_ATTEMPTS.

(** A transaction as the builder hands it on: the one operation, no
    signature yet, a positive timeout. *)
Definition unsigned_with (op : Operation) (tx : Transaction) : Prop :=
  tx_operations tx = [op] /\ tx_signatures tx = [] /\ (0 < tx_timeout tx)%Z.

Section Steps.
Variables (pk : string) (op : Operation).

Inductive lc_step : Phase -> RpcCall -> Phase -> Prop :=
| lc_fetch : lc_step Start (CallGetAccount pk) Fetched
| lc_prepare tx : unsigned_with op tx -> lc_step Fetched (CallPrepareTransaction tx) Prepared
| lc_send tx : last (tx_signatures tx) = Some pk -> lc_step Prepared (CallSendTransaction tx) Submitted
| lc_poll_first h : lc_step Submitted (CallGetTransaction h) (Polled h 1)
| lc_poll_next h n : (n < MAX_POLLS)%nat -> lc_step (Polled h n) (CallGetTransaction h) (Polled h (S n))
| lc_simulate tx : unsigned_with op tx -> lc_step Fetched (CallSimulateTransaction tx) Simulated.

Inductive lc_run : Phase -> list RpcCall -> Phase -> Prop :=
| lc_done ph : lc_run ph [] ph
| lc_then ph c ph' cs ph'' : lc_step ph c ph' -> lc_run ph' cs ph'' -> lc_run ph (c :: cs) ph''.

Lemma lc_run_app ph1 cs ph2 ds ph3 :
  lc_run ph1 cs ph2 -> lc_run ph2 ds ph3 -> lc_run ph1 (cs ++ ds) ph3.
Proof. induction 1; cbn; [done|]. intros. econstructor; eauto. Qed.

Lemma lc_run_one ph c ph' : lc_step ph c ph' -> lc_run ph [c] ph'.
Proof. intros. econstructor; [done | constructor]. Qed.

(** Further queries of the same hash, within the bound. *)
Lemma lc_polls_more h m k :
  (1 <= m)%nat -> (m + k <= MAX_POLLS)%nat ->
  lc_run (Polled h m) (replicate k (CallGetTransaction h)) (Polled h (m + k)).
Proof.
  revert m. induction k as [|k IH]; intros m Hm Hk; cbn.
  - rewrite Nat.add_0_r. constructor.
  - econstructor; [apply lc_poll_next; lia|]. rewrite <- Nat.add_succ_comm. apply IH; lia.
Qed.

Lemma lc_polls h n :
  (1 <= n <= MAX_POLLS)%nat ->
  lc_run Submitted (replicate n (CallGetTransaction h)) (Polled h n).
Proof.
  intros Hn. destruct n as [|n]; [lia|]. cbn.
  econstructor; [apply lc_poll_first|]. apply (lc_polls_more h 1 n); lia.
Qed.

(** Rule induction: along a run, the number of status queries never
    exceeds [MAX_POLLS]. *)
Definition polls_of (ph : Phase) : nat :=
  match ph with Polled _ n => n | _ => 0 end.

Lemma lc_step_polls ph c ph' : lc_step ph c ph' -> (polls_of ph' <= MAX_POLLS)%nat.
Proof. destruct 1; cbn; unfold MAX_POLLS, DEFAULT_POLLING_ATTEMPTS in *; cbn in *; lia. Qed.

Lemma lc_run_polls ph cs ph' :
  (polls_of ph <= MAX_POLLS)%nat -> lc_run ph cs ph' -> (polls_of ph' <= MAX_POLLS)%nat.
Proof. intros Hb. induction 1; [done|]. apply IHlc_run. by eapply lc_step_polls. Qed.

(** Rule induction: each step sends one request, so the length of a
    run is how far along the lifecycle it goes. *)
Definition phase_index (ph : Phase) : nat :=
  match ph with
  | Start => 0
  | Fetched => 1
  | Prepared | Simulated => 2
  | Submitted => 3
  | Polled _ n => 3 + n
  end.

Lemma lc_step_index ph c ph' : lc_step ph c ph' -> phase_index ph' = S (phase_index ph).
Proof. destruct 1; cbn; lia. Qed.

Lemma lc_run_index ph cs ph' :
  lc_run ph cs ph' -> (phase_index ph + length cs)%nat = phase_index ph'.
Proof. induction 1 as [|ph c ph' cs ph'' Hs _ IH]; cbn; [lia|]. apply lc_step_index in Hs. lia. Qed.

Lemma lc_run_length cs ph : lc_run Start cs ph -> length cs = phase_index ph.
Proof. intros Hr. apply lc_run_index in Hr. cbn in Hr. lia. Qed.

(** A run from [Start] sends at most [3 + MAX_POLLS] requests. *)
Lemma lc_run_bound cs ph : lc_run Start cs ph -> (length cs <= 3 + MAX_POLLS)%nat.
Proof.
  intros Hr. apply lc_run_length in Hr as Hlen. apply lc_run_polls in Hr; [|cbn; lia].
  destruct ph; cbn in *; lia.
Qed.

End Steps.

End Lifecycle.

(** ** The lifecycle against the server

    [Lifecycle] records which request may follow which;
    [ServerLifecycle] also follows what the server answers.  Its state is
    a phase and the server's state, and each step is one request and the
    server's answer to it: the account fetched ([NFetched acc]), the
    transaction built on that account prepared ([NPrepared ptx]), the
    prepared transaction sent with the signer's signature attached, then
    the hash the server answered polled ([NPolling h k] after [k]
    queries) until a terminal status.  A step that fails leads to
    [NFailed], from which no step leaves, so no step follows a failure
    (spec, section 4.2).  The only step without a request is a builder
    that refuses an empty fee. *)
Module ServerLifecycle.
Import Lifecycle.

Inductive NPhase :=
| NStart
| NFetched (acc : Account)
| NPrepared (ptx : Transaction)
| NPolling (hash : string) (k : nat)
| NDone (r : GetTransactionResponse)
| NFailed.

(** The spec's transaction builder (section 4.1): the one operation on
    the fetched account's next sequence number, with the fee and network
    asked for, a positive timeout and no signature yet. *)
Definition built_from (fee passphrase : string) (op : Operation) (acc : Account)
    (tx : Transaction) : Prop :=
  tx_source tx = acc_accountId acc /\ tx_sequence tx = (acc_sequence acc + 1)%Z /\
  tx_fee tx = fee /\ tx_networkPassphrase tx = passphrase /\ (0 < tx_timeout tx)%Z /\
  tx_operations tx = [op] /\ tx_signatures tx = [].

(** The prepared transaction with the signature of [pk] attached
    (spec, section 2: signing mutates the prepared transaction). *)
Definition signed_by (pk : string) (tx : Transaction) : Transaction :=
  mkTransaction (tx_source tx) (tx_sequence tx) (tx_fee tx) (tx_networkPassphrase tx)
    (tx_timeout tx) (tx_operations tx) (tx_signatures tx ++ [pk]).

(** An answer to the status query after [k] earlier ones that ends the
    lifecycle in failure (spec, section 4.3): an error, [FAILED], a
    success without a return value, or [NOT_FOUND] when the attempts are
    used up. *)
Definition poll_rejected (k : nat) (res : Res GetTransactionResponse) : Prop :=
  match res with
  | inl _ => True
  | inr r => status r = FAILED \/ (status r = SUCCESS /\ returnValue r = None) \/
             (status r = NOT_FOUND /\ S k = MAX_POLLS)
  end.

Section Steps.
Context {N : Type} `{RpcServer N}.
Variables (pk fee passphrase : string) (op : Operation).

Inductive nstep : NPhase * N -> option RpcCall -> NPhase * N -> Prop :=
| n_fetch n acc n' :
    rpc_getAccount pk n = (inr acc, n') ->
    nstep (NStart, n) (Some (CallGetAccount pk)) (NFetched acc, n')
| n_fetch_fail n e n' :
    rpc_getAccount pk n = (inl e, n') ->
    nstep (NStart, n) (Some (CallGetAccount pk)) (NFailed, n')
| n_build_fail acc n :
    fee = "" -> nstep (NFetched acc, n) None (NFailed, n)
| n_prepare acc tx n ptx n' :
    built_from fee passphrase op acc tx -> rpc_prepareTransaction tx n = (inr ptx, n') ->
    nstep (NFetched acc, n) (Some (CallPrepareTransaction tx)) (NPrepared ptx, n')
| n_prepare_fail acc tx n e n' :
    built_from fee passphrase op acc tx -> rpc_prepareTransaction tx n = (inl e, n') ->
    nstep (NFetched acc, n) (Some (CallPrepareTransaction tx)) (NFailed, n')
| n_send ptx n resp n' :
    rpc_sendTransaction (signed_by pk ptx) n = (inr resp, n') ->
    nstep (NPrepared ptx, n) (Some (CallSendTransaction (signed_by pk ptx)))
      (NPolling (send_hash resp) 0, n')
| n_send_fail ptx n e n' :
    rpc_sendTransaction (signed_by pk ptx) n = (inl e, n') ->
    nstep (NPrepared ptx, n) (Some (CallSendTransaction (signed_by pk ptx))) (NFailed, n')
| n_poll_wait h k n r n' :
    (S k < MAX_POLLS)%nat -> rpc_getTransaction h n = (inr r, n') -> status r = NOT_FOUND ->
    nstep (NPolling h k, n) (Some (CallGetTransaction h)) (NPolling h (S k), n')
| n_poll_done h k n r n' :
    rpc_getTransaction h n = (inr r, n') -> status r = SUCCESS -> is_Some (returnValue r) ->
    nstep (NPolling h k, n) (Some (CallGetTransaction h)) (NDone r, n')
| n_poll_fail h k n res n' :
    rpc_getTransaction h n = (res, n') -> poll_rejected k res ->
    nstep (NPolling h k, n) (Some (CallGetTransaction h)) (NFailed, n').

(** A run and the requests it sends, in order. *)
Inductive nrun : NPhase * N -> list RpcCall -> NPhase * N -> Prop :=
| nrun_done s : nrun s [] s
| nrun_req s c s' cs s'' : nstep s (Some c) s' -> nrun s' cs s'' -> nrun s (c :: cs) s''
| nrun_silent s s' cs s'' : nstep s None s' -> nrun s' cs s'' -> nrun s cs s''.

(** What a terminal phase hands the caller: the confirmed transaction,
    or an error. *)
Definition settles (o : outcome GetTransactionResponse) (ph : NPhase) : Prop :=
  match ph with
  | NDone r => o = Ok r
  | NFailed => exists e, o = Throw e
  | _ => False
  end.

Lemma nrun_one s c s' : nstep s (Some c) s' -> nrun s [c] s'.
Proof. intros. econstructor; [done | constructor]. Qed.

(** Rule inversion: the failed and the confirmed phases are final. *)
Lemma nstep_from_final s l s' :
  nstep s l s' -> s.1 <> NFailed /\ forall r, s.1 <> NDone r.
Proof. destruct 1; split; by intros. Qed.

Lemma nrun_from_final s cs s' :
  (s.1 = NFailed \/ exists r, s.1 = NDone r) -> nrun s cs s' -> cs = [] /\ s' = s.
Proof.
  intros Hph Hr. destruct Hr as [|s0 c s1 cs' s2 Hs _|s0 s1 cs' s2 Hs _]; [done|..];
    apply nstep_from_final in Hs as [Hf Hd]; destruct Hph as [Hph | [r Hph]];
    solve [done | by destruct (Hd r)].
Qed.
(** Rule induction: the requests a run may still send from a phase.
    Each request uses one up, a silent step none, so a run from the
    start sends at most [3 + MAX_POLLS] requests. *)
Definition budget (ph : NPhase) : nat :=
  match ph with
  | NStart => 3 + MAX_POLLS
  | NFetched _ => 2 + MAX_POLLS
  | NPrepared _ => 1 + MAX_POLLS
  | NPolling _ k => MAX_POLLS - k
  | NDone _ | NFailed => 0
  end.

Definition live (ph : NPhase) : Prop :=
  match ph with NPolling _ k => (k < MAX_POLLS)%nat | _ => True end.

Lemma nstep_budget s l s' :
  nstep s l s' -> live s.1 -> live s'.1 /\ (length (option_list l) + budget s'.1 <= budget s.1)%nat.
Proof. destruct 1; cbn; change MAX_POLLS with 30%nat in *; lia. Qed.

Lemma nrun_budget s cs s' :
  nrun s cs s' -> live s.1 -> (length cs + budget s'.1 <= budget s.1)%nat.
Proof.
  induction 1 as [|s c s1 cs s2 Hs _ IH|s s1 cs s2 Hs _ IH]; cbn; [lia|..];
    intros Hl; destruct (nstep_budget _ _ _ Hs Hl) as [Hl1 Hb]; cbn in Hb; specialize (IH Hl1); lia.
Qed.

Lemma nrun_bound n cs s' : nrun (NStart, n) cs s' -> (length cs <= 3 + MAX_POLLS)%nat.
Proof. intros Hr. apply nrun_budget in Hr; cbn in *; lia. Qed.
End Steps.

End ServerLifecycle.
