(* ===== verification/Helpers.v ===== *)
(** * [src/src/utils/helpers.ts]: submission and confirmation

    [getPollingTransaction] polls a hash to a terminal status and keeps
    only a successful transaction with a return value; every failure is
    rethrown by its [catch] as one generic error.
    [submitStellarTransaction] fetches the signer's account, builds a one
    operation transaction, prepares, signs and sends it, then polls the
    hash the server answered.  [submitTransaction] is the same pipeline on
    a contract call.  The theorems give the poller's behaviour on every
    branch, its liveness (it returns exactly when the network confirms
    within the SDK's 30 polls), the pipeline's requests and the
    transaction it builds, what a failing step leaves behind, and that
    the pipeline refines the spec's lifecycle against the server
    ([HelpersLifecycle], on [Lifecycle.ServerLifecycle]). *)

From S2P Require Import Prelude Sdk Fake Lifecycle.
Import Xdr Keys TxBuild Rpc.

Module Helpers.

(** [SubmitStellarTransactionParams] and [SubmitTransactionParams]; the
    [provider] field is the network of the world the script runs in. *)
Record SubmitStellarTransactionParams := mkSubmitStellarParams {
  ssp_signer : Keypair;
  ssp_networkPassphrase : option string;
  ssp_fee : option string;
  ssp_operation : Operation
}.

Record SubmitTransactionParams := mkSubmitParams {
  stp_signer : Keypair;
  stp_contract : Contract;
  stp_functionName : string;
  stp_args : list ScVal
}.

Section HelpersSec.
Context {N : Type} `{RpcServer N} `{Crypto}.

Definition getPollingTransaction (hash : string) : M (World N) GetTransactionResponse :=
  try_catch
    (let* tx := pollTransaction hash None in
     match status tx with
     | SUCCESS =>
         match returnValue tx with
         | Some _ => ret tx
         | None => throw (new_Error "Transaction has no return value")
         end
     | FAILED => throw (new_Error "Transaction failed")
     | NOT_FOUND => throw (new_Error "Unknown status")
     end)
    (fun _ => throw (new_Error "Error fetching transaction")).

(** The fluent chain [new TransactionBuilder(signerAccount, { fee })
    .setNetworkPassphrase(p).setTimeout(30).addOperation(op).build()]. *)
Definition stellar_transaction (signerAccount : Account) (fee networkPassphrase : string)
    (operation : Operation) : Res (Transaction * Account) :=
  let? b := new_TransactionBuilder signerAccount (mkOptions fee None) in
  let? b := setTimeout 30 (setNetworkPassphrase networkPassphrase b) in
  build (addOperation operation b).

Definition submitStellarTransaction (p : SubmitStellarTransactionParams)
    : M (World N) GetTransactionResponse :=
  let networkPassphrase := default TESTNET (ssp_networkPassphrase p) in
  let fee := default BASE_FEE (ssp_fee p) in
  let keypair := ssp_signer p in
  let* signerAccount := getAccount (publicKey (ssp_signer p)) in
  let* built := of_res (stellar_transaction signerAccount fee networkPassphrase
                          (ssp_operation p)) in
  let* preparedTransaction := prepareTransaction built.1 in
  let* response := sendTransaction (sign keypair preparedTransaction) in
  getPollingTransaction (send_hash response).

Definition submitTransaction (p : SubmitTransactionParams) : M (World N) GetTransactionResponse :=
  let operation := call (stp_contract p) (stp_functionName p) (stp_args p) in
  submitStellarTransaction
    (mkSubmitStellarParams (stp_signer p) (Some TESTNET) (Some BASE_FEE) operation).
End HelpersSec.

End Helpers.

(** ** Liveness of the poller

    [confirms_within hash n net]: asked for [hash] at most [n] times in a
    row, the network answers [NOT_FOUND] and then, within those [n]
    answers, a success with a return value.  This is the bounded
    [eventually] of the network's answers to [getTransaction]; sleeps do
    not change the network. *)
Module HelpersLiveness.
Import RpcFacts Helpers.

Section HelpersLivenessSec.
Context {N : Type} `{RpcServer N} `{Crypto}.

Inductive confirms_within (hash : string) : nat -> N -> Prop :=
| confirms_now n net r net' :
    rpc_getTransaction hash net = (inr r, net') ->
    status r = SUCCESS -> is_Some (returnValue r) ->
    confirms_within hash (S n) net
| confirms_later n net r net' :
    rpc_getTransaction hash net = (inr r, net') -> status r = NOT_FOUND ->
    confirms_within hash n net' -> confirms_within hash (S n) net.

Lemma confirms_within_0 hash net : ~ confirms_within hash 0 net.
Proof. by inversion 1. Qed.

(** The SDK's loop with [k] iterations left returns a success with a
    value exactly when the network confirms within its [k + 1]
    requests. *)
Lemma poll_loop_confirms k i hash (w : World N) :
  (exists tx w', poll_loop k i hash w = (Ok tx, w') /\
                 status tx = SUCCESS /\ is_Some (returnValue tx)) <->
  confirms_within hash (S k) (w_net w).
Proof.
  revert i w. induction k as [|k IH]; intros i w; cbn [poll_loop];
    try unfold bind at 1; unfold getTransaction; rewrite request_run;
    destruct (rpc_getTransaction hash (w_net w)) as [[e|r] n'] eqn:Hq; cbn; split;
    try (by intros (? & ? & ? & _));
    try (inversion 1 as [? ? r1 ? Hq1|? ? r1 ? Hq1]; congruence).
  - intros (tx & w' & [= <- _] & Hs & Hv). by eapply confirms_now.
  - inversion 1 as [? ? r1 ? Hq1 Hs1 Hv1|? ? r1 ? Hq1 _ Hc1]; rewrite Hq in Hq1; simplify_eq;
      [eauto | by apply confirms_within_0 in Hc1].
  - destruct (status r) eqn:Hs; cbn.
    + intros (tx & w' & [= <- _] & _ & Hv). by eapply confirms_now.
    + intros (tx & w' & [= <- _] & ? & _); congruence.
    + intros Hrun. eapply confirms_later; [exact Hq | exact Hs |].
      by apply (IH (i + 1)%Z) in Hrun.
  - inversion 1 as [? ? r1 ? Hq1 Hs1 Hv1|? ? r1 ? Hq1 Hs1 Hc1]; rewrite Hq in Hq1; simplify_eq;
      rewrite Hs1; cbn; [eauto | by apply (IH (i + 1)%Z)].
Qed.

(** C26: liveness of [getPollingTransaction]: it hands back a
    transaction exactly when the network, asked for the hash up to the
    SDK's default 30 times with a second between the requests, answers
    [NOT_FOUND] and then a success with a return value within those 30
    answers.  A transaction the network confirms in time is always
    returned; one it does not confirm in time never is. *)
Theorem getPollingTransaction_live hash (w : World N) :
  (exists tx w', getPollingTransaction hash w = (Ok tx, w')) <->
  confirms_within hash 30 (w_net w).
Proof.
  rewrite <- (poll_loop_confirms 29 1 hash w).
  unfold getPollingTransaction, try_catch, bind, pollTransaction.
  change (Z.to_nat (maxAttempts None - 1)) with 29%nat.
  destruct (poll_loop 29 1 hash w) as [[[h l [v|]|h l|h]|e|c] w']; cbn; split;
    try (by intros (? & ? & ?)); try (by intros (? & ? & ? & _));
    try (intros (tx & w1 & [= <- _] & Hs & [? Hv]); discriminate).
  - intros _. eexists _, _. split_and!; [reflexivity | done | by eexists].
  - intros _. eauto.
Qed.
End HelpersLivenessSec.
End HelpersLiveness.

(** ** Properties of the helpers *)
Module HelpersFacts.
Import RpcFacts Helpers.

Section HelpersFactsSec.
Context {N : Type} `{RpcServer N} `{Crypto}.

(** C1: [getPollingTransaction] returns the polled transaction exactly
    when it succeeded with a return value; a success without return
    value, a failed transaction, a transaction never found and an
    error of the server all end in the same error
    ["Error fetching transaction"]. *)
Theorem getPollingTransaction_spec hash (w : World N) :
  getPollingTransaction hash w =
    match pollTransaction hash None w with
    | (Ok (GetSuccess h l (Some v)), w') => (Ok (GetSuccess h l (Some v)), w')
    | (Exit c, w') => (Exit c, w')
    | (_, w') => (Throw (new_Error "Error fetching transaction"), w')
    end.
Proof.
  unfold getPollingTransaction, try_catch, bind.
  destruct (pollTransaction hash None w) as [[r|e|c] w'];
    [destruct r as [h l [v|]|h l|h]|..]; reflexivity.
Qed.

(** C2: a transaction the poller hands back has status [SUCCESS] and a
    return value, and it is what the SDK's polling loop answered. *)
Theorem getPollingTransaction_ok hash (w : World N) tx w' :
  getPollingTransaction hash w = (Ok tx, w') ->
  pollTransaction hash None w = (Ok tx, w') /\
  status tx = SUCCESS /\ is_Some (returnValue tx).
Proof.
  unfold getPollingTransaction, try_catch, bind, ret, throw.
  destruct (pollTransaction hash None w) as [[r|e|c] w''];
    [destruct r as [h l [v|]|h l|h]|..]; intros Hr; cbn in Hr; simplify_eq.
  split_and!; [done | done | by eexists].
Qed.

(** C3: [getPollingTransaction] always terminates: it sends between
    one and 30 [getTransaction] requests for the hash and nothing
    else, sleeps at most 29 seconds, and never ends the process. *)
Theorem getPollingTransaction_bounded hash (w : World N) :
  let '(o, w') := getPollingTransaction hash w in
  exists n, (1 <= n <= 30)%nat /\
    w_calls w' = w_calls w ++ replicate n (CallGetTransaction hash) /\
    (w_clock w' <= w_clock w + 29000)%Z /\
    (forall c, o <> Exit c).
Proof.
  unfold getPollingTransaction, try_catch, bind, ret, throw.
  pose proof (PollBound.pollTransaction_bounded hash None w) as Hb.
  destruct (pollTransaction hash None w) as [o w'].
  destruct Hb as (n & Hn & Hc & Hk & Hx & _).
  cbn in Hn. unfold DEFAULT_POLLING_ATTEMPTS in Hn.
  destruct o as [[h l [v|]|h l|h]|e|c]; [..| by destruct (Hx c)];
    cbn; exists n; repeat split; (done || lia).
Qed.

(** What the other scripts use of the poller: it prints nothing, changes
    no file, and hands back only a success with a return value. *)
Lemma getPollingTransaction_io hash : preserves_io (N:=N) (getPollingTransaction hash).
Proof. unfold getPollingTransaction. solve_io. Qed.

Lemma getPollingTransaction_Ok_value hash (w : World N) tx w' :
  getPollingTransaction hash w = (Ok tx, w') -> status tx = SUCCESS /\ is_Some (returnValue tx).
Proof.
  unfold getPollingTransaction, try_catch, bind, ret, throw.
  destruct (pollTransaction hash None w) as [[r|e|c] w''];
    [destruct r as [h l [v|]|h l|h]|..]; intros Hr; cbn in Hr; simplify_eq; split; [done | by eexists].
Qed.

Lemma stellar_transaction_ok acc fee passphrase op :
  fee <> "" ->
  stellar_transaction acc fee passphrase op =
    inr (mkTransaction (acc_accountId acc) (acc_sequence acc + 1) fee passphrase 30 [op] [],
         incrementSequenceNumber acc).
Proof.
  intros Hfee. unfold stellar_transaction, new_TransactionBuilder, res_bind.
  cbn. apply String.eqb_neq in Hfee. by rewrite Hfee.
Qed.

(** C4: the pipeline of [submitStellarTransaction], when the server
    answers: it asks for the signer's account, prepares the one
    operation transaction built on the next sequence number with the
    given (or default) fee and passphrase and a 30 second timeout,
    sends the prepared transaction signed by the signer, and polls the
    hash the server answered, whatever the status of that answer. *)
Theorem submitStellarTransaction_run p (w : World N) acc n1 ptx n2 resp n3 :
  let fee := default BASE_FEE (ssp_fee p) in
  let passphrase := default TESTNET (ssp_networkPassphrase p) in
  let tx := mkTransaction (acc_accountId acc) (acc_sequence acc + 1) fee passphrase 30
              [ssp_operation p] [] in
  fee <> "" ->
  rpc_getAccount (publicKey (ssp_signer p)) (w_net w) = (inr acc, n1) ->
  rpc_prepareTransaction tx n1 = (inr ptx, n2) ->
  rpc_sendTransaction (sign (ssp_signer p) ptx) n2 = (inr resp, n3) ->
  submitStellarTransaction p w =
    getPollingTransaction (send_hash resp)
      (mkWorld n3 (w_calls w ++ [CallGetAccount (publicKey (ssp_signer p));
                                 CallPrepareTransaction tx;
                                 CallSendTransaction (sign (ssp_signer p) ptx)])
         (w_stdout w) (w_stderr w) (w_clock w) (w_files w)).
Proof.
  intros fee passphrase tx Hfee Hacc Hprep Hsend. unfold tx, fee, passphrase in *.
  unfold submitStellarTransaction, getAccount, prepareTransaction, sendTransaction, bind.
  answer Hacc. rewrite stellar_transaction_ok by done. cbn.
  answer Hprep. answer Hsend. by rewrite <- !app_assoc.
Qed.

(** C5: when [prepareTransaction] rejects the transaction, its error is
    thrown unchanged and nothing is signed, sent or polled. *)
Theorem submitStellarTransaction_prepare_error p (w : World N) acc n1 e n2 :
  let tx := mkTransaction (acc_accountId acc) (acc_sequence acc + 1)
              (default BASE_FEE (ssp_fee p)) (default TESTNET (ssp_networkPassphrase p)) 30
              [ssp_operation p] [] in
  default BASE_FEE (ssp_fee p) <> "" ->
  rpc_getAccount (publicKey (ssp_signer p)) (w_net w) = (inr acc, n1) ->
  rpc_prepareTransaction tx n1 = (inl e, n2) ->
  submitStellarTransaction p w =
    (Throw e, mkWorld n2 (w_calls w ++ [CallGetAccount (publicKey (ssp_signer p));
                                        CallPrepareTransaction tx])
                (w_stdout w) (w_stderr w) (w_clock w) (w_files w)).
Proof.
  intros tx Hfee Hacc Hprep. unfold tx in *.
  unfold submitStellarTransaction, getAccount, prepareTransaction, bind.
  answer Hacc. rewrite stellar_transaction_ok by done. cbn.
  answer Hprep. by rewrite <- app_assoc.
Qed.

(** C6: when the account cannot be fetched, that error is thrown and
    no transaction is built or sent. *)
Theorem submitStellarTransaction_account_error p (w : World N) e n1 :
  rpc_getAccount (publicKey (ssp_signer p)) (w_net w) = (inl e, n1) ->
  submitStellarTransaction p w =
    (Throw e, mkWorld n1 (w_calls w ++ [CallGetAccount (publicKey (ssp_signer p))])
                (w_stdout w) (w_stderr w) (w_clock w) (w_files w)).
Proof.
  intros Hacc. unfold submitStellarTransaction, getAccount, bind. by answer Hacc.
Qed.
End HelpersFactsSec.

#[export] Hint Resolve getPollingTransaction_io : io.
End HelpersFacts.

(** ** The pipeline refines the lifecycle against the server

    [submitStellarTransaction] on any server is a run of
    [Lifecycle.ServerLifecycle.nrun] from its start to a terminal phase,
    and its outcome is the one that phase hands the caller. *)
Module HelpersLifecycle.
Import RpcFacts Lifecycle ServerLifecycle Helpers HelpersFacts.

Section HelpersLifecycleSec.
Context {N : Type} `{RpcServer N} `{Crypto}.


Lemma sign_signed_by kp tx : sign kp tx = signed_by (publicKey kp) tx.
Proof. done. Qed.

Lemma stellar_transaction_built acc fee passphrase op :
  fee <> "" ->
  built_from fee passphrase op acc
    (mkTransaction (acc_accountId acc) (acc_sequence acc + 1) fee passphrase 30 [op] []).
Proof. intros _. unfold built_from. cbn. split_and!; (done || lia). Qed.

Lemma stellar_transaction_no_fee acc passphrase op :
  exists e, stellar_transaction acc "" passphrase op = inl e.
Proof. by eexists. Qed.

(** How the poller's answer relates to the lifecycle's phase: a
    confirmation, or a failure the caller of the SDK still has to see
    (an error, or a transaction that is not a success with a value). *)
Definition polled (o : outcome GetTransactionResponse) (ph : NPhase) : Prop :=
  match ph with
  | NDone r => o = Ok r /\ status r = SUCCESS /\ is_Some (returnValue r)
  | NFailed => (exists e, o = Throw e) \/
               exists r, o = Ok r /\ ~ (status r = SUCCESS /\ is_Some (returnValue r))
  | _ => False
  end.

(** The last query of a poll, on an answer that ends it. *)
Ltac poll_final :=
  first
    [ eexists [_], (NDone _); split_and!;
        [ done | apply nrun_one; eapply n_poll_done; [eassumption | done | by eexists]
        | split_and!; [done | done | by eexists] ]
    | eexists [_], NFailed; split_and!;
        [ done | apply nrun_one; eapply n_poll_fail; [eassumption | cbn; naive_solver lia]
        | cbn; first [left; by eexists | right; eexists; split; [done | by intros [? [? ?]]]] ] ].

(** Induction on the SDK's loop: with [m] queries made and [k + 1] left,
    it is a run of the lifecycle's polling phase to its end. *)
Lemma poll_loop_nrun pk fee passphrase op k i hash m (w : World N) :
  (m + S k)%nat = MAX_POLLS ->
  let '(o, w') := poll_loop k i hash w in
  exists calls ph, w_calls w' = w_calls w ++ calls /\
    nrun pk fee passphrase op (NPolling hash m, w_net w) calls (ph, w_net w') /\ polled o ph.
Proof.
  revert i m w. induction k as [|k IH]; intros i m w Hm; cbn [poll_loop];
    [|unfold bind at 1]; unfold getTransaction; rewrite request_run;
    destruct (rpc_getTransaction hash (w_net w)) as [[e|[h l [v|]|h l|h]] n'] eqn:Hq; cbn;
    try poll_final.
  lazymatch goal with
  | |- context [poll_loop k ?i' hash ?w'] =>
      pose proof (IH i' (S m) w' ltac:(lia)) as Hk; destruct (poll_loop k i' hash w') as [o w'']
  end.
  destruct Hk as (calls & ph & Hc & Hr & Hp). cbn in Hc, Hr.
  exists (CallGetTransaction hash :: calls), ph. split_and!; [by rewrite Hc, <- app_assoc | | done].
  eapply nrun_req; [eapply n_poll_wait; [lia | exact Hq | done] | exact Hr].
Qed.

(** [getPollingTransaction] is the polling phase from its first query
    to a terminal phase, which is what it hands back. *)
Lemma getPollingTransaction_nrun pk fee passphrase op hash (w : World N) :
  let '(o, w') := getPollingTransaction hash w in
  exists calls ph, w_calls w' = w_calls w ++ calls /\
    nrun pk fee passphrase op (NPolling hash 0, w_net w) calls (ph, w_net w') /\ settles o ph.
Proof.
  unfold getPollingTransaction, pollTransaction, try_catch, bind, ret, throw.
  pose proof (poll_loop_nrun pk fee passphrase op (Z.to_nat (maxAttempts None - 1)) 1 hash 0 w
                ltac:(reflexivity)) as Hp.
  destruct (poll_loop (Z.to_nat (maxAttempts None - 1)) 1 hash w) as [o w'].
  destruct Hp as (calls & ph & Hc & Hr & Hpo).
  destruct ph as [| | | | r |]; cbn in Hpo; try contradiction.
  - destruct Hpo as (-> & Hs & Hv).
    destruct r as [h l [v|]|h l|h]; cbn in Hs, Hv; try discriminate; [|by destruct Hv].
    exists calls, (NDone (GetSuccess h l (Some v))). done.
  - destruct Hpo as [[e ->] | (r & -> & Hr')].
    { exists calls, NFailed. split_and!; [done | done | by eexists]. }
    destruct r as [h l [v|]|h l|h]; [by destruct Hr'; split; [|eexists] |..];
      (exists calls, NFailed; split_and!; [done | done | by eexists]).
Qed.

(** The pipeline's requests and the server's answers, on every branch. *)
Lemma submitStellarTransaction_server_run p (w : World N) :
  let '(o, w') := submitStellarTransaction p w in
  exists calls ph,
    w_calls w' = w_calls w ++ calls /\
    nrun (publicKey (ssp_signer p)) (default BASE_FEE (ssp_fee p))
      (default TESTNET (ssp_networkPassphrase p)) (ssp_operation p)
      (NStart, w_net w) calls (ph, w_net w') /\
    settles o ph.
Proof.
  destruct p as [kp pass fee op].
  unfold submitStellarTransaction. cbn [ssp_signer ssp_networkPassphrase ssp_fee ssp_operation].
  unfold bind at 1, getAccount. rewrite request_run.
  destruct (rpc_getAccount (publicKey kp) (w_net w)) as [[e|acc] n1] eqn:Hacc; cbn.
  { eexists [_], NFailed. split_and!; [done | apply nrun_one; by eapply n_fetch_fail | by eexists]. }
  unfold bind at 1. destruct (decide (default BASE_FEE fee = "")) as [Hf|Hf].
  { destruct (stellar_transaction_no_fee acc (default TESTNET pass) op) as [e He].
    rewrite Hf, He. cbn. eexists [_], NFailed. split_and!; [done | | by eexists].
    eapply nrun_req; [by eapply n_fetch|]. eapply nrun_silent; [by apply n_build_fail | constructor]. }
  rewrite stellar_transaction_ok by done. cbn.
  unfold bind at 1, prepareTransaction. rewrite request_run.
  pose proof (stellar_transaction_built acc _ (default TESTNET pass) op Hf) as Hb.
  destruct (rpc_prepareTransaction _ _) as [[e|ptx] n2] eqn:Hprep; cbn.
  { eexists [_; _], NFailed. split_and!; [by rewrite <- app_assoc | | by eexists].
    eapply nrun_req; [by eapply n_fetch|]. apply nrun_one. by eapply n_prepare_fail. }
  unfold bind at 1, sendTransaction. rewrite sign_signed_by, request_run.
  destruct (rpc_sendTransaction _ _) as [[e|resp] n3] eqn:Hsend; cbn.
  { eexists [_; _; _], NFailed. split_and!; [by rewrite <- !app_assoc | | by eexists].
    eapply nrun_req; [by eapply n_fetch|]. eapply nrun_req; [by eapply n_prepare|].
    apply nrun_one. by eapply n_send_fail. }
  lazymatch goal with
  | |- context [getPollingTransaction ?h ?w3] =>
      pose proof (getPollingTransaction_nrun (publicKey kp) (default BASE_FEE fee)
                    (default TESTNET pass) op h w3) as Hp;
      destruct (getPollingTransaction h w3) as [o w']
  end.
  destruct Hp as (calls & ph & Hc & Hr & Hs). cbn in Hc, Hr.
  exists ([CallGetAccount (publicKey kp); CallPrepareTransaction
             (mkTransaction (acc_accountId acc) (acc_sequence acc + 1) (default BASE_FEE fee)
                (default TESTNET pass) 30 [op] []);
           CallSendTransaction (signed_by (publicKey kp) ptx)] ++ calls), ph.
  split_and!; [by rewrite Hc, <- !app_assoc | | done].
  eapply nrun_req; [by eapply n_fetch|]. eapply nrun_req; [by eapply n_prepare|].
  eapply nrun_req; [by eapply n_send | exact Hr].
Qed.

(** C31: refinement of the spec's lifecycle, server included, by
    [submitStellarTransaction]: on any server and on every branch, the
    requests it sends, with the answers the server gives them, are one
    run of the lifecycle from its start to a terminal phase: the
    signer's account fetched, the one-operation unsigned transaction
    built on that account with the fee and network asked for, prepared,
    the prepared transaction the server answered sent with the signer's
    signature attached, then the hash the server answered polled until
    a success with a return value, a failure, or the last of
    [MAX_POLLS] queries.  No step follows one the server refused, at
    most [3 + MAX_POLLS] requests are sent, and the pipeline returns a
    transaction exactly when the run ends confirmed, that confirmed
    transaction; otherwise it throws. *)
Theorem submitStellarTransaction_refines p (w : World N) :
  let '(o, w') := submitStellarTransaction p w in
  exists calls ph,
    w_calls w' = w_calls w ++ calls /\
    nrun (publicKey (ssp_signer p)) (default BASE_FEE (ssp_fee p))
      (default TESTNET (ssp_networkPassphrase p)) (ssp_operation p)
      (NStart, w_net w) calls (ph, w_net w') /\
    (length calls <= 3 + MAX_POLLS)%nat /\
    settles o ph.
Proof.
  pose proof (submitStellarTransaction_server_run p w) as Hr.
  destruct (submitStellarTransaction p w) as [o w'].
  destruct Hr as (calls & ph & Hc & Hrun & Hs). exists calls, ph.
  split_and!; [done | done | by eapply nrun_bound | done].
Qed.

End HelpersLifecycleSec.
End HelpersLifecycle.

(** ** The helpers on the scripted server *)
Module HelpersRuns.
Import Fake RpcFacts Helpers HelpersFacts.

Definition incr_op : Operation := call (mkContract "CINC") "increment" [].
Definition incr_params : SubmitTransactionParams :=
  mkSubmitParams signer (mkContract "CINC") "increment" [].
Definition polls_ok : list GetTransactionResponse :=
  [GetNotFound "abc"; GetNotFound "abc"; GetSuccess "abc" 7 (Some (ScvU32 42))].
Definition world_ok : World FakeNet := start (scenario polls_ok (SimSuccess None)).

Lemma getPollingTransaction_ok_witness :
  exists tx w', pollTransaction "abc" None world_ok = (Ok tx, w') /\
                status tx = SUCCESS /\ is_Some (returnValue tx).
Proof. do 2 eexists. apply getPollingTransaction_ok. vm_compute. reflexivity. Defined.

Lemma submitStellarTransaction_run_witness :
  exists w', submitStellarTransaction (mkSubmitStellarParams signer None None incr_op) world_ok =
             getPollingTransaction "abc" w'.
Proof.
  eexists. eapply (submitStellarTransaction_run _ _ _ _ _ _ (mkSendResponse PENDING "abc"));
    vm_compute; [discriminate|reflexivity..].
Defined.

Definition world_rejecting : World FakeNet :=
  start (mkFake {[ "GS" := 5%Z ]} (Some "invalid contract invocation") "abc" PENDING []
           (SimSuccess None) [] 1000 []).

Lemma submitStellarTransaction_prepare_error_witness :
  exists w', submitStellarTransaction (mkSubmitStellarParams signer None None incr_op)
               world_rejecting = (Throw (new_Error "invalid contract invocation"), w').
Proof.
  eexists. eapply submitStellarTransaction_prepare_error; vm_compute; [discriminate|reflexivity..].
Defined.

Lemma submitStellarTransaction_account_error_witness :
  exists e w', submitStellarTransaction (mkSubmitStellarParams (fromSecret "T") None None incr_op)
                 world_ok = (Throw e, w').
Proof. do 2 eexists. eapply submitStellarTransaction_account_error. vm_compute. reflexivity. Defined.
Lemma getPollingTransaction_live_witness :
  exists tx w', getPollingTransaction "abc" world_ok = (Ok tx, w').
Proof.
  apply HelpersLiveness.getPollingTransaction_live.
  eapply HelpersLiveness.confirms_later; [reflexivity | reflexivity |].
  eapply HelpersLiveness.confirms_later; [reflexivity | reflexivity |].
  eapply HelpersLiveness.confirms_now; [reflexivity | reflexivity | eexists; reflexivity].
Defined.
End HelpersRuns.
