(* ===== verification/Simulate.v ===== *)
(** * [src/src/utils/simulate_transaction.ts]: read-only calls

    [simulateTransaction] fetches the signer's account, builds the same
    one operation transaction as the submission pipeline (a contract call
    with no arguments), asks the server to simulate it, and returns the
    simulated return value.  Every error, its own included, is caught and
    rethrown with the prefix ["Failed to simulate transaction "] followed
    by the caught error's [toString].  The theorems give each branch, and
    show that a simulation never prepares, signs or sends anything. *)

From S2P Require Import Prelude Sdk Fake Helpers.
Import Xdr Keys TxBuild Rpc.

Module Simulate.

Record SimulateTransactionParams := mkSimulateParams {
  sim_signer : Keypair;
  sim_contract : Contract;
  sim_functionName : string
}.

Section SimulateSec.
Context {N : Type} `{RpcServer N} `{Crypto}.

Definition SIMULATION_FAILED : string := "Failed to simulate transaction".

(** The [catch] of lines 41-43: every error, including the ones thrown
    in the [try] block itself, is wrapped once more. *)
Definition simulation_failed (error : JsError) : M (World N) ScVal :=
  throw (new_Error (SIMULATION_FAILED +:+ " " +:+ js_error_toString error)).

(** The builder chain of lines 27-31 is the one of [helpers.ts], on
    [BASE_FEE] and [Networks.TESTNET]. *)
Definition simulateTransaction (p : SimulateTransactionParams) : M (World N) ScVal :=
  try_catch
    (let* sourceAccount := getAccount (publicKey (sim_signer p)) in
     let fee := BASE_FEE in
     let* built := of_res (Helpers.stellar_transaction sourceAccount fee TESTNET
                             (call (sim_contract p) (sim_functionName p) [])) in
     let* sim := Rpc.simulateTransaction built.1 in
     match sim with
     | SimSuccess (Some result) => ret (retval result)
     | SimRestore result => ret (retval result)
     | SimError error => throw (new_Error (SIMULATION_FAILED +:+ " " +:+ error))
     | SimSuccess None => throw (new_Error SIMULATION_FAILED)
     end)
    simulation_failed.

End SimulateSec.
End Simulate.

(** ** Properties of the simulation *)
Module SimulateFacts.
Import RpcFacts HelpersFacts Simulate.

Section SimulateFactsSec.
Context {N : Type} `{RpcServer N} `{Crypto}.

(** The transaction the simulation builds on account [acc]. *)
Definition simulated_tx (p : SimulateTransactionParams) (acc : Account) : Transaction :=
  mkTransaction (acc_accountId acc) (acc_sequence acc + 1) BASE_FEE TESTNET 30
    [call (sim_contract p) (sim_functionName p) []] [].

Lemma simulateTransaction_answered p (w : World N) acc n1 sim n2 :
  rpc_getAccount (publicKey (sim_signer p)) (w_net w) = (inr acc, n1) ->
  rpc_simulateTransaction (simulated_tx p acc) n1 = (inr sim, n2) ->
  simulateTransaction p w =
    try_catch
      (fun w' => match sim with
                 | SimSuccess (Some result) | SimRestore result => ret (retval result) w'
                 | SimError error => throw (new_Error (SIMULATION_FAILED +:+ " " +:+ error)) w'
                 | SimSuccess None => throw (new_Error SIMULATION_FAILED) w'
                 end)
      simulation_failed
      (mkWorld n2 (w_calls w ++ [CallGetAccount (publicKey (sim_signer p));
                                 CallSimulateTransaction (simulated_tx p acc)])
         (w_stdout w) (w_stderr w) (w_clock w) (w_files w)).
Proof.
  intros Hacc Hsim. unfold simulated_tx in Hsim. unfold simulateTransaction, getAccount, Rpc.simulateTransaction.
  unfold try_catch at 1. unfold bind at 1. answer Hacc.
  try rewrite stellar_transaction_ok by done. cbn. unfold bind. answer Hsim.
  rewrite <- app_assoc. unfold try_catch. by destruct sim as [|[]|].
Qed.

(** C7: a simulation that yields a result returns its return value; the
    account and the simulation are the only requests, and the simulated
    transaction is the contract call with no arguments on the next
    sequence number. *)
Theorem simulateTransaction_result p (w : World N) acc n1 sim n2 r :
  rpc_getAccount (publicKey (sim_signer p)) (w_net w) = (inr acc, n1) ->
  rpc_simulateTransaction (simulated_tx p acc) n1 = (inr sim, n2) ->
  sim = SimSuccess (Some r) \/ sim = SimRestore r ->
  simulateTransaction p w =
    (Ok (retval r),
     mkWorld n2 (w_calls w ++ [CallGetAccount (publicKey (sim_signer p));
                               CallSimulateTransaction (simulated_tx p acc)])
       (w_stdout w) (w_stderr w) (w_clock w) (w_files w)).
Proof.
  intros Hacc Hsim Hr. rewrite (simulateTransaction_answered p w acc n1 sim n2) by done.
  by destruct Hr as [-> | ->].
Qed.

(** C8: when the server's simulation reports an error, the error thrown
    is the prefix, then ["Error: "], then the prefix again and the
    server's message: the inner error is caught by the function's own
    [catch] and wrapped a second time.  The message does contain the
    server's text. *)
Theorem simulateTransaction_sim_error p (w : World N) acc n1 msg n2 :
  rpc_getAccount (publicKey (sim_signer p)) (w_net w) = (inr acc, n1) ->
  rpc_simulateTransaction (simulated_tx p acc) n1 = (inr (SimError msg), n2) ->
  exists w', simulateTransaction p w =
    (Throw (new_Error (SIMULATION_FAILED +:+ " Error: " +:+ SIMULATION_FAILED +:+ " " +:+ msg)), w') /\
    contains (SIMULATION_FAILED +:+ " Error: " +:+ SIMULATION_FAILED +:+ " " +:+ msg) msg.
Proof.
  intros Hacc Hsim. rewrite (simulateTransaction_answered p w acc n1 _ n2) by done.
  cbn -[String.append]. unfold simulation_failed, throw.
  rewrite js_error_toString_new_Error by done.
  eexists. split; [done|]. rewrite !string_app_assoc. apply contains_suffix.
Qed.

(** C9: a simulation answered without result and without error throws
    the prefix, ["Error: "] and the prefix again. *)
Theorem simulateTransaction_no_result p (w : World N) acc n1 n2 :
  rpc_getAccount (publicKey (sim_signer p)) (w_net w) = (inr acc, n1) ->
  rpc_simulateTransaction (simulated_tx p acc) n1 = (inr (SimSuccess None), n2) ->
  exists w', simulateTransaction p w =
    (Throw (new_Error (SIMULATION_FAILED +:+ " Error: " +:+ SIMULATION_FAILED)), w').
Proof.
  intros Hacc Hsim. rewrite (simulateTransaction_answered p w acc n1 _ n2) by done.
  cbn -[String.append]. unfold simulation_failed, throw.
  try rewrite js_error_toString_new_Error by done. by eexists.
Qed.

(** C10: an error of the account fetch is rethrown as the prefix followed
    by the error's [toString], and nothing is simulated. *)
Theorem simulateTransaction_account_error p (w : World N) e n1 :
  rpc_getAccount (publicKey (sim_signer p)) (w_net w) = (inl e, n1) ->
  simulateTransaction p w =
    (Throw (new_Error (SIMULATION_FAILED +:+ " " +:+ js_error_toString e)),
     mkWorld n1 (w_calls w ++ [CallGetAccount (publicKey (sim_signer p))])
       (w_stdout w) (w_stderr w) (w_clock w) (w_files w)).
Proof.
  intros Hacc. unfold simulateTransaction, getAccount, try_catch, bind. by answer Hacc.
Qed.

(** A request that reads the ledger without changing it. *)
Definition read_request (c : RpcCall) : Prop :=
  match c with
  | CallGetAccount _ | CallSimulateTransaction _ | CallGetTransaction _
  | CallGetLatestLedger | CallGetEvents _ => True
  | CallPrepareTransaction _ | CallSendTransaction _ => False
  end.

(** The side conditions of a read-only run: the world equation, the
    count and kinds of requests, and no [Exit]. *)
Ltac close_read_only :=
  first [ done | cbn; lia | repeat constructor | intros ? ?; discriminate ].

(** C11: whatever the server answers, a simulation makes at most two
    requests, an account fetch and a simulation, so it never prepares or
    sends a transaction; apart from the server's state and the request
    log, the world comes back as it was: nothing is written to stdout or
    stderr, no file is read or written, no time passes, and the process
    never ends. *)
Theorem simulateTransaction_read_only p (w : World N) :
  let '(o, w') := simulateTransaction p w in
  exists calls, w' = mkWorld (w_net w') (w_calls w ++ calls) (w_stdout w) (w_stderr w)
                             (w_clock w) (w_files w) /\
    length calls <= 2 /\ Forall read_request calls /\ (forall c, o <> Exit c).
Proof.
  destruct (rpc_getAccount (publicKey (sim_signer p)) (w_net w)) as [[e|acc] n1] eqn:Hacc.
  - unfold simulateTransaction, getAccount, try_catch, bind. answer Hacc.
    eexists; repeat split; close_read_only.
  - destruct (rpc_simulateTransaction (simulated_tx p acc) n1) as [[e|sim] n2] eqn:Hsim;
      unfold simulated_tx in Hsim.
    + unfold simulateTransaction, getAccount, Rpc.simulateTransaction, try_catch, bind.
      answer Hacc. try rewrite stellar_transaction_ok by done. cbn. unfold bind. answer Hsim.
      rewrite <- app_assoc. eexists; repeat split; close_read_only.
    + rewrite (simulateTransaction_answered p w acc n1 sim n2) by done.
      destruct sim as [msg|[r|]|r]; cbn -[String.append];
        eexists; repeat split; close_read_only.
Qed.
End SimulateFactsSec.
End SimulateFacts.

(** ** The simulation on the scripted server *)
Module SimulateRuns.
Import Fake SimulateFacts Simulate.

Definition get_count : SimulateTransactionParams :=
  mkSimulateParams signer (mkContract "CINC") "get_count".

Definition world_sim (sim : SimulateTransactionResponse) : World FakeNet :=
  start (scenario [] sim).

Lemma simulateTransaction_result_witness :
  exists w', simulateTransaction get_count
               (world_sim (SimSuccess (Some (mkSimResult (ScvU32 0))))) = (Ok (ScvU32 0), w').
Proof.
  eexists. eapply (simulateTransaction_result _ _ (mkAccount "GS" 5) _
                     (SimSuccess (Some (mkSimResult (ScvU32 0)))) _ (mkSimResult (ScvU32 0)));
    [reflexivity | reflexivity | by left].
Defined.

(** The spec's scenario: the simulation answers the error
    ["contract trapped"]. *)
Lemma simulateTransaction_sim_error_witness :
  exists w', simulateTransaction get_count (world_sim (SimError "contract trapped")) =
    (Throw (new_Error (SIMULATION_FAILED +:+ " Error: " +:+ SIMULATION_FAILED +:+ " "
                       +:+ "contract trapped")), w') /\
    contains (SIMULATION_FAILED +:+ " Error: " +:+ SIMULATION_FAILED +:+ " " +:+ "contract trapped")
      "contract trapped".
Proof. eapply (simulateTransaction_sim_error _ _ (mkAccount "GS" 5)); reflexivity. Defined.

Lemma simulateTransaction_no_result_witness :
  exists w', simulateTransaction get_count (world_sim (SimSuccess None)) =
    (Throw (new_Error (SIMULATION_FAILED +:+ " Error: " +:+ SIMULATION_FAILED)), w').
Proof. eapply (simulateTransaction_no_result _ _ (mkAccount "GS" 5)); reflexivity. Defined.

Lemma simulateTransaction_account_error_witness :
  exists w', simulateTransaction (mkSimulateParams (fromSecret "T") (mkContract "CINC") "get_count")
               (world_sim (SimSuccess None)) =
    (Throw (new_Error (SIMULATION_FAILED +:+ " " +:+ "Error: Account not found: GT")), w').
Proof.
  eexists. apply (simulateTransaction_account_error _ _ (new_Error "Account not found: GT")).
  reflexivity.
Defined.
End SimulateRuns.
