(* ===== verification/Refinement.v ===== *)
(** * The scripts refine the order of the lifecycle's requests

    [LifecycleRefinement] shows that on any server and on every branch
    the requests of [submitStellarTransaction] are a run of
    [Lifecycle.lc_run] from [Start] (used by [Deploy.DeployLifecycle]),
    and that those of [simulateTransaction] are a run that stops at the
    account fetch or at the one dry run. *)

From S2P Require Import Prelude Sdk Lifecycle Helpers Simulate.
Import Xdr Keys TxBuild Rpc RpcFacts.

(** ** The scripts refine the lifecycle's order of requests *)
Module LifecycleRefinement.
Import Lifecycle Helpers HelpersFacts.

Section Refinement.
Context {N : Type} `{RpcServer N} `{Crypto}.

Lemma stellar_transaction_unsigned acc fee passphrase op tx acc' :
  stellar_transaction acc fee passphrase op = inr (tx, acc') -> unsigned_with op tx.
Proof.
  unfold stellar_transaction, new_TransactionBuilder, res_bind.
  cbn. destruct (fee =? "")%string; cbn; [by intros [=]|].
  intros [= <- _]. unfold unsigned_with. cbn. split_and!; [done | done | lia].
Qed.

Lemma sign_last kp tx : last (tx_signatures (sign kp tx)) = Some (publicKey kp).
Proof. unfold sign. cbn. apply last_snoc. Qed.

(** The poller's part of the trace: between one and [MAX_POLLS] queries
    of the hash. *)
Lemma getPollingTransaction_calls hash (w : World N) :
  let '(o, w') := getPollingTransaction hash w in
  exists n, (1 <= n <= MAX_POLLS)%nat /\
    w_calls w' = w_calls w ++ replicate n (CallGetTransaction hash) /\
    (forall c, o <> Exit c).
Proof.
  unfold getPollingTransaction, try_catch, bind, ret, throw.
  pose proof (PollBound.pollTransaction_bounded hash None w) as Hb.
  destruct (pollTransaction hash None w) as [o w'].
  destruct Hb as (n & Hn & Hc & _ & Hx & _).
  cbn in Hn. unfold DEFAULT_POLLING_ATTEMPTS in Hn. change MAX_POLLS with 30%nat.
  destruct o as [[h l [v|]|h l|h]|e|c]; [..| by destruct (Hx c)];
    cbn; exists n; split_and!; (done || lia).
Qed.

(** Build a lifecycle run step by step, the side conditions by [eauto]. *)
Ltac lc_side :=
  first [ eassumption | apply sign_last
        | unfold unsigned_with; cbn; split_and!; (done || lia) ].

Ltac lc_trace :=
  repeat first [ apply lc_done | eapply lc_then; [econstructor; lc_side |] ].

(** The pipeline's requests, on any server and every branch. *)
Lemma submitStellarTransaction_lifecycle p (w : World N) :
  let '(o, w') := submitStellarTransaction p w in
  exists calls ph,
    w_calls w' = w_calls w ++ calls /\
    lc_run (publicKey (ssp_signer p)) (ssp_operation p) Start calls ph /\
    (forall r, o = Ok r -> exists h n, ph = Polled h n /\ status r = SUCCESS) /\
    (forall c, o <> Exit c).
Proof.
  destruct p as [kp pass fee op].
  unfold submitStellarTransaction. cbn [ssp_signer ssp_networkPassphrase ssp_fee ssp_operation].
  unfold bind at 1, getAccount. rewrite request_run.
  destruct (rpc_getAccount (publicKey kp) (w_net w)) as [[e|acc] n1]; cbn.
  { eexists _, Fetched. split_and!; [done | lc_trace | by intros ? [=] | by intros ? [=]]. }
  unfold bind at 1. destruct (stellar_transaction _ _ _ _) as [e|[tx acc']] eqn:Hst; cbn.
  { eexists _, Fetched. split_and!; [done | lc_trace | by intros ? [=] | by intros ? [=]]. }
  apply stellar_transaction_unsigned in Hst.
  unfold bind at 1, prepareTransaction. rewrite request_run. cbn [fst].
  destruct (rpc_prepareTransaction _ _) as [[e|ptx] n2] eqn:Hprep; cbn.
  { eexists _, Prepared. split_and!; [by rewrite <- app_assoc | lc_trace | by intros ? [=] | by intros ? [=]]. }
  unfold bind at 1, sendTransaction. rewrite request_run.
  destruct (rpc_sendTransaction _ _) as [[e|resp] n3] eqn:Hsend; cbn.
  { eexists _, Submitted. split_and!; [by rewrite <- !app_assoc | lc_trace | by intros ? [=] | by intros ? [=]]. }
  lazymatch goal with
  | |- context [getPollingTransaction ?h ?w3] =>
      pose proof (getPollingTransaction_calls h w3) as Hp;
      pose proof (getPollingTransaction_Ok_value h w3) as Hv;
      destruct (getPollingTransaction h w3) as [o w'] eqn:Hpoll
  end.
  destruct Hp as (n & Hn & Hc & Hx). cbn in Hc.
  exists ([CallGetAccount (publicKey kp); CallPrepareTransaction tx; CallSendTransaction (sign kp ptx)]
            ++ replicate n (CallGetTransaction (send_hash resp))), (Polled (send_hash resp) n).
  split_and!; [by rewrite Hc, <- !app_assoc | | | exact Hx].
  - eapply lc_run_app; [lc_trace | by apply lc_polls].
  - intros r ->. exists (send_hash resp), n. split; [done|]. by apply (Hv r w').
Qed.

(** C32: refinement of the lifecycle by [simulateTransaction]: on any
    server and on every branch, its requests are a run of the lifecycle
    from [Start] for the signer's key and the no-argument call, ending
    before any preparation, signature, submission or poll: at the
    account fetch or at the one dry run; a value is only returned from
    the dry run, and the process is never ended. *)
Theorem simulateTransaction_refines p (w : World N) :
  let '(o, w') := Simulate.simulateTransaction p w in
  exists calls ph,
    w_calls w' = w_calls w ++ calls /\
    lc_run (publicKey (Simulate.sim_signer p))
      (call (Simulate.sim_contract p) (Simulate.sim_functionName p) []) Start calls ph /\
    (ph = Fetched \/ ph = Simulated) /\
    (forall v, o = Ok v -> ph = Simulated) /\
    (forall c, o <> Exit c).
Proof.
  destruct p as [kp c fn].
  unfold Simulate.simulateTransaction, Simulate.simulation_failed, try_catch, throw.
  cbn [Simulate.sim_signer Simulate.sim_contract Simulate.sim_functionName].
  unfold bind at 1, getAccount. rewrite request_run.
  destruct (rpc_getAccount _ _) as [[e|acc] n1] eqn:Hacc; cbn.
  { eexists _, Fetched. split_and!; [done | lc_trace | by left | by intros ? [=] | by intros ? [=]]. }
  unfold bind at 1, Rpc.simulateTransaction. rewrite request_run.
  destruct (rpc_simulateTransaction _ _) as [[e|[err|[res|]|res]] n2] eqn:Hsim; cbn;
    eexists _, Simulated; split_and!; (by rewrite <- app_assoc) || lc_trace || (by right) ||
      (by intros ? [=]) || done.
Qed.

End Refinement.
End LifecycleRefinement.
