(* ===== verification/Deploy.v ===== *)
(** * [src/src/utils/deploy.ts]: uploading and instantiating contracts

    [buildTransaction] fetches the account and builds a one operation
    transaction; [buildAndSendTransaction] prepares it, signs it with the
    keypair rebuilt from the signer's secret, sends it and polls it with
    [getPollingTransaction] of [helpers.ts].  [uploadWasm] reads the
    bytecode from disk (or prints an error and ends the process) and
    uploads it; [deployContract] takes the wasm hash from the upload's
    return value, uses the upload's transaction hash decoded from hex as
    the salt, creates the contract and encodes its address.

    Two collaborators are modelled here from their documented behaviour:
    Node's [Buffer.from(s, "hex")] ([hex_decode]) and the SDK's
    [Operation.createCustomContract] with its two length checks.
    [DeployLifecycle] reads [uploadWasm]'s requests as a run of the
    spec's lifecycle of [Lifecycle.v]. *)

From S2P Require Import Prelude Sdk Fake Lifecycle Helpers Refinement.
From Stdlib Require Import Ascii.
Import Xdr Keys TxBuild Rpc.

Module Deploy.

(** ** [Buffer.from(s, "hex")] *)

(** The value of a hexadecimal digit, either case. *)
Definition hex_value (c : ascii) : option N :=
  let n := N_of_ascii c in
  if ((48 <=? n) && (n <=? 57))%N then Some (n - 48)%N
  else if ((97 <=? n) && (n <=? 102))%N then Some (n - 87)%N
  else if ((65 <=? n) && (n <=? 70))%N then Some (n - 55)%N
  else None.

(** Node decodes pairs of digits and stops at the first pair that is not
    two hexadecimal digits; a last lone digit is dropped. *)
Fixpoint hex_decode (s : string) : bytes :=
  match s with
  | String h (String l rest) =>
      match hex_value h, hex_value l with
      | Some a, Some b =>
          match Byte.of_N (16 * a + b) with
          | Some x => x :: hex_decode rest
          | None => []
          end
      | _, _ => []
      end
  | _ => []
  end.

(** Lowercase hexadecimal, the form of the transaction hashes the RPC
    server returns. *)
Definition hex_digit (n : N) : ascii :=
  ascii_of_N (if (n <? 10)%N then 48 + n else 87 + n)%N.

Fixpoint hex_encode (bs : bytes) : string :=
  match bs with
  | [] => EmptyString
  | b :: bs' =>
      String (hex_digit (Byte.to_N b / 16)) (String (hex_digit (Byte.to_N b mod 16)) (hex_encode bs'))
  end.

(** ** [Operation.createCustomContract({ address, wasmHash, salt })]

    Its two length checks, each a [TypeError]; the SDK's messages end
    with [", got "] and the offending buffer as a template literal prints
    it, a suffix that is left out here: no theorem reads these messages,
    only that the checks pass on the deployment the scripts build. *)
Definition createCustomContract (address : ScAddress) (wasmHash salt : bytes) : Res Operation :=
  if negb (length wasmHash =? 32)%nat then
    inl (mkJsError "TypeError" "expected hash(32 bytes) in 'opts.wasmHash'")
  else if negb (length salt =? 32)%nat then
    inl (mkJsError "TypeError" "expected salt(32 bytes) in 'opts.salt'")
  else inr (OpCreateCustomContract address wasmHash salt).

(** The line break of the messages printed by [uploadWasm]. *)
Definition nl : string := String (ascii_of_nat 10) EmptyString.

Section DeploySec.
Context {N : Type} `{RpcServer N} `{Crypto}.

Definition buildTransaction (signer : Keypair) (operations : Operation) : M (World N) Transaction :=
  let* account := getAccount (publicKey signer) in
  let* built := of_res (
    let? b := new_TransactionBuilder account (mkOptions BASE_FEE (Some TESTNET)) in
    let? b := setTimeout 30 (addOperation operations b) in
    build b) in
  ret built.1.

Definition buildAndSendTransaction (signer : Keypair) (operations : Operation)
    : M (World N) GetTransactionResponse :=
  let* transaction := buildTransaction signer operations in
  let* prepTx := prepareTransaction transaction in
  let signed := sign (fromSecret (secret signer)) prepTx in
  let* response := sendTransaction signed in
  let hash := send_hash response in
  Helpers.getPollingTransaction hash.

Definition uploadWasm (signer : Keypair) (filePath : string) : M (World N) GetTransactionResponse :=
  let* found := existsSync filePath in
  if found then
    let* bytecode := readFileSync filePath in
    let operation := OpUploadContractWasm bytecode in
    let* response := buildAndSendTransaction signer operation in
    console_log ("Uploaded Wasm: " +:+ txHash response) ;;
    ret response
  else
    console_error (nl +:+ "ERROR: Required WASM file not found at " +:+ filePath +:+ "!") ;;
    console_error (nl +:+ "Please run the following command to compile contracts first:") ;;
    console_error (nl +:+ "    make build" +:+ nl) ;;
    exit 1.

(** Lines 58-65: the contract address read from the deployment's return
    value; the error of the [else] branch names the upload's hash. *)
Definition contract_address_of (response responseDeploy : GetTransactionResponse)
    : M (World N) string :=
  match returnValue responseDeploy with
  | Some rv =>
      let* address := of_res (ScVal_address rv) in
      match address with
      | Some a => ret (encodeContract (address_toBuffer a))
      | None => throw (mkJsError "TypeError" "Cannot read properties of undefined (reading 'switch')")
      end
  | None => throw (new_Error ("Transaction failed: " +:+ txHash response))
  end.

Definition deployContract (signer : Keypair) (response : GetTransactionResponse) : M (World N) string :=
  match returnValue response with
  | None => throw (new_Error ("Transaction failed: " +:+ txHash response))
  | Some rv =>
      let* wasm := of_res (ScVal_bytes rv) in
      match wasm with
      | None => throw (new_Error ("Transaction failed: " +:+ txHash response))
      | Some wasmHash =>
          let signerAddress := ScAddressAccount (publicKey signer) in
          let* operation := of_res (createCustomContract signerAddress wasmHash
                                      (hex_decode (txHash response))) in
          let* responseDeploy := buildAndSendTransaction signer operation in
          contract_address_of response responseDeploy
      end
  end.

End DeploySec.
End Deploy.

(** ** Properties of the deployment helpers *)
Module DeployFacts.
Import RpcFacts Helpers HelpersFacts Deploy.

Lemma hex_value_digit (n : N) : (n < 16)%N -> hex_value (hex_digit n) = Some n.
Proof.
  intros Hn. rewrite <- (N2Nat.id n).
  assert (Hk : (N.to_nat n < 16)%nat) by lia.
  revert Hk. generalize (N.to_nat n) as k. intros k Hk.
  do 16 (destruct k as [|k]; [reflexivity|]). lia.
Qed.

(** Decoding the lowercase hexadecimal of some bytes gives them back. *)
Lemma hex_decode_encode (bs : bytes) : hex_decode (hex_encode bs) = bs.
Proof.
  induction bs as [|b bs IH]; [done|]. cbn [hex_encode hex_decode].
  pose proof (Byte.to_N_bounded b) as Hb.
  assert (Hq : (Byte.to_N b / 16 < 16)%N) by (apply N.Div0.div_lt_upper_bound; lia).
  assert (Hr : (Byte.to_N b mod 16 < 16)%N) by (apply N.mod_lt; lia).
  rewrite !hex_value_digit by done.
  replace (16 * (Byte.to_N b / 16) + Byte.to_N b mod 16)%N with (Byte.to_N b)
    by (rewrite (N.div_mod (Byte.to_N b) 16) at 1 by lia; lia).
  by rewrite Byte.of_to_N, IH.
Qed.

Section DeployFactsSec.
Context {N : Type} `{RpcServer N} `{Crypto}.

(** The builder chain of [buildTransaction] and the signature with the
    rebuilt keypair give the pipeline of [helpers.ts]. *)
Lemma buildAndSendTransaction_submit signer op (w : World N) :
  buildAndSendTransaction signer op w =
    submitStellarTransaction (mkSubmitStellarParams signer None None op) w.
Proof.
  destruct signer as [sk].
  unfold buildAndSendTransaction, buildTransaction, submitStellarTransaction, getAccount, bind.
  cbn -[request]. rewrite request_run.
  destruct (rpc_getAccount _ _) as [[e|acc] n1]; reflexivity.
Qed.

(** C12: [buildAndSendTransaction] of [deploy.ts] is the pipeline
    [submitStellarTransaction] of [helpers.ts] with its default fee and
    passphrase: the builder calls in another order give the same
    transaction, and the keypair rebuilt from the secret signs as the
    signer does. *)
Theorem buildAndSendTransaction_equiv signer op (w : World N) :
  buildAndSendTransaction signer op w =
    submitStellarTransaction (mkSubmitStellarParams signer None None op) w.
Proof. apply buildAndSendTransaction_submit. Qed.

Lemma buildAndSendTransaction_Ok_value signer op (w : World N) rd w' :
  buildAndSendTransaction signer op w = (Ok rd, w') ->
  status rd = SUCCESS /\ is_Some (returnValue rd).
Proof.
  unfold buildAndSendTransaction. intros Hrun.
  destruct (bind_Ok_inv _ _ _ _ _ Hrun) as (tx & w1 & _ & Hrun1).
  destruct (bind_Ok_inv _ _ _ _ _ Hrun1) as (ptx & w2 & _ & Hrun2).
  destruct (bind_Ok_inv _ _ _ _ _ Hrun2) as (resp & w3 & _ & Hpoll).
  by apply getPollingTransaction_Ok_value in Hpoll.
Qed.

Lemma buildAndSendTransaction_io signer op : preserves_io (N:=N) (buildAndSendTransaction signer op).
Proof. unfold buildAndSendTransaction, buildTransaction. solve_io. Qed.

(** C13: without the bytecode file, [uploadWasm] prints its three error
    lines on stderr and ends the process with code 1, before any
    request. *)
Theorem uploadWasm_missing_file signer filePath (w : World N) :
  w_files w !! filePath = None ->
  uploadWasm signer filePath w =
    (Exit 1, mkWorld (w_net w) (w_calls w) (w_stdout w)
       (w_stderr w ++ [nl +:+ "ERROR: Required WASM file not found at " +:+ filePath +:+ "!";
                       nl +:+ "Please run the following command to compile contracts first:";
                       nl +:+ "    make build" +:+ nl])
       (w_clock w) (w_files w)).
Proof.
  intros Hf. unfold uploadWasm, existsSync, bind. cbn -[String.append].
  rewrite Hf. cbn -[String.append]. by rewrite <- !app_assoc.
Qed.

(** C14: [uploadWasm] returns only when the file exists, and then returns
    a successful transaction with a return value after printing exactly
    one line, ["Uploaded Wasm: "] and the transaction's hash. *)
Theorem uploadWasm_ok signer filePath (w : World N) r w' :
  uploadWasm signer filePath w = (Ok r, w') ->
  is_Some (w_files w !! filePath) /\ status r = SUCCESS /\ is_Some (returnValue r) /\
  w_stdout w' = w_stdout w ++ ["Uploaded Wasm: " +:+ txHash r] /\ w_stderr w' = w_stderr w.
Proof.
  unfold uploadWasm, existsSync, readFileSync. unfold bind at 1.
  destruct (w_files w !! filePath) as [b|] eqn:Hf; cbn -[buildAndSendTransaction String.append];
    [| intros Hrun; cbn in Hrun; discriminate Hrun].
  intros Hrun.
  destruct (bind_Ok_inv _ _ _ _ _ Hrun) as (b' & w0 & Hread & Hrun'). rewrite Hf in Hread.
  simplify_eq.
  destruct (bind_Ok_inv _ _ _ _ _ Hrun') as (rd & w1 & Hsend & Hlog). cbn in Hlog. unfold ret in Hlog. simplify_eq.
  match type of Hsend with
  | buildAndSendTransaction _ ?op ?w0 = _ =>
      destruct (buildAndSendTransaction_io signer op w0) as (Ho & He & _)
  end.
  rewrite Hsend in Ho, He. cbn in Ho, He.
  apply buildAndSendTransaction_Ok_value in Hsend as [Hs Hv].
  split_and!; [done | done | done | by rewrite Ho | done].
Qed.

(** C15: [deployContract] on an upload without return value, or whose
    return value is void, throws ["Transaction failed: "] with the upload's
    hash, before any request. *)
Theorem deployContract_no_wasm_hash signer response (w : World N) :
  returnValue response = None \/ returnValue response = Some ScvVoid ->
  deployContract signer response w = (Throw (new_Error ("Transaction failed: " +:+ txHash response)), w).
Proof. unfold deployContract. by intros [-> | ->]. Qed.

(** C16: on an upload whose return value is neither bytes nor void, the
    accessor [.bytes()] throws its [TypeError], before any request. *)
Theorem deployContract_not_bytes signer response v (w : World N) :
  returnValue response = Some v -> v <> ScvVoid -> (forall b, v <> ScvBytes b) ->
  deployContract signer response w = (Throw (arm_not_set "bytes"), w).
Proof.
  intros Hrv Hvoid Hbytes. unfold deployContract. rewrite Hrv.
  destruct v; try done; exfalso; first [by apply Hvoid | by eapply Hbytes].
Qed.

(** C17: when the upload returned a 32 byte wasm hash and its transaction
    hash is the hexadecimal of 32 bytes, [deployContract] sends exactly one
    creation: of that wasm hash, at the signer's address, salted with the
    bytes of the upload's hash; the operation's length checks pass. *)
Theorem deployContract_creates signer response wasmHash salt (w : World N) :
  returnValue response = Some (ScvBytes wasmHash) ->
  txHash response = hex_encode salt ->
  length wasmHash = 32%nat -> length salt = 32%nat ->
  deployContract signer response w =
    (let* responseDeploy := buildAndSendTransaction signer
          (OpCreateCustomContract (ScAddressAccount (publicKey signer)) wasmHash salt) in
     contract_address_of response responseDeploy) w.
Proof.
  intros Hrv Hh Hw Hs. unfold deployContract. rewrite Hrv. cbn -[buildAndSendTransaction].
  rewrite Hh, hex_decode_encode. unfold createCustomContract. by rewrite Hw, Hs.
Qed.

(** C18: the [else] branch of lines 63-65 is dead: after a deployment
    transaction that [buildAndSendTransaction] returned, reading the
    contract address never throws ["Transaction failed: "]; it returns
    the address or throws a [TypeError]. *)
Theorem deployContract_else_unreachable signer op response (w : World N) rd w' :
  buildAndSendTransaction signer op w = (Ok rd, w') ->
  (exists a, contract_address_of response rd w' = (Ok a, w')) \/
  (exists msg, contract_address_of response rd w' = (Throw (mkJsError "TypeError" msg), w')).
Proof.
  intros Hrun. apply buildAndSendTransaction_Ok_value in Hrun as [_ [v Hv]].
  unfold contract_address_of. rewrite Hv. cbn.
  destruct v as [| | | | | | | |[]|]; cbn; eauto.
Qed.
End DeployFactsSec.
End DeployFacts.

(** ** The upload as a run of the spec's lifecycle *)
Module DeployLifecycle.
Import RpcFacts Helpers Deploy DeployFacts Lifecycle ServerLifecycle LifecycleRefinement HelpersLifecycle.

Section DeployLifecycleSec.
Context {N : Type} `{RpcServer N} `{Crypto}.

(** C33: [uploadWasm] composed with the pipeline, on any server: without
    the file it sends nothing and ends the process with code 1; with the
    file, its requests are one run of the spec's lifecycle for the
    signer and the upload of exactly the file's bytes, at most
    [3 + MAX_POLLS] requests, and a response is only returned after a
    query of its hash.  With the server's answers, the requests are one
    run of the lifecycle against the server from its start to a
    terminal phase: the hash polled is the one the server answered to
    the submission, and the response returned is the confirmed
    transaction the run ends with. *)
Theorem uploadWasm_refines signer path (w : World N) :
  let '(o, w') := uploadWasm signer path w in
  exists calls, w_calls w' = w_calls w ++ calls /\
    match w_files w !! path with
    | None => calls = [] /\ o = Exit 1
    | Some code =>
        (exists ph, lc_run (publicKey signer) (OpUploadContractWasm code) Start calls ph /\
          (length calls <= 3 + MAX_POLLS)%nat /\
          (forall r, o = Ok r -> exists h n, ph = Polled h n)) /\
        exists ph, nrun (publicKey signer) BASE_FEE TESTNET (OpUploadContractWasm code)
                     (NStart, w_net w) calls (ph, w_net w') /\ settles o ph
    end.
Proof.
  unfold uploadWasm, bind at 1, existsSync. cbn.
  destruct (w_files w !! path) as [code|] eqn:Hf; cbn.
  - unfold bind at 1, readFileSync. rewrite Hf. cbn.
    unfold bind at 1. rewrite buildAndSendTransaction_submit.
    pose proof (submitStellarTransaction_lifecycle
                  (mkSubmitStellarParams signer None None (OpUploadContractWasm code)) w) as Hl.
    pose proof (submitStellarTransaction_server_run
                  (mkSubmitStellarParams signer None None (OpUploadContractWasm code)) w) as Hs.
    destruct (submitStellarTransaction _ w) as [o w1].
    destruct Hl as (calls & ph & Hc & Hrun & Hok & _). cbn in Hrun.
    destruct Hs as (calls' & ph' & Hc' & Hrun' & Hset). cbn in Hrun'.
    rewrite Hc in Hc'. apply app_inv_head in Hc' as <-.
    destruct o as [r|e|c]; cbn; exists calls; (split; [done|]);
      (split; [exists ph; split_and!; try done; try (by eapply lc_run_bound) |
               exists ph'; split; done]).
    intros r' [= <-]. destruct (Hok r eq_refl) as (h & n & -> & _). eauto.
  - unfold bind, console_error, exit. cbn. exists []. split; [by rewrite app_nil_r | done].
Qed.


End DeployLifecycleSec.
End DeployLifecycle.

(** ** The deployment helpers on the scripted server *)
Module DeployRuns.
Import Fake DeployFacts Deploy.

Definition wasm_path : string := "contracts/c.wasm".
Definition wasm_code : bytes := [Byte.x00; Byte.x61; Byte.x73; Byte.x6d].
Definition wasm_hash : bytes := replicate 32 Byte.x2a.
Definition upload_salt : bytes := replicate 32 Byte.x07.

Definition with_files (w : World FakeNet) (fs : gmap string bytes) : World FakeNet :=
  mkWorld (w_net w) (w_calls w) (w_stdout w) (w_stderr w) (w_clock w) fs.

(** The upload is answered by a success whose return value is the wasm
    hash. *)
Definition upload_world : World FakeNet :=
  with_files (start (scenario [GetSuccess "abc" 7 (Some (ScvBytes wasm_hash))] (SimSuccess None)))
    {[ wasm_path := wasm_code ]}.

Definition upload_response : GetTransactionResponse :=
  GetSuccess (hex_encode upload_salt) 7 (Some (ScvBytes wasm_hash)).

Lemma uploadWasm_missing_file_witness :
  exists w', uploadWasm signer "missing.wasm" upload_world = (Exit 1, w').
Proof. eexists. apply uploadWasm_missing_file. reflexivity. Defined.

Definition upload_answer : GetTransactionResponse := GetSuccess "abc" 7 (Some (ScvBytes wasm_hash)).

Lemma uploadWasm_ok_witness :
  is_Some (w_files upload_world !! wasm_path) /\
  status upload_answer = SUCCESS /\ is_Some (returnValue upload_answer) /\
  w_stdout (uploadWasm signer wasm_path upload_world).2 =
    w_stdout upload_world ++ ["Uploaded Wasm: " +:+ txHash upload_answer] /\
  w_stderr (uploadWasm signer wasm_path upload_world).2 = w_stderr upload_world.
Proof.
  apply (uploadWasm_ok signer wasm_path upload_world upload_answer
           (uploadWasm signer wasm_path upload_world).2).
  vm_compute. reflexivity.
Defined.

Lemma deployContract_no_wasm_hash_witness :
  deployContract signer (GetSuccess "abc" 7 None) upload_world =
    (Throw (new_Error ("Transaction failed: " +:+ "abc")), upload_world).
Proof. apply deployContract_no_wasm_hash. by left. Defined.

Lemma deployContract_not_bytes_witness :
  deployContract signer (GetSuccess "abc" 7 (Some (ScvU32 1))) upload_world =
    (Throw (arm_not_set "bytes"), upload_world).
Proof. eapply deployContract_not_bytes; [reflexivity | discriminate | discriminate]. Defined.

Lemma deployContract_creates_witness :
  deployContract signer upload_response upload_world =
    (let* responseDeploy := buildAndSendTransaction signer
          (OpCreateCustomContract (ScAddressAccount (publicKey signer)) wasm_hash upload_salt) in
     contract_address_of upload_response responseDeploy) upload_world.
Proof. apply deployContract_creates; reflexivity. Defined.

(** The deployment is answered by a success whose return value is the
    new contract's address. *)
Definition deploy_world : World FakeNet :=
  start (scenario [GetSuccess "def" 8 (Some (ScvAddress (ScAddressContract wasm_hash)))]
           (SimSuccess None)).

Definition deploy_op : Operation :=
  OpCreateCustomContract (ScAddressAccount "GS") wasm_hash upload_salt.
Definition deploy_answer : GetTransactionResponse :=
  GetSuccess "def" 8 (Some (ScvAddress (ScAddressContract wasm_hash))).
Definition deploy_after : World FakeNet := (buildAndSendTransaction signer deploy_op deploy_world).2.

Lemma deployContract_else_unreachable_witness :
  (exists a, contract_address_of upload_response deploy_answer deploy_after = (Ok a, deploy_after)) \/
  (exists msg, contract_address_of upload_response deploy_answer deploy_after =
                 (Throw (mkJsError "TypeError" msg), deploy_after)).
Proof.
  apply (deployContract_else_unreachable signer deploy_op upload_response deploy_world).
  vm_compute. reflexivity.
Defined.
End DeployRuns.
