(* ===== verification/Drivers.v ===== *)
(** * The example drivers and their deploy wrappers

    [src/src/increment/deploy.ts] and [src/src/events/deploy.ts] upload a
    fixed wasm file and deploy it; [src/src/increment/index.ts],
    [src/src/events/index.ts] and [src/src/hello_world/index.ts] are the
    [main] functions of the three examples.  Each is a script of the
    monad [M] over any [RpcServer]: the provider is the world's network,
    the keypair is built from the [STELLAR_PRIVATE_KEY] variable of the
    environment (read with [?? ""]), and the lines printed are the
    world's stdout.

    The hello world driver imports [deployHelloWorldContract] from
    [./deploy.js], which the repository does not have: [main_hello] is its
    [main] on the deploy function that module would provide, and
    [program_hello], the module as the repository has it, fails to load
    before any of its statements runs.  The increment and events modules'
    top level runs [dotenv.config()] and calls [main()] without [await]
    or [catch]: an error it throws becomes an unhandled rejection, on
    which Node prints the error and exits with code 1 ([node_main],
    [program_increment], [program_events]). *)

From S2P Require Import Prelude Sdk Native Helpers Simulate Deploy.
From stdpp Require Import pretty.
Import Xdr Keys TxBuild Rpc Native.
Open Scope ts_scope.

Module Drivers.

(** [process.env.NAME ?? ""]. *)
Definition env_var (env : gmap string string) (name : string) : string :=
  default "" (env !! name).

Definition STELLAR_RPC_URL (env : gmap string string) : string :=
  env_var env "STELLAR_RPC_URL".

Definition PRIVATE_KEY (env : gmap string string) : string :=
  env_var env "STELLAR_PRIVATE_KEY".

Definition INCREMENT_WASM : string :=
  "contracts/increment/target/wasm32v1-none/release/soroban_increment_contract.wasm".

Definition EVENTS_WASM : string :=
  "contracts/events/target/wasm32v1-none/release/soroban_events_contract.wasm".

Definition RULE : string := "--------------------------------".

Section DriversSec.
Context {N : Type} `{RpcServer N} `{Crypto} `{NodeRuntime}.

(** [deployIncrementContract]. *)
Definition deployIncrementContract (signer : Keypair) : M (World N) string :=
  console_log "Deploying Increment Contract..." ;;
  let wasmFilePath := INCREMENT_WASM in
  let* uploadResponse := Deploy.uploadWasm signer wasmFilePath in
  let* contractAddress := Deploy.deployContract signer uploadResponse in
  console_log ("Deployed Increment Contract: " +:+ contractAddress) ;;
  ret contractAddress.

(** [deployEventsContract]. *)
Definition deployEventsContract (signer : Keypair) : M (World N) string :=
  console_log "Deploying Events Contract..." ;;
  let wasmFilePath := EVENTS_WASM in
  let* uploadResponse := Deploy.uploadWasm signer wasmFilePath in
  let* contractAddress := Deploy.deployContract signer uploadResponse in
  console_log ("Contract deployed successfully: " +:+ contractAddress) ;;
  ret contractAddress.

(** Lines 18-27, which open every [main]: the three banner lines, then
    [new rpc.Server(STELLAR_RPC_URL)] and [Keypair.fromSecret(PRIVATE_KEY)],
    either of which may throw, then the provider line and the account
    line.  The server object is the world's network; the keypair is
    returned. *)
Definition banner (title : string) (env : gmap string string) : M (World N) Keypair :=
  console_log RULE ;;
  console_log title ;;
  console_log RULE ;;
  let* provider := of_res (Server_new (STELLAR_RPC_URL env)) in
  let* keypair := of_res (Keypair_fromSecret (PRIVATE_KEY env)) in
  console_log "Stellar provider initialized successfully" ;;
  console_log ("User account: " +:+ publicKey keypair) ;;
  ret keypair.

(** [if (r.returnValue) { ... `${label}${scValToNative(rv)}` } else
    { ... `${label}null` }]: an [xdr.ScVal] object is truthy. *)
Definition print_return (label : string) (rv : option ScVal) : M (World N) unit :=
  match rv with
  | Some v => console_log (label +:+ js_String (scValToNative v))
  | None => console_log (label +:+ "null")
  end.

(** The body of the loop [for (let i = 1; i <= 3; i++)] of the
    increment and events drivers, which is the same in both. *)
Definition increment_call (keypair : Keypair) (c : Contract) (i : Z) : M (World N) unit :=
  let* incrementResponse :=
    Helpers.submitTransaction (Helpers.mkSubmitParams keypair c "increment" []) in
  print_return ("Increment call #" +:+ pretty i +:+ ": ") (returnValue incrementResponse).

Definition increment_calls (keypair : Keypair) (c : Contract) : M (World N) unit :=
  for_loop 3 1 (increment_call keypair c).

(** "Demonstrate getting the current value" (lines 56-70). *)
Definition get_current_value (keypair : Keypair) (c : Contract) : M (World N) unit :=
  console_log (Deploy.nl +:+ "--- Getting current value ---") ;;
  let* getValueResponse :=
    Helpers.submitTransaction (Helpers.mkSubmitParams keypair c "get_count" []) in
  print_return "Current value: " (returnValue getValueResponse).

(** "Demonstrate resetting the value" (lines 73-80): the response is not
    used. *)
Definition reset_value (keypair : Keypair) (c : Contract) : M (World N) unit :=
  console_log (Deploy.nl +:+ "--- Resetting value to 0 ---") ;;
  Helpers.submitTransaction (Helpers.mkSubmitParams keypair c "reset" []) ;;
  ret tt.

(** "Verify the reset by getting the value again" (lines 83-96).  The
    [else] branch is dead: [simulateTransaction] returns an [xdr.ScVal],
    which is truthy. *)
Definition verify_reset (keypair : Keypair) (c : Contract) : M (World N) unit :=
  console_log (Deploy.nl +:+ "--- Verifying reset ---") ;;
  let* finalValueResponse :=
    Simulate.simulateTransaction (Simulate.mkSimulateParams keypair c "get_count") in
  console_log ("Final value after reset: " +:+ js_String (scValToNative finalValueResponse)).

(** The [main] of [increment/index.ts]. *)
Definition main_increment (env : gmap string string) : M (World N) unit :=
  let* keypair := banner "Increment Example" env in
  let* contractAddress := deployIncrementContract keypair in
  console_log ("Contract deployed successfully. Address: " +:+ contractAddress) ;;
  let incrementContract := mkContract contractAddress in
  console_log (Deploy.nl +:+ "--- Calling increment() function multiple times ---") ;;
  increment_calls keypair incrementContract ;;
  get_current_value keypair incrementContract ;;
  reset_value keypair incrementContract ;;
  verify_reset keypair incrementContract.

(** [scValToNative(undefined)] reads [.switch()] of [undefined]. *)
Definition undefined_switch : JsError :=
  mkJsError "TypeError" "Cannot read properties of undefined (reading 'switch')".

(** The body of [for (const event of eventsResponse.events)]: the first
    topic ([const [topicSymbol] = event.topic]) and the value. *)
Definition print_event (event : EventResponse) : M (World N) unit :=
  match event_topic event with
  | [] => throw undefined_switch
  | topicSymbol :: _ =>
      let topic := scValToNative topicSymbol in
      let value := scValToNative (event_value event) in
      console_log (format_log [NString "Topic:"; topic]) ;;
      console_log (format_log [NString "Value:"; value])
  end.

(** The query of lines 52-56: the last hundred ledgers, this contract's
    events ([contractAddress || ''] is the address itself, or [''] when it
    is empty), at most a thousand. *)
Definition events_request (sequence : Z) (contractAddress : string) : GetEventsRequest :=
  mkEventsRequest (sequence - 100)
    [if String.eqb contractAddress "" then "" else contractAddress] 1000.

(** Lines 49-64: the latest ledger, this contract's events since a
    hundred ledgers before it, and two lines for each event. *)
Definition list_events (contractAddress : string) : M (World N) unit :=
  let* ledger := getLatestLedger in
  let* eventsResponse := getEvents (events_request ledger contractAddress) in
  for_of eventsResponse print_event.

(** The [main] of [events/index.ts]. *)
Definition main_events (env : gmap string string) : M (World N) unit :=
  let* keypair := banner "Events Example" env in
  let* contractAddress := deployEventsContract keypair in
  let eventsContract := mkContract contractAddress in
  console_log (Deploy.nl +:+ "--- Calling increment() function to generate events ---") ;;
  increment_calls keypair eventsContract ;;
  list_events contractAddress.

(** The [main] of [hello_world/index.ts], on the deploy function its
    missing [./deploy.js] would provide. *)
Definition main_hello (deployHelloWorldContract : Keypair -> M (World N) string)
    (env : gmap string string) : M (World N) unit :=
  let* keypair := banner "Hello World Example" env in
  let* contractAddress := deployHelloWorldContract keypair in
  let helloWorldContract := mkContract contractAddress in
  let* helloWorldInvocation :=
    Helpers.submitTransaction
      (Helpers.mkSubmitParams keypair helloWorldContract "hello" [nativeToScVal_string " World"]) in
  print_return "Hello World response: " (returnValue helloWorldInvocation).

(** [dotenv.config()]: the [.env] file of the working directory is read
    (a file that cannot be read is ignored) and each variable it assigns
    is added to [process.env] unless the environment has it already;
    within the file the last assignment of a variable wins. *)
Definition DOTENV_PATH : string := ".env".

Definition dotenv_populate (env : gmap string string) (parsed : list (string * string))
    : gmap string string :=
  env ∪ foldl (fun m kv => <[kv.1 := kv.2]> m) ∅ parsed.

Definition dotenv_config (env : gmap string string) : M (World N) (gmap string string) :=
  try_catch
    (let* src := readFileSync DOTENV_PATH in
     ret (dotenv_populate env (dotenv_parse src)))
    (fun _ => ret env).

(** [main();] at the top level of a module: the promise is neither
    awaited nor caught, so when [main] throws, Node prints the error on
    stderr and ends the process with code 1. *)
Definition node_main (main : M (World N) unit) : M (World N) unit :=
  try_catch main (fun e => for_of (uncaught_report e) console_error ;; exit 1).

(** The top-level statements of the increment and events modules:
    [dotenv.config()], the constants read from [process.env] (read by
    [main] through [env_var]), and [main();]. *)
Definition program_increment (env : gmap string string) : M (World N) unit :=
  let* env := dotenv_config env in
  node_main (main_increment env).

Definition program_events (env : gmap string string) : M (World N) unit :=
  let* env := dotenv_config env in
  node_main (main_events env).

(** The hello world module as the repository has it: its line 9 imports
    [./deploy.js], and no [deploy.ts] sits beside [hello_world/index.ts].
    The imports are ES module imports (their specifiers end in [.js]), so
    the loader resolves them while linking the module graph, before any
    statement is evaluated: [dotenv.config()] and [main()] never run, Node
    reports the [ERR_MODULE_NOT_FOUND] error on stderr and exits with
    code 1. *)
Definition HELLO_DEPLOY_MODULE : string := "./deploy.js".

Definition program_hello : M (World N) unit :=
  for_of (uncaught_report (module_not_found HELLO_DEPLOY_MODULE)) console_error ;;
  exit 1.

End DriversSec.
End Drivers.

(** ** The drivers on any server *)
Module DriversFacts.
Import Drivers.

Section DriversFactsSec.
Context {N : Type} `{RpcServer N} `{Crypto} `{NodeRuntime}.

(** The world after [out] is printed on stdout. *)
Definition printed (w : World N) (out : list string) : World N :=
  mkWorld (w_net w) (w_calls w) (w_stdout w ++ out) (w_stderr w) (w_clock w) (w_files w).

(** The configuration both constructors of the preamble accept. *)
Definition config_ok (env : gmap string string) : Prop :=
  Server_new (STELLAR_RPC_URL env) = inr tt /\
  Keypair_fromSecret (PRIVATE_KEY env) = inr (fromSecret (PRIVATE_KEY env)).

Lemma banner_ok title env (w : World N) :
  config_ok env ->
  banner title env w =
    (Ok (fromSecret (PRIVATE_KEY env)),
     printed w [RULE; title; RULE; "Stellar provider initialized successfully";
                "User account: " +:+ publicKey (fromSecret (PRIVATE_KEY env))]).
Proof.
  intros [Hs Hk]. unfold banner. rewrite Hs, Hk.
  unfold printed, bind, console_log, of_res, ret. cbn. by rewrite <- !app_assoc.
Qed.

Lemma banner_url_error title env e (w : World N) :
  Server_new (STELLAR_RPC_URL env) = inl e ->
  banner title env w = (Throw e, printed w [RULE; title; RULE]).
Proof.
  intros Hs. unfold banner. rewrite Hs.
  unfold printed, bind, console_log, of_res. cbn. by rewrite <- !app_assoc.
Qed.

Lemma banner_secret_error title env msg (w : World N) :
  Server_new (STELLAR_RPC_URL env) = inr tt -> secret_seed_error (PRIVATE_KEY env) = Some msg ->
  banner title env w = (Throw (new_Error msg), printed w [RULE; title; RULE]).
Proof.
  intros Hs Hk. unfold banner, Keypair_fromSecret. rewrite Hs, Hk.
  unfold printed, bind, console_log, of_res. cbn. by rewrite <- !app_assoc.
Qed.

(** Each [main] stops where its preamble throws. *)
Lemma mains_banner_throw env deployHello e (w : World N) :
  (forall title, banner title env w = (Throw e, printed w [RULE; title; RULE])) ->
  main_increment env w = (Throw e, printed w [RULE; "Increment Example"; RULE]) /\
  main_events env w = (Throw e, printed w [RULE; "Events Example"; RULE]) /\
  main_hello deployHello env w = (Throw e, printed w [RULE; "Hello World Example"; RULE]).
Proof. intros Hb. split_and!; apply bind_Throw, Hb. Qed.

(** C27: an RPC URL that is not [https] (an unset [STELLAR_RPC_URL] is
    [""], which has no protocol) makes [new rpc.Server] throw: each of
    the three examples prints its three banner lines and throws that
    error, before reading the key and before any request. *)
Theorem mains_insecure_server_url env deployHello e (w : World N) :
  Server_new (STELLAR_RPC_URL env) = inl e ->
  main_increment env w = (Throw e, printed w [RULE; "Increment Example"; RULE]) /\
  main_events env w = (Throw e, printed w [RULE; "Events Example"; RULE]) /\
  main_hello deployHello env w = (Throw e, printed w [RULE; "Hello World Example"; RULE]).
Proof. intros Hs. apply mains_banner_throw. intros title. by apply banner_url_error. Qed.

(** C28: with an accepted URL but a [STELLAR_PRIVATE_KEY] that is not a
    secret seed (an unset one is [""]), [Keypair.fromSecret] throws the
    decoder's error: each example prints its three banner lines and
    throws it, before the provider line and before any request. *)
Theorem mains_invalid_secret env deployHello msg (w : World N) :
  Server_new (STELLAR_RPC_URL env) = inr tt -> secret_seed_error (PRIVATE_KEY env) = Some msg ->
  main_increment env w = (Throw (new_Error msg), printed w [RULE; "Increment Example"; RULE]) /\
  main_events env w = (Throw (new_Error msg), printed w [RULE; "Events Example"; RULE]) /\
  main_hello deployHello env w =
    (Throw (new_Error msg), printed w [RULE; "Hello World Example"; RULE]).
Proof. intros Hs Hk. apply mains_banner_throw. intros title. by apply banner_secret_error. Qed.

(** C25: when the contract has not been built, [main] of the increment
    example (with an accepted configuration) prints its banner and ["Deploying Increment Contract..."],
    then [uploadWasm] prints its three error lines on stderr and ends the
    process with code 1: no request is sent, whatever the server. *)
Theorem main_increment_missing_wasm env (w : World N) :
  config_ok env -> w_files w !! INCREMENT_WASM = None ->
  main_increment env w =
    (Exit 1,
     mkWorld (w_net w) (w_calls w)
       (w_stdout w ++ [RULE; "Increment Example"; RULE; "Stellar provider initialized successfully";
                       "User account: " +:+ publicKey (fromSecret (PRIVATE_KEY env));
                       "Deploying Increment Contract..."])
       (w_stderr w ++ [Deploy.nl +:+ "ERROR: Required WASM file not found at " +:+ INCREMENT_WASM +:+ "!";
                       Deploy.nl +:+ "Please run the following command to compile contracts first:";
                       Deploy.nl +:+ "    make build" +:+ Deploy.nl])
       (w_clock w) (w_files w)).
Proof.
  intros Hc Hf. unfold main_increment. rewrite (bind_Ok _ _ _ _ _ (banner_ok _ _ _ Hc)).
  unfold deployIncrementContract, Deploy.uploadWasm.
  unfold bind, console_log, console_error, existsSync, exit, printed. cbn -[String.append INCREMENT_WASM].
  rewrite Hf. cbn -[String.append INCREMENT_WASM]. by rewrite <- !app_assoc.
Qed.

(** The environment [dotenv.config()] leaves. *)
Definition loaded_env (files : gmap string bytes) (env : gmap string string) : gmap string string :=
  match files !! DOTENV_PATH with
  | Some src => dotenv_populate env (dotenv_parse src)
  | None => env
  end.

Lemma dotenv_config_run env (w : World N) :
  dotenv_config env w = (Ok (loaded_env (w_files w) env), w).
Proof.
  unfold dotenv_config, loaded_env, try_catch, bind, readFileSync, ret.
  by destruct (w_files w !! DOTENV_PATH).
Qed.

(** The world after Node's report of the unhandled error [e]. *)
Definition reported (w : World N) (e : JsError) : World N :=
  mkWorld (w_net w) (w_calls w) (w_stdout w) (w_stderr w ++ uncaught_report e)
    (w_clock w) (w_files w).

Lemma for_of_console_error lines (w : World N) :
  for_of lines console_error w =
    (Ok tt, mkWorld (w_net w) (w_calls w) (w_stdout w) (w_stderr w ++ lines) (w_clock w) (w_files w)).
Proof.
  revert w. induction lines as [|l lines IH]; intros w; cbn [for_of].
  - destruct w. cbn. by rewrite app_nil_r.
  - unfold bind at 1, console_error at 1. rewrite IH. cbn. by rewrite <- app_assoc.
Qed.

Lemma node_main_throw m (w w' : World N) e :
  m w = (Throw e, w') -> node_main m w = (Exit 1, reported w' e).
Proof.
  intros Hm. unfold node_main, try_catch. rewrite Hm.
  unfold bind at 1. by rewrite for_of_console_error.
Qed.

Lemma node_main_pass m (w w' : World N) o :
  m w = (o, w') -> (forall e, o <> Throw e) -> node_main m w = (o, w').
Proof. intros Hm Ho. unfold node_main, try_catch. rewrite Hm. by destruct o; [| destruct (Ho e) |]. Qed.

(** C29: run as [node increment/index.js] (and likewise the events
    module) with no [https] RPC URL after [dotenv.config()] (neither the
    environment nor [.env] sets [STELLAR_RPC_URL]): the three banner
    lines are printed, the constructor's error becomes an unhandled
    rejection, Node reports it on stderr and the process ends with code
    1, before any request.  The hello world module, whose import of
    [./deploy.js] cannot be resolved, prints no banner at all: Node
    reports the missing module and the process ends with code 1, whatever
    the environment. *)
Theorem programs_insecure_server_url env e (w : World N) :
  Server_new (STELLAR_RPC_URL (loaded_env (w_files w) env)) = inl e ->
  program_increment env w = (Exit 1, reported (printed w [RULE; "Increment Example"; RULE]) e) /\
  program_events env w = (Exit 1, reported (printed w [RULE; "Events Example"; RULE]) e) /\
  program_hello w = (Exit 1, reported w (module_not_found HELLO_DEPLOY_MODULE)).
Proof.
  intros Hs.
  destruct (mains_banner_throw (loaded_env (w_files w) env) (fun _ => ret "") e w) as (Hi & He & _).
  { intros title. by apply banner_url_error. }
  unfold program_increment, program_events, program_hello.
  split_and!; try (rewrite (bind_Ok _ _ _ _ _ (dotenv_config_run env w)); by apply node_main_throw).
  unfold bind at 1. by rewrite for_of_console_error.
Qed.

End DriversFactsSec.
End DriversFacts.
