(* ===== verification/Ledger.v ===== *)
(** * A ledger model of the network

    The network the scripts talk to, as a state machine: accounts with
    their sequence numbers, the uploaded contract code by hash, the
    contract instances (by their [C...] address) with their code hash and
    storage, the result of every applied transaction by hash, the latest
    ledger number and the emitted events.  It instantiates
    [Sdk.Rpc.RpcServer]:
    - [sendTransaction] answers [DUPLICATE] for a hash it has seen, and
      [ERROR] for an unknown source, a sequence number other than the
      account's next one, or a transaction its source did not sign; a
      transaction it accepts consumes the sequence number, closes a
      ledger, and is recorded as a success with the operation's return
      value or as a failure;
    - [getTransaction] answers the recorded result, or [NOT_FOUND];
    - [simulateTransaction] and [prepareTransaction] run the operation on
      the current state without recording anything.
    A Soroban transaction carries exactly one operation.  What a contract
    function does, and the hashes of code, contract ids and transactions
    (32 bytes, shown as 64 lowercase hexadecimal digits) are given by the
    typeclass [Host]. *)

From S2P Require Import Prelude Sdk Helpers Deploy.
Import Xdr Keys TxBuild Rpc.

Module Ledger.

(** What the contracts do: the hash of uploaded code, the id of a contract
    created by a deployer with a salt, the digest of a transaction of a
    source with a sequence number, and a call of a function of the code
    an instance runs
    on arguments and the instance's storage, which fails with a message
    or returns a value, the new storage and the events emitted (topics and
    value). *)
Class Host := {
  host_wasm_hash : bytes -> bytes;
  host_contract_id : string -> bytes -> bytes;
  host_tx_hash : string -> Z -> bytes;
  host_call : bytes -> string -> list ScVal -> ScVal ->
              string + (ScVal * ScVal * list (list ScVal * ScVal))
}.

(** What the scripts rely on of the host: the hashes of code and
    transactions are 32 bytes (a wasm hash and a salt of
    [createCustomContract] must be), and the digest of a source's
    transaction tells its sequence number, an [int64], apart. *)
Class HostLaws `{Host} := {
  wasm_hash_length : forall code, length (host_wasm_hash code) = 32;
  tx_hash_length : forall src seq, length (host_tx_hash src seq) = 32;
  tx_hash_inj : forall src seq seq',
    (0 <= seq < 2 ^ 63)%Z -> (0 <= seq' < 2 ^ 63)%Z ->
    host_tx_hash src seq = host_tx_hash src seq' -> seq = seq'
}.

Record Instance_ := mkInstance { inst_wasm : bytes; inst_storage : ScVal }.

Record Ledger := mkLedger {
  lg_accounts : gmap string Z;
  lg_code : gmap bytes bytes;
  lg_contracts : gmap string Instance_;
  lg_results : gmap string GetTransactionResponse;
  lg_sequence : Z;
  lg_events : list EventResponse
}.

Section LedgerSec.
Context `{Crypto} `{Host}.

Definition tx_hash (tx : Transaction) : string :=
  Deploy.hex_encode (host_tx_hash (tx_source tx) (tx_sequence tx)).

(** The effect of an operation on code and contracts. *)
Record Effect := mkEffect {
  eff_return : ScVal;
  eff_code : gmap bytes bytes;
  eff_contracts : gmap string Instance_;
  eff_events : list EventResponse
}.

Definition run_op (L : Ledger) (op : Operation) : string + Effect :=
  match op with
  | OpUploadContractWasm code =>
      let h := host_wasm_hash code in
      inr (mkEffect (ScvBytes h) (<[h := code]> (lg_code L)) (lg_contracts L) [])
  | OpCreateCustomContract (ScAddressAccount deployer) wasmHash salt =>
      let id := host_contract_id deployer salt in
      let addr := encodeContract id in
      if bool_decide (is_Some (lg_code L !! wasmHash)) then
        if bool_decide (is_Some (lg_contracts L !! addr)) then inl "contract already exists"
        else inr (mkEffect (ScvAddress (ScAddressContract id)) (lg_code L)
                    (<[addr := mkInstance wasmHash ScvVoid]> (lg_contracts L)) [])
      else inl "wasm does not exist"
  | OpCreateCustomContract (ScAddressContract _) _ _ => inl "deployer must be an account"
  | OpInvokeContract c fn args =>
      match lg_contracts L !! c with
      | None => inl "contract not found"
      | Some inst =>
          match lg_code L !! inst_wasm inst with
          | None => inl "wasm does not exist"
          | Some code =>
              match host_call code fn args (inst_storage inst) with
              | inl msg => inl msg
              | inr (rv, st, evs) =>
                  inr (mkEffect rv (lg_code L)
                         (<[c := mkInstance (inst_wasm inst) st]> (lg_contracts L))
                         (map (fun '(topic, v) => mkEvent c topic v (lg_sequence L + 1)) evs))
              end
          end
      end
  end.

(** A Soroban transaction has exactly one operation. *)
Definition run_tx (L : Ledger) (tx : Transaction) : string + Effect :=
  match tx_operations tx with
  | [op] => run_op L op
  | _ => inl "a transaction must have exactly one operation"
  end.

(** The checks [sendTransaction] makes before applying: [None] when the
    transaction is accepted, the status to answer otherwise. *)
Definition send_check (L : Ledger) (tx : Transaction) : option SendStatus :=
  if bool_decide (is_Some (lg_results L !! tx_hash tx)) then Some DUPLICATE
  else match lg_accounts L !! tx_source tx with
       | None => Some ERROR
       | Some s =>
           if bool_decide (tx_sequence tx = s + 1)%Z then
             if bool_decide (tx_source tx ∈ tx_signatures tx) then None else Some ERROR
           else Some ERROR
       end.

(** An accepted transaction consumes its sequence number and closes a
    ledger, whether its operation succeeds or fails. *)
Definition apply_tx (L : Ledger) (tx : Transaction) : Ledger :=
  let h := tx_hash tx in
  let n := (lg_sequence L + 1)%Z in
  let accounts := <[tx_source tx := tx_sequence tx]> (lg_accounts L) in
  match run_tx L tx with
  | inl _ =>
      mkLedger accounts (lg_code L) (lg_contracts L) (<[h := GetFailed h n]> (lg_results L)) n
        (lg_events L)
  | inr e =>
      mkLedger accounts (eff_code e) (eff_contracts e)
        (<[h := GetSuccess h n (Some (eff_return e))]> (lg_results L)) n
        (lg_events L ++ eff_events e)
  end.

Definition ledger_send (tx : Transaction) (L : Ledger) : Res SendTransactionResponse * Ledger :=
  match send_check L tx with
  | Some st => (inr (mkSendResponse st (tx_hash tx)), L)
  | None => (inr (mkSendResponse PENDING (tx_hash tx)), apply_tx L tx)
  end.

Definition ledger_getAccount (a : string) (L : Ledger) : Res Account * Ledger :=
  match lg_accounts L !! a with
  | Some s => (inr (mkAccount a s), L)
  | None => (inl (new_Error ("Account not found: " +:+ a)), L)
  end.

Definition ledger_simulate (tx : Transaction) (L : Ledger) : Res SimulateTransactionResponse * Ledger :=
  match run_tx L tx with
  | inl msg => (inr (SimError msg), L)
  | inr e => (inr (SimSuccess (Some (mkSimResult (eff_return e)))), L)
  end.

(** [prepareTransaction] simulates and throws the simulation's error;
    the resource estimates it adds are not modelled. *)
Definition ledger_prepare (tx : Transaction) (L : Ledger) : Res Transaction * Ledger :=
  match run_tx L tx with
  | inl msg => (inl (new_Error msg), L)
  | inr _ => (inr tx, L)
  end.

Definition ledger_getTransaction (h : string) (L : Ledger) : Res GetTransactionResponse * Ledger :=
  (inr (default (GetNotFound h) (lg_results L !! h)), L).

Definition ledger_getEvents (req : GetEventsRequest) (L : Ledger) : Res (list EventResponse) * Ledger :=
  if (ev_startLedger req <=? 0)%Z then
    (inl (new_Error "startLedger must be positive"), L)
  else
    (inr (take (Z.to_nat (ev_limit req))
            (filter (fun e => event_contractId e ∈ ev_contractIds req /\
                              (ev_startLedger req <= event_ledger e)%Z) (lg_events L))), L).

#[export] Instance ledger_server : RpcServer Ledger := {
  rpc_getAccount := ledger_getAccount;
  rpc_prepareTransaction := ledger_prepare;
  rpc_sendTransaction := ledger_send;
  rpc_getTransaction := ledger_getTransaction;
  rpc_simulateTransaction := ledger_simulate;
  rpc_getLatestLedger := fun L => (inr (lg_sequence L), L);
  rpc_getEvents := ledger_getEvents
}.

End LedgerSec.
End Ledger.

(** ** What [sendTransaction] does *)
Module LedgerFacts.
Import Ledger.

Section Inv.
Context `{Crypto} `{Host}.

(** What [sendTransaction] does with a fresh transaction on the next
    sequence number signed by its source, and with one it has seen. *)
Lemma ledger_send_accept L tx s :
  lg_results L !! tx_hash tx = None ->
  lg_accounts L !! tx_source tx = Some s ->
  tx_sequence tx = (s + 1)%Z ->
  tx_source tx ∈ tx_signatures tx ->
  ledger_send tx L = (inr (mkSendResponse PENDING (tx_hash tx)), apply_tx L tx).
Proof.
  intros Hnew Hs Hseq Hsig. unfold ledger_send, send_check.
  rewrite Hnew, Hs. cbn. by rewrite !bool_decide_true.
Qed.

Lemma ledger_send_duplicate L tx :
  is_Some (lg_results L !! tx_hash tx) ->
  ledger_send tx L = (inr (mkSendResponse DUPLICATE (tx_hash tx)), L).
Proof. intros Hseen. unfold ledger_send, send_check. by rewrite bool_decide_true. Qed.

Lemma apply_tx_result L tx e :
  run_tx L tx = inr e ->
  lg_results (apply_tx L tx) !! tx_hash tx =
    Some (GetSuccess (tx_hash tx) (lg_sequence L + 1) (Some (eff_return e))).
Proof. intros Hrun. unfold apply_tx. rewrite Hrun. cbn. apply lookup_insert_eq. Qed.

Lemma apply_tx_account L tx :
  lg_accounts (apply_tx L tx) !! tx_source tx = Some (tx_sequence tx).
Proof. unfold apply_tx. destruct (run_tx L tx); apply lookup_insert_eq. Qed.
End Inv.
End LedgerFacts.

(** ** The submission pipeline against the ledger *)
Module LedgerPipeline.
Import RpcFacts Ledger LedgerFacts.

Section Pipeline.
Context `{Crypto} `{Host}.

(** The run of the pipeline on the ledger when the call succeeds. *)
Lemma submitStellarTransaction_ledger_run p (w : World Ledger) s e :
  let pk := publicKey (Helpers.ssp_signer p) in
  let tx := mkTransaction pk (s + 1) (default BASE_FEE (Helpers.ssp_fee p))
              (default TESTNET (Helpers.ssp_networkPassphrase p)) 30 [Helpers.ssp_operation p] [] in
  let stx := sign (Helpers.ssp_signer p) tx in
  default BASE_FEE (Helpers.ssp_fee p) <> "" ->
  lg_accounts (w_net w) !! pk = Some s ->
  lg_results (w_net w) !! tx_hash stx = None ->
  run_tx (w_net w) tx = inr e ->
  Helpers.submitStellarTransaction p w =
    (Ok (GetSuccess (tx_hash stx) (lg_sequence (w_net w) + 1) (Some (eff_return e))),
     mkWorld (apply_tx (w_net w) stx)
       (w_calls w ++ [CallGetAccount pk; CallPrepareTransaction tx; CallSendTransaction stx;
                      CallGetTransaction (tx_hash stx)])
       (w_stdout w) (w_stderr w) (w_clock w) (w_files w)).
Proof.
  intros pk tx stx Hfee Hs Hnew Hrun.
  assert (Hres := apply_tx_result (w_net w) stx e Hrun).
  assert (Hacc : rpc_getAccount pk (w_net w) = (inr (mkAccount pk s), w_net w))
    by (cbn; unfold ledger_getAccount; by rewrite Hs).
  assert (Hprep : ledger_prepare tx (w_net w) = (inr tx, w_net w))
    by (unfold ledger_prepare; by rewrite Hrun).
  assert (Hsend : ledger_send stx (w_net w) =
                    (inr (mkSendResponse PENDING (tx_hash stx)), apply_tx (w_net w) stx))
    by (apply (ledger_send_accept _ _ s); [done | done | done | cbn; set_solver]).
  assert (Hget : rpc_getTransaction (tx_hash stx) (apply_tx (w_net w) stx) =
                   (inr (GetSuccess (tx_hash stx) (lg_sequence (w_net w) + 1) (Some (eff_return e))),
                    apply_tx (w_net w) stx))
    by (cbn; unfold ledger_getTransaction; by rewrite Hres).
  subst pk tx stx.
  unfold Helpers.submitStellarTransaction, getAccount, prepareTransaction, sendTransaction, bind.
  answer Hacc. rewrite HelpersFacts.stellar_transaction_ok by done. cbn.
  answer Hprep. answer Hsend.
  unfold Helpers.getPollingTransaction, try_catch, pollTransaction, bind.
  change (Z.to_nat (maxAttempts None - 1)) with (S 28).
  cbn [poll_loop]. unfold getTransaction, bind. answer Hget.
  by rewrite <- !app_assoc.
Qed.

(** C19: on the ledger, when the signer's account is at sequence [s] and
    the call succeeds, [submitStellarTransaction] sends exactly the
    transaction on sequence [s + 1], which the ledger accepts; the first
    poll finds it and the pipeline returns its success with the call's
    value.  The account is then at [s + 1], and sending the same
    transaction again is answered [DUPLICATE] and changes nothing. *)
Theorem submitStellarTransaction_on_ledger p (w : World Ledger) s e :
  let pk := publicKey (Helpers.ssp_signer p) in
  let tx := mkTransaction pk (s + 1) (default BASE_FEE (Helpers.ssp_fee p))
              (default TESTNET (Helpers.ssp_networkPassphrase p)) 30 [Helpers.ssp_operation p] [] in
  let stx := sign (Helpers.ssp_signer p) tx in
  default BASE_FEE (Helpers.ssp_fee p) <> "" ->
  lg_accounts (w_net w) !! pk = Some s ->
  lg_results (w_net w) !! tx_hash stx = None ->
  run_tx (w_net w) tx = inr e ->
  Helpers.submitStellarTransaction p w =
    (Ok (GetSuccess (tx_hash stx) (lg_sequence (w_net w) + 1) (Some (eff_return e))),
     mkWorld (apply_tx (w_net w) stx)
       (w_calls w ++ [CallGetAccount pk; CallPrepareTransaction tx; CallSendTransaction stx;
                      CallGetTransaction (tx_hash stx)])
       (w_stdout w) (w_stderr w) (w_clock w) (w_files w)) /\
  lg_accounts (apply_tx (w_net w) stx) !! pk = Some (s + 1)%Z /\
  ledger_send stx (apply_tx (w_net w) stx) =
    (inr (mkSendResponse DUPLICATE (tx_hash stx)), apply_tx (w_net w) stx).
Proof.
  intros pk tx stx Hfee Hs Hnew Hrun.
  assert (Hres := apply_tx_result (w_net w) stx e Hrun).
  split_and!; [by apply submitStellarTransaction_ledger_run | apply apply_tx_account |
               apply ledger_send_duplicate; by rewrite Hres].
Qed.

(** The run of the pipeline on the ledger when the call fails. *)
Lemma submitStellarTransaction_ledger_fail p (w : World Ledger) s msg :
  let pk := publicKey (Helpers.ssp_signer p) in
  let tx := mkTransaction pk (s + 1) (default BASE_FEE (Helpers.ssp_fee p))
              (default TESTNET (Helpers.ssp_networkPassphrase p)) 30 [Helpers.ssp_operation p] [] in
  default BASE_FEE (Helpers.ssp_fee p) <> "" ->
  lg_accounts (w_net w) !! pk = Some s ->
  run_tx (w_net w) tx = inl msg ->
  Helpers.submitStellarTransaction p w =
    (Throw (new_Error msg),
     mkWorld (w_net w) (w_calls w ++ [CallGetAccount pk; CallPrepareTransaction tx])
       (w_stdout w) (w_stderr w) (w_clock w) (w_files w)).
Proof.
  intros pk tx Hfee Hs Hrun.
  assert (Hacc : rpc_getAccount pk (w_net w) = (inr (mkAccount pk s), w_net w))
    by (cbn; unfold ledger_getAccount; by rewrite Hs).
  assert (Hprep : ledger_prepare tx (w_net w) = (inl (new_Error msg), w_net w))
    by (unfold ledger_prepare; by rewrite Hrun).
  subst pk tx.
  unfold Helpers.submitStellarTransaction, getAccount, prepareTransaction, bind.
  answer Hacc. rewrite HelpersFacts.stellar_transaction_ok by done. cbn.
  answer Hprep. by rewrite <- app_assoc.
Qed.

End Pipeline.
End LedgerPipeline.
