(* ===== verification/LedgerSteps.v ===== *)
(** * The scripts' steps, run on the ledger

    The lemmas the drivers' proofs are built from: each step of a script
    ([console.log], the submission pipeline, [uploadWasm],
    [deployContract], [simulateTransaction]) run on the ledger model, from
    an account that is [ready] (it exists at sequence [s], and no result
    is recorded yet under the hash of any of its later transactions), with
    the world it leaves written as [advance w L calls out]: the ledger
    [L], the requests [calls] and the lines [out] appended, the rest
    untouched.  They hold for any host satisfying [HostLaws]. *)

From S2P Require Import Prelude Sdk Helpers Simulate Deploy Ledger.
Import Xdr Keys TxBuild Rpc RpcFacts Ledger LedgerFacts LedgerPipeline.

Module LedgerSteps.

(** The world after a step that leaves the network [n], sent [calls]
    and printed [out]. *)
Definition advance {N} (w : World N) (n : N) (calls : list RpcCall) (out : list string) : World N :=
  mkWorld n (w_calls w ++ calls) (w_stdout w ++ out) (w_stderr w) (w_clock w) (w_files w).

Lemma advance_advance {N} (w : World N) n1 c1 o1 n2 c2 o2 :
  advance (advance w n1 c1 o1) n2 c2 o2 = advance w n2 (c1 ++ c2) (o1 ++ o2).
Proof. unfold advance. cbn. by rewrite <- !app_assoc. Qed.

Lemma console_log_advance {N} (w : World N) line :
  console_log line w = (Ok tt, advance w (w_net w) [] [line]).
Proof. unfold console_log, advance. by rewrite app_nil_r. Qed.

Lemma advance_nil {N} (w : World N) : advance w (w_net w) [] [] = w.
Proof. destruct w. unfold advance. cbn. by rewrite !app_nil_r. Qed.

(** [m] run from [w] returns [a], leaving the network [n] after some
    requests, and prints [out]. *)
Definition runs {N A} (m : M (World N) A) (w : World N) (a : A) (n : N) (out : list string) : Prop :=
  exists calls, m w = (Ok a, advance w n calls out).

(** Run a [console.log] at the head of a script. *)
Ltac log_step := rewrite (bind_Ok _ _ _ _ _ (console_log_advance _ _)); cbv beta iota zeta.

Section Steps.
Context `{Crypto} `{Host} `{!HostLaws}.

(** The hash of the transaction of [src] on sequence number [seq]. *)
Definition hash_at (src : string) (seq : Z) : string :=
  Deploy.hex_encode (host_tx_hash src seq).

(** No result is recorded under the hash of a later transaction of
    [pk]. *)
Definition fresh (pk : string) (s : Z) (L : Ledger) : Prop :=
  forall k, (s < k < 2 ^ 63)%Z -> lg_results L !! hash_at pk k = None.

Definition ready (pk : string) (s : Z) (L : Ledger) : Prop :=
  lg_accounts L !! pk = Some s /\ fresh pk s L /\ (0 <= s)%Z.

(** The transaction the pipeline builds for [op] from [pk] at [s]. *)
Definition pipeline_tx (pk : string) (s : Z) (fee pass : string) (op : Operation) : Transaction :=
  mkTransaction pk (s + 1) fee pass 30 [op] [].

Lemma hex_encode_inj b b' : Deploy.hex_encode b = Deploy.hex_encode b' -> b = b'.
Proof.
  intros Heq. by rewrite <- (DeployFacts.hex_decode_encode b), Heq, DeployFacts.hex_decode_encode.
Qed.

Lemma apply_tx_results_ne L tx h :
  h <> tx_hash tx -> lg_results (apply_tx L tx) !! h = lg_results L !! h.
Proof. intros Hh. unfold apply_tx. destruct (run_tx L tx); cbn; by rewrite lookup_insert_ne. Qed.

Lemma apply_tx_ready pk s L tx :
  ready pk s L -> tx_source tx = pk -> tx_sequence tx = (s + 1)%Z ->
  ready pk (s + 1) (apply_tx L tx).
Proof.
  intros (Ha & Hf & Hs) Hsrc Hseq. split_and!; [| | lia].
  - rewrite <- Hsrc, <- Hseq. apply apply_tx_account.
  - intros k Hk. rewrite apply_tx_results_ne; [apply Hf; lia|].
    unfold tx_hash. rewrite Hsrc, Hseq. intros Heq.
    assert (k = s + 1)%Z by (apply (tx_hash_inj pk); [lia | lia | by apply hex_encode_inj]). lia.
Qed.

(** Signing does not change what a transaction does. *)
Lemma run_tx_sign L kp tx : run_tx L (sign kp tx) = run_tx L tx.
Proof. done. Qed.

Lemma apply_tx_ok_state L tx e :
  run_tx L tx = inr e ->
  lg_code (apply_tx L tx) = eff_code e /\ lg_contracts (apply_tx L tx) = eff_contracts e /\
  lg_sequence (apply_tx L tx) = (lg_sequence L + 1)%Z /\
  lg_events (apply_tx L tx) = lg_events L ++ eff_events e.
Proof. intros Hrun. unfold apply_tx. by rewrite Hrun. Qed.

(** The creation of a contract from uploaded code at a free address. *)
Lemma run_create L tx deployer wh salt :
  tx_operations tx = [OpCreateCustomContract (ScAddressAccount deployer) wh salt] ->
  is_Some (lg_code L !! wh) ->
  lg_contracts L !! encodeContract (host_contract_id deployer salt) = None ->
  run_tx L tx =
    inr (mkEffect (ScvAddress (ScAddressContract (host_contract_id deployer salt))) (lg_code L)
           (<[encodeContract (host_contract_id deployer salt) := mkInstance wh ScvVoid]> (lg_contracts L))
           []).
Proof.
  intros Hops Hcode Hfree. unfold run_tx. rewrite Hops. cbn [run_op].
  rewrite bool_decide_true by done. rewrite Hfree. by rewrite bool_decide_false by (by intros []).
Qed.

(** The pipeline from a ready account whose call succeeds. *)
Lemma submit_step p (w : World Ledger) s e :
  let pk := publicKey (Helpers.ssp_signer p) in
  let tx := pipeline_tx pk s (default BASE_FEE (Helpers.ssp_fee p))
              (default TESTNET (Helpers.ssp_networkPassphrase p)) (Helpers.ssp_operation p) in
  default BASE_FEE (Helpers.ssp_fee p) <> "" ->
  ready pk s (w_net w) -> (s + 1 < 2 ^ 63)%Z ->
  run_tx (w_net w) tx = inr e ->
  Helpers.submitStellarTransaction p w =
    (Ok (GetSuccess (hash_at pk (s + 1)) (lg_sequence (w_net w) + 1) (Some (eff_return e))),
     advance w (apply_tx (w_net w) (sign (Helpers.ssp_signer p) tx))
       [CallGetAccount pk; CallPrepareTransaction tx; CallSendTransaction (sign (Helpers.ssp_signer p) tx);
        CallGetTransaction (hash_at pk (s + 1))] []).
Proof.
  intros pk tx Hfee (Ha & Hf & Hs) Hb Hrun.
  pose proof (submitStellarTransaction_ledger_run p w s e) as Hr. cbv zeta in Hr.
  rewrite Hr; [unfold advance; by rewrite app_nil_r | done | done | apply Hf; cbn; lia | exact Hrun].
Qed.

Lemma createCustomContract_ok a wh salt :
  length wh = 32 -> length salt = 32 ->
  Deploy.createCustomContract a wh salt = inr (OpCreateCustomContract a wh salt).
Proof. intros Hw Hs. unfold Deploy.createCustomContract. by rewrite Hw, Hs. Qed.

(** [uploadWasm] of a file that exists. *)
Lemma uploadWasm_step signer path code (w : World Ledger) s :
  let pk := publicKey signer in
  let stx := sign signer (pipeline_tx pk s BASE_FEE TESTNET (OpUploadContractWasm code)) in
  w_files w !! path = Some code ->
  ready pk s (w_net w) -> (s + 1 < 2 ^ 63)%Z ->
  Deploy.uploadWasm signer path w =
    (Ok (GetSuccess (hash_at pk (s + 1)) (lg_sequence (w_net w) + 1)
           (Some (ScvBytes (host_wasm_hash code)))),
     advance w (apply_tx (w_net w) stx)
       [CallGetAccount pk; CallPrepareTransaction (pipeline_tx pk s BASE_FEE TESTNET (OpUploadContractWasm code));
        CallSendTransaction stx; CallGetTransaction (hash_at pk (s + 1))]
       ["Uploaded Wasm: " +:+ hash_at pk (s + 1)]).
Proof.
  intros pk stx Hf Hr Hb.
  pose proof (submit_step (Helpers.mkSubmitStellarParams signer None None (OpUploadContractWasm code))
                w s _ ltac:(done) Hr Hb eq_refl) as Hsend.
  assert (Hex : existsSync (N:=Ledger) path w = (Ok true, w)) by (unfold existsSync; by rewrite Hf).
  assert (Hrd : readFileSync (N:=Ledger) path w = (Ok code, w)) by (unfold readFileSync; by rewrite Hf).
  unfold Deploy.uploadWasm. step Hex. step Hrd.
  step (eq_trans (DeployFacts.buildAndSendTransaction_submit _ _ _) Hsend).
  log_step.
  unfold ret. by rewrite advance_advance.
Qed.

(** [deployContract] after an upload that returned the wasm hash [wh]
    under the hash of the transaction on sequence [s0]: the contract is
    created at the signer's address salted with that transaction's
    digest, and its address is returned. *)
Lemma deployContract_step signer (w : World Ledger) s r wh s0 :
  let pk := publicKey signer in
  let salt := host_tx_hash pk s0 in
  let id := host_contract_id pk salt in
  let tx := pipeline_tx pk s BASE_FEE TESTNET (OpCreateCustomContract (ScAddressAccount pk) wh salt) in
  returnValue r = Some (ScvBytes wh) -> txHash r = hash_at pk s0 -> length wh = 32 ->
  is_Some (lg_code (w_net w) !! wh) -> lg_contracts (w_net w) !! encodeContract id = None ->
  ready pk s (w_net w) -> (s + 1 < 2 ^ 63)%Z ->
  Deploy.deployContract signer r w =
    (Ok (encodeContract id),
     advance w (apply_tx (w_net w) (sign signer tx))
       [CallGetAccount pk; CallPrepareTransaction tx; CallSendTransaction (sign signer tx);
        CallGetTransaction (hash_at pk (s + 1))] []).
Proof.
  intros pk salt id tx Hrv Hh Hwh Hcode Hfree Hr Hb.
  assert (Hrun : run_tx (w_net w) tx =
            inr (mkEffect (ScvAddress (ScAddressContract id)) (lg_code (w_net w))
                   (<[encodeContract id := mkInstance wh ScvVoid]> (lg_contracts (w_net w))) [])).
  { cbn. rewrite bool_decide_true by done. rewrite bool_decide_false; [done|].
    fold pk salt id. rewrite Hfree. by intros []. }
  pose proof (submit_step (Helpers.mkSubmitStellarParams signer None None
                             (OpCreateCustomContract (ScAddressAccount pk) wh salt))
                w s _ ltac:(done) Hr Hb Hrun) as Hsend.
  unfold Deploy.deployContract. rewrite Hrv. cbn [ScVal_bytes of_res]. rewrite bind_ret_l.
  rewrite Hh. unfold hash_at. rewrite DeployFacts.hex_decode_encode.
  rewrite createCustomContract_ok by (done || apply tx_hash_length). cbn [of_res]. rewrite bind_ret_l.
  step (eq_trans (DeployFacts.buildAndSendTransaction_submit _ _ _) Hsend).
  unfold Deploy.contract_address_of. cbn [returnValue eff_return ScVal_address of_res]. rewrite bind_ret_l.
  by unfold ret.
Qed.

(** [submitTransaction]: the pipeline on a contract call with the
    testnet passphrase and the base fee. *)
Lemma submitTransaction_step kp c fn args (w : World Ledger) s e :
  let pk := publicKey kp in
  let tx := pipeline_tx pk s BASE_FEE TESTNET (call c fn args) in
  ready pk s (w_net w) -> (s + 1 < 2 ^ 63)%Z ->
  run_tx (w_net w) tx = inr e ->
  Helpers.submitTransaction (Helpers.mkSubmitParams kp c fn args) w =
    (Ok (GetSuccess (hash_at pk (s + 1)) (lg_sequence (w_net w) + 1) (Some (eff_return e))),
     advance w (apply_tx (w_net w) (sign kp tx))
       [CallGetAccount pk; CallPrepareTransaction tx; CallSendTransaction (sign kp tx);
        CallGetTransaction (hash_at pk (s + 1))] []).
Proof.
  intros pk tx Hr Hb Hrun. unfold Helpers.submitTransaction.
  exact (submit_step (Helpers.mkSubmitStellarParams kp (Some TESTNET) (Some BASE_FEE) (call c fn args))
           w s e ltac:(done) Hr Hb Hrun).
Qed.

(** [submitTransaction] of a call that fails: the preparation throws
    its message and nothing is sent. *)
Lemma submitTransaction_fail_step kp c fn args (w : World Ledger) s msg :
  let pk := publicKey kp in
  let tx := pipeline_tx pk s BASE_FEE TESTNET (call c fn args) in
  lg_accounts (w_net w) !! pk = Some s ->
  run_tx (w_net w) tx = inl msg ->
  Helpers.submitTransaction (Helpers.mkSubmitParams kp c fn args) w =
    (Throw (new_Error msg), advance w (w_net w) [CallGetAccount pk; CallPrepareTransaction tx] []).
Proof.
  intros pk tx Ha Hrun. unfold Helpers.submitTransaction.
  rewrite (submitStellarTransaction_ledger_fail
             (Helpers.mkSubmitStellarParams kp (Some TESTNET) (Some BASE_FEE) (call c fn args)) w s msg);
    [| done | exact Ha | exact Hrun].
  unfold advance. by rewrite app_nil_r.
Qed.

(** A simulation of a call that succeeds returns the call's value and
    changes nothing. *)
Lemma simulate_step (p : Simulate.SimulateTransactionParams) (w : World Ledger) s e :
  let pk := publicKey (Simulate.sim_signer p) in
  let tx := pipeline_tx pk s BASE_FEE TESTNET
              (call (Simulate.sim_contract p) (Simulate.sim_functionName p) []) in
  lg_accounts (w_net w) !! pk = Some s ->
  run_tx (w_net w) tx = inr e ->
  Simulate.simulateTransaction p w =
    (Ok (eff_return e), advance w (w_net w) [CallGetAccount pk; CallSimulateTransaction tx] []).
Proof.
  intros pk tx Ha Hrun.
  rewrite (SimulateFacts.simulateTransaction_answered p w (mkAccount pk s) (w_net w)
             (SimSuccess (Some (mkSimResult (eff_return e)))) (w_net w)).
  - unfold try_catch, ret, advance. by rewrite app_nil_r.
  - cbn. unfold ledger_getAccount. fold pk. by rewrite Ha.
  - change (ledger_simulate tx (w_net w) = (inr (SimSuccess (Some (mkSimResult (eff_return e)))), w_net w)).
    unfold ledger_simulate. by rewrite Hrun.
Qed.

End Steps.
End LedgerSteps.
