(* ===== verification/Contracts.v ===== *)
(** * The example contracts as a host of the ledger

    The Rust contracts the drivers deploy are not part of the TypeScript
    sources; this file gives the behaviour the drivers expect of them, as
    an instance of [Ledger.Host], so that the drivers can be run on the
    ledger model:
    - the increment contract keeps a [u32] counter: [increment] adds one
      and returns the new count, [get_count] returns it, [reset] sets it
      to zero;
    - the events contract's [increment] does the same and publishes an
      event with topics [COUNTER], [increment] and the new count as value;
    - the hello world contract's [hello(to)] returns the vector
      [["Hello", to]].
    The counters are [u32]s with Rust's overflow checks: an increment past
    [2^32 - 1] fails.  Code hashes, contract ids and transaction digests
    are toy functions: the first 32 bytes of the code, the salt, and the
    sequence number as 8 big-endian bytes followed by the first 24 bytes
    of the source; they satisfy [Ledger.HostLaws]. *)

From S2P Require Import Prelude Sdk Ledger.
From stdpp Require Import pretty.
Import Xdr TxBuild Rpc Ledger.

Module Contracts.

Definition increment_wasm : bytes := String.list_byte_of_string "increment".
Definition events_wasm : bytes := String.list_byte_of_string "events".
Definition hello_wasm : bytes := String.list_byte_of_string "hello_world".

Definition count_of (storage : ScVal) : Z :=
  match storage with
  | ScvU32 n => n
  | _ => 0
  end.

(** The largest [u32]. *)
Definition U32_MAX : Z := 2 ^ 32 - 1.

(** [count += 1] on a [u32] with overflow checks: past [U32_MAX] the
    contract panics and the call fails. *)
Definition counter_call (fn : string) (storage : ScVal) (emit : bool)
    : string + (ScVal * ScVal * list (list ScVal * ScVal)) :=
  if String.eqb fn "increment" then
    let n := (count_of storage + 1)%Z in
    if bool_decide (n <= U32_MAX)%Z then
      inr (ScvU32 n, ScvU32 n,
           if emit then [([ScvSymbol "COUNTER"; ScvSymbol "increment"], ScvU32 n)] else [])
    else inl "attempt to add with overflow"
  else if String.eqb fn "get_count" then inr (ScvU32 (count_of storage), storage, [])
  else if String.eqb fn "reset" then inr (ScvVoid, ScvU32 0, [])
  else inl ("unknown function " +:+ fn).

Definition example_call (code : bytes) (fn : string) (args : list ScVal) (storage : ScVal)
    : string + (ScVal * ScVal * list (list ScVal * ScVal)) :=
  if bool_decide (code = increment_wasm) then counter_call fn storage false
  else if bool_decide (code = events_wasm) then counter_call fn storage true
  else if bool_decide (code = hello_wasm) then
    match fn, args with
    | "hello"%string, [ScvString to] => inr (ScvVec [ScvSymbol "Hello"; ScvString to], storage, [])
    | _, _ => inl ("unknown function " +:+ fn)
    end
  else inl "unknown code".

#[export] Instance example_host : Host := {
  host_wasm_hash := fun code => take 32 (code ++ replicate 32 Byte.x00);
  host_contract_id := fun _ salt => salt;
  host_tx_hash := fun src seq =>
    be_bytes 8 seq ++ take 24 (String.list_byte_of_string src ++ replicate 24 Byte.x00);
  host_call := example_call
}.

Lemma take_pad_length (l : bytes) n : length (take n (l ++ replicate n Byte.x00)) = n.
Proof. rewrite length_take, length_app, length_replicate. lia. Qed.

#[export] Instance example_host_laws : HostLaws.
Proof.
  split.
  - intros code. apply take_pad_length.
  - intros src seq. unfold host_tx_hash, example_host.
    by rewrite length_app, be_bytes_length, take_pad_length.
  - intros src seq seq' Hs Hs' Heq. unfold host_tx_hash, example_host in Heq.
    apply app_inv_tail in Heq.
    apply (be_bytes_inj 8); [cbn; lia.. | done].
Qed.

End Contracts.
