(* ===== verification/Chain.v ===== *)
(** * The submission pipeline on a concrete ledger

    [ChainRuns] puts the increment contract of [Contracts.v] on a ledger
    of [Ledger.v] (account [GS] at sequence 5, the contract at [CINC]
    with its counter at zero) and evaluates the pipeline theorem of
    [Ledger.LedgerPipeline] there: [submitStellarTransaction] of a call
    to [increment] returns the call's value, 1. *)

From S2P Require Import Prelude Sdk Fake Helpers Ledger Contracts.
Import Xdr Keys TxBuild Rpc Ledger.

(** ** The pipeline on a ledger running the increment contract *)
Module ChainRuns.
Import Fake Contracts LedgerPipeline.

Definition inc_hash : bytes := host_wasm_hash increment_wasm.

(** Account [GS] at sequence 5, the increment code uploaded and an
    instance at address [CINC] with its counter at zero, ledger 100. *)
Definition L1 : Ledger :=
  mkLedger {[ "GS" := 5%Z ]} {[ inc_hash := increment_wasm ]}
    {[ "CINC" := mkInstance inc_hash (ScvU32 0) ]} ∅ 100 [].
Definition w1 : World Ledger := mkWorld L1 [] [] [] 0 ∅.

Definition call_params (fn : string) : Helpers.SubmitStellarTransactionParams :=
  Helpers.mkSubmitStellarParams signer None None (call (mkContract "CINC") fn []).
Definition call_tx (fn : string) : Transaction :=
  mkTransaction "GS" 6 BASE_FEE TESTNET 30 [call (mkContract "CINC") fn []] [].
Definition effect_of (r : string + Effect) : Effect :=
  match r with inr e => e | inl _ => mkEffect ScvVoid ∅ ∅ [] end.

Lemma submitStellarTransaction_on_ledger_witness :
  exists r w', Helpers.submitStellarTransaction (call_params "increment") w1 = (Ok r, w') /\
               returnValue r = Some (ScvU32 1).
Proof.
  destruct (submitStellarTransaction_on_ledger (call_params "increment") w1 5
              (effect_of (run_tx L1 (call_tx "increment")))) as [Hrun _];
    [vm_compute; discriminate | vm_compute; reflexivity.. |].
  rewrite Hrun. do 2 eexists. split; [reflexivity | vm_compute; reflexivity].
Defined.

End ChainRuns.
