(* ===== verification/DriverRuns.v ===== *)
(** * The drivers on the ledger

    The drivers of [Drivers.v] run against the ledger model of
    [Ledger.v] with the example contracts of [Contracts.v]: what each
    prints and what it leaves on the ledger, from any ledger on which
    the signer's account is [ready] and the wasm files are on disk.
    The proofs go step by step with the lemmas of [LedgerSteps.v]; the
    loop of three increments is proved with its invariant
    [calls_done]. *)

From S2P Require Import Prelude Sdk Native Fake Helpers Simulate Deploy Drivers Ledger LedgerSteps Contracts.
From stdpp Require Import pretty.
Import Xdr Keys TxBuild Rpc RpcFacts Native Ledger LedgerSteps Contracts Drivers DriversFacts.
Open Scope ts_scope.

Module DriverRuns.

(** The code of the counter contract, with ([true]) or without events. *)
Definition counter_code (emit : bool) : bytes := if emit then events_wasm else increment_wasm.

(** The line of the [i]-th increment from a counter at [n]. *)
Definition increment_line (n i : Z) : string :=
  "Increment call #" +:+ pretty i +:+ ": " +:+ pretty (n + i)%Z.

(** The events of [k] increments from [n], the first closing ledger
    [seq0 + 1]. *)
Definition counter_events (emit : bool) (addr : string) (n seq0 k : Z) : list EventResponse :=
  if emit then
    map (fun i => mkEvent addr [ScvSymbol "COUNTER"; ScvSymbol "increment"] (ScvU32 (n + i)) (seq0 + i)%Z)
      (seqZ 1 k)
  else [].

Section Runs.
Context `{Crypto} `{NodeRuntime}.

(** The shape both deploy wrappers have: a line, the upload of the file
    at [path], the deployment, a line ending with the address. *)
Definition deploy_script (msg1 path msg2 : string) (kp : Keypair) : M (World Ledger) string :=
  console_log msg1 ;;
  let* uploadResponse := Deploy.uploadWasm kp path in
  let* contractAddress := Deploy.deployContract kp uploadResponse in
  console_log (msg2 +:+ contractAddress) ;;
  ret contractAddress.

Lemma deployIncrementContract_script kp :
  deployIncrementContract kp =
    deploy_script "Deploying Increment Contract..." INCREMENT_WASM "Deployed Increment Contract: " kp.
Proof. done. Qed.

Lemma deployEventsContract_script kp :
  deployEventsContract kp =
    deploy_script "Deploying Events Contract..." EVENTS_WASM "Contract deployed successfully: " kp.
Proof. done. Qed.

(** A deploy wrapper on the ledger: the code is uploaded on sequence
    [s + 1] and the contract created on [s + 2], at the address salted
    with the upload's digest, with empty storage. *)
Lemma deploy_script_run msg1 path msg2 code kp (w : World Ledger) s :
  let pk := publicKey kp in
  let addr := encodeContract (host_tx_hash pk (s + 1)) in
  let wh := host_wasm_hash code in
  w_files w !! path = Some code -> ready pk s (w_net w) -> (s + 2 < 2 ^ 63)%Z ->
  lg_contracts (w_net w) !! addr = None ->
  exists L' calls, deploy_script msg1 path msg2 kp w =
    (Ok addr, advance w L' calls [msg1; "Uploaded Wasm: " +:+ hash_at pk (s + 1); msg2 +:+ addr]) /\
    ready pk (s + 2) L' /\ lg_contracts L' !! addr = Some (mkInstance wh ScvVoid) /\
    lg_code L' !! wh = Some code /\ lg_sequence L' = (lg_sequence (w_net w) + 2)%Z /\
    lg_events L' = lg_events (w_net w).
Proof.
  intros pk addr wh Hf Hr Hb Hfree.
  set (tx1 := pipeline_tx pk s BASE_FEE TESTNET (OpUploadContractWasm code)).
  assert (Hrun1 : run_tx (w_net w) (sign kp tx1) =
            inr (mkEffect (ScvBytes wh) (<[wh := code]> (lg_code (w_net w))) (lg_contracts (w_net w)) []))
    by done.
  destruct (apply_tx_ok_state _ _ _ Hrun1) as (Hcode1 & Hcon1 & Hseq1 & Hev1).
  assert (Hr1 := apply_tx_ready pk s (w_net w) (sign kp tx1) Hr eq_refl eq_refl).
  set (L1 := apply_tx (w_net w) (sign kp tx1)) in *.
  assert (Hc1 : lg_code L1 !! wh = Some code) by (rewrite Hcode1; apply lookup_insert_eq).
  assert (Hf1 : lg_contracts L1 !! addr = None) by (by rewrite Hcon1).
  set (tx2 := pipeline_tx pk (s + 1) BASE_FEE TESTNET
                (OpCreateCustomContract (ScAddressAccount pk) wh (host_tx_hash pk (s + 1)))).
  assert (Hrun2 := run_create L1 (sign kp tx2) pk wh (host_tx_hash pk (s + 1)) eq_refl
                     (mk_is_Some _ _ Hc1) Hf1).
  destruct (apply_tx_ok_state _ _ _ Hrun2) as (Hcode2 & Hcon2 & Hseq2 & Hev2).
  unfold deploy_script. eexists _, _. split.
  { log_step.
    step (uploadWasm_step kp path code (advance w (w_net w) [] [msg1]) s Hf Hr ltac:(lia)).
    lazymatch goal with
    | |- bind (Deploy.deployContract _ ?r) _ ?w1 = _ =>
        step (deployContract_step kp w1 (s + 1) r wh (s + 1) eq_refl eq_refl (wasm_hash_length code)
                (mk_is_Some _ _ Hc1) Hf1 Hr1 ltac:(lia))
    end.
    log_step. unfold ret. rewrite !advance_advance. reflexivity. }
  change (ready pk (s + 2) (apply_tx L1 (sign kp tx2)) /\
          lg_contracts (apply_tx L1 (sign kp tx2)) !! addr = Some (mkInstance wh ScvVoid) /\
          lg_code (apply_tx L1 (sign kp tx2)) !! wh = Some code /\
          lg_sequence (apply_tx L1 (sign kp tx2)) = (lg_sequence (w_net w) + 2)%Z /\
          lg_events (apply_tx L1 (sign kp tx2)) = lg_events (w_net w)).
  split_and!.
  - replace (s + 2)%Z with (s + 1 + 1)%Z by lia. by apply apply_tx_ready.
  - rewrite Hcon2. apply lookup_insert_eq.
  - by rewrite Hcode2.
  - rewrite Hseq2, Hseq1. lia.
  - by rewrite Hev2, Hev1, !app_nil_r.
Qed.

Lemma example_call_counter emit fn args st :
  example_call (counter_code emit) fn args st = counter_call fn st emit.
Proof. by destruct emit. Qed.

Lemma counter_increment st emit :
  (count_of st + 1 <= U32_MAX)%Z ->
  counter_call "increment" st emit =
    inr (ScvU32 (count_of st + 1), ScvU32 (count_of st + 1),
         if emit then [([ScvSymbol "COUNTER"; ScvSymbol "increment"], ScvU32 (count_of st + 1))] else []).
Proof. intros Hb. unfold counter_call. cbn -[U32_MAX]. by rewrite bool_decide_true. Qed.

Lemma counter_get_count st emit : counter_call "get_count" st emit = inr (ScvU32 (count_of st), st, []).
Proof. done. Qed.

Lemma counter_reset st emit : counter_call "reset" st emit = inr (ScvVoid, ScvU32 0, []).
Proof. done. Qed.

(** A call of the counter at [addr] on the ledger. *)
Lemma run_counter L pk s fee pass addr wh st emit fn :
  lg_contracts L !! addr = Some (mkInstance wh st) ->
  lg_code L !! wh = Some (counter_code emit) ->
  run_tx L (pipeline_tx pk s fee pass (call (mkContract addr) fn [])) =
    match counter_call fn st emit with
    | inl msg => inl msg
    | inr (rv, st', evs) =>
        inr (mkEffect rv (lg_code L) (<[addr := mkInstance wh st']> (lg_contracts L))
               (map (fun '(topic, v) => mkEvent addr topic v (lg_sequence L + 1)) evs))
    end.
Proof.
  intros Hc Hcode. unfold run_tx, pipeline_tx, call. cbn [tx_operations run_op contract_address].
  rewrite Hc. cbn [inst_wasm inst_storage]. rewrite Hcode.
  change (host_call (counter_code emit) fn [] st) with (example_call (counter_code emit) fn [] st).
  rewrite example_call_counter. by destruct (counter_call fn st emit) as [|[[]]].
Qed.

(** The ledger after [k] increments of the counter at [addr], from the
    ledger [L0] with the account at [s] and the counter at [n]: each call
    consumed one sequence number and closed one ledger, the counter is
    at [n + k], and the events contract published one event each. *)
Definition counter_after (emit : bool) (kp : Keypair) (addr : string) (wh : bytes)
    (L0 : Ledger) (s n k : Z) (L : Ledger) : Prop :=
  ready (publicKey kp) (s + k) L /\
  (exists st, lg_contracts L !! addr = Some (mkInstance wh st) /\ count_of st = (n + k)%Z) /\
  lg_code L = lg_code L0 /\
  lg_sequence L = (lg_sequence L0 + k)%Z /\
  lg_events L = lg_events L0 ++ counter_events emit addr n (lg_sequence L0) k.

(** The invariant of [for (let i = 1; i <= 3; i++)] before iteration
    [j], from the world [w]: the lines of the [j - 1] calls made are
    printed and the ledger is the one after [j - 1] increments. *)
Definition calls_done (emit : bool) (kp : Keypair) (addr : string) (wh : bytes)
    (w : World Ledger) (s n j : Z) (w1 : World Ledger) : Prop :=
  exists L calls, w1 = advance w L calls (map (increment_line n) (seqZ 1 (j - 1))) /\
                  counter_after emit kp addr wh (w_net w) s n (j - 1) L.

Lemma counter_events_snoc emit addr n seq0 k :
  (0 <= k)%Z ->
  counter_events emit addr n seq0 (k + 1) =
    counter_events emit addr n seq0 k ++
    (if emit then [mkEvent addr [ScvSymbol "COUNTER"; ScvSymbol "increment"]
                     (ScvU32 (n + (k + 1))) (seq0 + (k + 1))] else []).
Proof.
  intros Hk. unfold counter_events. destruct emit; [|done].
  rewrite seqZ_app by lia. rewrite map_app. cbn. by replace (1 + k)%Z with (k + 1)%Z by lia.
Qed.

Lemma increment_lines_snoc n k :
  (0 <= k)%Z ->
  map (increment_line n) (seqZ 1 (k + 1)) = map (increment_line n) (seqZ 1 k) ++ [increment_line n (k + 1)].
Proof. intros Hk. rewrite seqZ_app by lia. rewrite map_app. cbn. by replace (1 + k)%Z with (k + 1)%Z by lia. Qed.

(** One increment: the counter goes from [n + k] to [n + k + 1]. *)
Lemma counter_after_step emit kp addr wh L0 s n k L e :
  (0 <= k)%Z -> counter_after emit kp addr wh L0 s n k L ->
  lg_code L0 !! wh = Some (counter_code emit) -> (n + k + 1 <= U32_MAX)%Z ->
  run_tx L (pipeline_tx (publicKey kp) (s + k) BASE_FEE TESTNET (call (mkContract addr) "increment" [])) =
    inr e ->
  eff_return e = ScvU32 (n + (k + 1)) /\
  counter_after emit kp addr wh L0 s n (k + 1)
    (apply_tx L (sign kp (pipeline_tx (publicKey kp) (s + k) BASE_FEE TESTNET
                            (call (mkContract addr) "increment" [])))).
Proof.
  intros Hk (Hready & (st & Hc & Hcount) & Hcd & Hseq & Hev) Hcode Hmax Hrun.
  pose proof (run_counter L (publicKey kp) (s + k) BASE_FEE TESTNET addr wh st emit "increment" Hc
                ltac:(by rewrite Hcd)) as Hrc.
  rewrite counter_increment in Hrc by lia. rewrite Hrc in Hrun. injection Hrun as <-.
  destruct (apply_tx_ok_state L (sign kp _) _ (eq_trans (run_tx_sign _ _ _) Hrc)) as (Hcode' & Hcon' & Hseq' & Hev').
  cbn [eff_return]. split; [by rewrite Hcount, Z.add_assoc|].
  split_and!.
  - replace (s + (k + 1))%Z with (s + k + 1)%Z by lia. by apply apply_tx_ready.
  - exists (ScvU32 (count_of st + 1)). rewrite Hcon'. cbn [eff_contracts].
    split; [apply lookup_insert_eq | cbn; lia].
  - by rewrite Hcode'.
  - rewrite Hseq', Hseq. lia.
  - rewrite Hev', Hev, counter_events_snoc by lia. rewrite <- app_assoc. do 2 f_equal.
    destruct emit; cbn; [|done]. rewrite Hseq, Hcount. by rewrite !Z.add_assoc.
Qed.

(** One iteration of the loop. *)
Lemma increment_call_run emit kp addr wh w s n j w1 :
  (1 <= j <= 3)%Z -> (s + 3 < 2 ^ 63)%Z -> (0 <= n)%Z -> (n + 3 <= U32_MAX)%Z ->
  lg_code (w_net w) !! wh = Some (counter_code emit) ->
  calls_done emit kp addr wh w s n j w1 ->
  exists w2, increment_call kp (mkContract addr) j w1 = (Ok tt, w2) /\
             calls_done emit kp addr wh w s n (j + 1) w2.
Proof.
  intros Hj Hb Hn Hmax Hcode (L & calls & -> & Hafter).
  pose proof Hafter as (Hready & (st & Hc & Hcount) & Hcd & Hrest).
  pose proof (run_counter L (publicKey kp) (s + (j - 1)) BASE_FEE TESTNET addr wh st emit "increment"
                Hc ltac:(by rewrite Hcd)) as Hrun.
  rewrite counter_increment in Hrun by lia.
  destruct (counter_after_step emit kp addr wh (w_net w) s n (j - 1) L _ ltac:(lia) Hafter Hcode
              ltac:(lia) Hrun) as (Hret & Hafter2).
  unfold increment_call.
  step (submitTransaction_step kp _ _ _ (advance w L calls (map (increment_line n) (seqZ 1 (j - 1)))) _ _ Hready ltac:(lia) Hrun).
  cbn [returnValue print_return]. rewrite Hret. cbn [scValToNative js_String].
  eexists. split; [apply console_log_advance|].
  exists (apply_tx L (sign kp (pipeline_tx (publicKey kp) (s + (j - 1)) BASE_FEE TESTNET
                                 (call (mkContract addr) "increment" [])))). eexists.
  replace (j + 1 - 1)%Z with (j - 1 + 1)%Z by lia. split; [|exact Hafter2].
  rewrite !advance_advance, app_nil_r, increment_lines_snoc by lia. f_equal. f_equal. f_equal.
  unfold increment_line. replace (j - 1 + 1)%Z with j by lia. by rewrite !string_app_assoc.
Qed.

(** The three calls of the loop, from a counter at [n]. *)
Lemma increment_calls_run emit kp addr wh (w : World Ledger) s n st :
  ready (publicKey kp) s (w_net w) -> (s + 3 < 2 ^ 63)%Z ->
  lg_contracts (w_net w) !! addr = Some (mkInstance wh st) -> count_of st = n ->
  lg_code (w_net w) !! wh = Some (counter_code emit) ->
  (0 <= n)%Z -> (n + 3 <= U32_MAX)%Z ->
  exists L, runs (increment_calls kp (mkContract addr)) w tt L (map (increment_line n) (seqZ 1 3)) /\
            counter_after emit kp addr wh (w_net w) s n 3 L.
Proof.
  intros Hready Hb Hc Hcount Hcode Hn Hmax.
  destruct (for_loop_ok (calls_done emit kp addr wh w s n) 3 1 (increment_call kp (mkContract addr)) w)
    as (w' & Hrun & L & calls & -> & Hafter).
  - exists (w_net w), []. cbn [Z.sub]. rewrite advance_nil. split; [done|].
    unfold counter_after. rewrite !Z.add_0_r.
    split_and!; try done; [exists st; split; [done | lia] | destruct emit; cbn; by rewrite app_nil_r].
  - intros j w1 Hj Hw1. apply (increment_call_run emit kp addr wh w s n j w1); done || lia.
  - exists L. split; [by exists calls | exact Hafter].
Qed.

(** The banner of a [main]. *)
Lemma banner_run title env (w : World Ledger) :
  config_ok env ->
  banner title env w =
    (Ok (fromSecret (PRIVATE_KEY env)),
     advance w (w_net w) []
       [RULE; title; RULE; "Stellar provider initialized successfully";
        "User account: " +:+ publicKey (fromSecret (PRIVATE_KEY env))]).
Proof. intros Hc. rewrite (banner_ok _ _ _ Hc). unfold printed, advance. by rewrite app_nil_r. Qed.

(** [get_current_value]: the count is read by a transaction, which
    leaves the counter as it is. *)
Lemma get_current_value_run kp addr wh st emit (w : World Ledger) s :
  ready (publicKey kp) s (w_net w) -> (s + 1 < 2 ^ 63)%Z ->
  lg_contracts (w_net w) !! addr = Some (mkInstance wh st) ->
  lg_code (w_net w) !! wh = Some (counter_code emit) ->
  exists L, runs (get_current_value kp (mkContract addr)) w tt L
              [Deploy.nl +:+ "--- Getting current value ---"; "Current value: " +:+ pretty (count_of st)] /\
            ready (publicKey kp) (s + 1) L /\ lg_contracts L !! addr = Some (mkInstance wh st) /\
            lg_code L !! wh = Some (counter_code emit).
Proof.
  intros Hr Hb Hc Hcode.
  pose proof (run_counter (w_net w) (publicKey kp) s BASE_FEE TESTNET addr wh st emit "get_count" Hc Hcode)
    as Hrc.
  rewrite counter_get_count in Hrc.
  destruct (apply_tx_ok_state _ (sign kp _) _ (eq_trans (run_tx_sign _ _ _) Hrc)) as (Hcd & Hcon & _ & _).
  eexists. split; [eexists|split_and!].
  - unfold get_current_value. log_step.
    step (submitTransaction_step kp _ _ _
            (advance w (w_net w) [] [Deploy.nl +:+ "--- Getting current value ---"]) s _ Hr Hb Hrc).
    cbn [returnValue eff_return print_return scValToNative js_String].
    rewrite console_log_advance, !advance_advance. reflexivity.
  - cbn [advance w_net]. by apply apply_tx_ready.
  - cbn [advance w_net]. rewrite Hcon. apply lookup_insert_eq.
  - cbn [advance w_net]. by rewrite Hcd.
Qed.

(** [reset_value]: the counter is set to zero. *)
Lemma reset_value_run kp addr wh st emit (w : World Ledger) s :
  ready (publicKey kp) s (w_net w) -> (s + 1 < 2 ^ 63)%Z ->
  lg_contracts (w_net w) !! addr = Some (mkInstance wh st) ->
  lg_code (w_net w) !! wh = Some (counter_code emit) ->
  exists L, runs (reset_value kp (mkContract addr)) w tt L [Deploy.nl +:+ "--- Resetting value to 0 ---"] /\
            ready (publicKey kp) (s + 1) L /\ lg_contracts L !! addr = Some (mkInstance wh (ScvU32 0)) /\
            lg_code L !! wh = Some (counter_code emit).
Proof.
  intros Hr Hb Hc Hcode.
  pose proof (run_counter (w_net w) (publicKey kp) s BASE_FEE TESTNET addr wh st emit "reset" Hc Hcode)
    as Hrc.
  rewrite counter_reset in Hrc.
  destruct (apply_tx_ok_state _ (sign kp _) _ (eq_trans (run_tx_sign _ _ _) Hrc)) as (Hcd & Hcon & _ & _).
  eexists. split; [eexists|split_and!].
  - unfold reset_value. log_step.
    step (submitTransaction_step kp _ _ _
            (advance w (w_net w) [] [Deploy.nl +:+ "--- Resetting value to 0 ---"]) s _ Hr Hb Hrc).
    unfold ret. rewrite !advance_advance, app_nil_r. reflexivity.
  - cbn [advance w_net]. by apply apply_tx_ready.
  - cbn [advance w_net]. rewrite Hcon. apply lookup_insert_eq.
  - cbn [advance w_net]. by rewrite Hcd.
Qed.

(** [verify_reset]: the count is read by a simulation, which changes
    nothing. *)
Lemma verify_reset_run kp addr wh st emit (w : World Ledger) s :
  lg_accounts (w_net w) !! publicKey kp = Some s ->
  lg_contracts (w_net w) !! addr = Some (mkInstance wh st) ->
  lg_code (w_net w) !! wh = Some (counter_code emit) ->
  runs (verify_reset kp (mkContract addr)) w tt (w_net w)
    [Deploy.nl +:+ "--- Verifying reset ---"; "Final value after reset: " +:+ pretty (count_of st)].
Proof.
  intros Ha Hc Hcode.
  pose proof (run_counter (w_net w) (publicKey kp) s BASE_FEE TESTNET addr wh st emit "get_count" Hc Hcode)
    as Hrc.
  rewrite counter_get_count in Hrc.
  eexists. unfold verify_reset. log_step.
  step (simulate_step (Simulate.mkSimulateParams kp (mkContract addr) "get_count")
          (advance w (w_net w) [] [Deploy.nl +:+ "--- Verifying reset ---"]) s _ Ha Hrc).
  cbn [eff_return scValToNative js_String].
  rewrite console_log_advance, !advance_advance. reflexivity.
Qed.

(** [contractAddress || ''] is the address. *)
Lemma or_empty_self (a : string) : (if String.eqb a "" then "" else a) = a.
Proof. destruct (String.eqb_spec a ""); congruence. Qed.

(** The query of the events driver on the ledger: with the latest
    ledger [seq], a start at or below 0 is refused; otherwise the events
    of [addr] in ledgers [seq - 100] and later, at most a thousand, are
    printed. *)
Lemma list_events_step addr (w : World Ledger) :
  let seq := lg_sequence (w_net w) in
  let w1 := advance w (w_net w) [CallGetLatestLedger; CallGetEvents (events_request seq addr)] [] in
  let start := ev_startLedger (events_request seq addr) in
  list_events addr w =
    if (start <=? 0)%Z then (Throw (new_Error "startLedger must be positive"), w1)
    else for_of (take 1000 (filter (fun e => event_contractId e ∈ [addr] /\ (start <= event_ledger e)%Z)
                             (lg_events (w_net w)))) print_event w1.
Proof.
  intros seq w1 start. unfold list_events, getLatestLedger, getEvents, bind.
  rewrite request_run. cbn [rpc_getLatestLedger ledger_server fst snd outcome_of_res].
  rewrite request_run. cbn [rpc_getEvents ledger_server w_net]. fold seq.
  unfold ledger_getEvents. fold start.
  assert (Hids : ev_contractIds (events_request seq addr) = [addr])
    by (unfold events_request; cbn; by rewrite or_empty_self).
  assert (Hlim : ev_limit (events_request seq addr) = 1000%Z) by done.
  rewrite Hids, Hlim. unfold w1, advance.
  destruct (start <=? 0)%Z; cbn; by rewrite <- app_assoc, app_nil_r.
Qed.

(** The two lines [print_event] prints for an event with a topic. *)
Definition event_lines (ev : EventResponse) : list string :=
  match event_topic ev with
  | [] => []
  | t :: _ => ["Topic: " +:+ format_arg (scValToNative t);
               "Value: " +:+ format_arg (scValToNative (event_value ev))]
  end.

Lemma print_event_lines {N} `{RpcServer N} ev (w : World N) :
  event_topic ev <> [] -> print_event ev w = (Ok tt, advance w (w_net w) [] (event_lines ev)).
Proof.
  intros Ht. unfold print_event, event_lines. destruct (event_topic ev) as [|t ts]; [done|].
  log_step. rewrite console_log_advance, advance_advance. done.
Qed.

(** Events that all have a topic are printed two lines each. *)
Lemma for_of_print_events {N} `{RpcServer N} evs (w : World N) :
  Forall (fun ev => event_topic ev <> []) evs ->
  for_of evs print_event w = (Ok tt, advance w (w_net w) [] (List.concat (map event_lines evs))).
Proof.
  intros Hall. revert w. induction Hall as [|ev evs Hev _ IH]; intros w; [by rewrite advance_nil|].
  cbn [for_of]. step (print_event_lines ev w Hev). rewrite IH, advance_advance. done.
Qed.

(** C24: [for (const event of events)] stops at the first event that
    has no topic: [const [topicSymbol] = event.topic] leaves
    [topicSymbol] undefined, and [scValToNative] throws its [TypeError];
    the events before it have been printed, two lines each. *)
Theorem print_events_missing_topic {N} `{RpcServer N} pre ev post (w : World N) :
  Forall (fun e => event_topic e <> []) pre -> event_topic ev = [] ->
  for_of (pre ++ ev :: post) print_event w =
    (Throw undefined_switch, advance w (w_net w) [] (List.concat (map event_lines pre))).
Proof.
  intros Hall Hev. revert w. induction Hall as [|e pre He _ IH]; intros w.
  - cbn. unfold print_event at 1. rewrite Hev. unfold bind, throw. by rewrite advance_nil.
  - cbn [app for_of]. step (print_event_lines e w He). rewrite IH, advance_advance. done.
Qed.

Lemma filter_none {A} (P : A -> Prop) `{!forall x, Decision (P x)} l :
  Forall (fun x => ~ P x) l -> filter P l = [].
Proof. induction 1; [done|]. by rewrite filter_cons_False. Qed.

(** The lines [main_increment] prints when the signer's account is at
    [s] and the counter is deployed at [addr]. *)
Definition increment_transcript (pk addr : string) (s : Z) : list string :=
  [RULE; "Increment Example"; RULE; "Stellar provider initialized successfully";
   "User account: " +:+ pk; "Deploying Increment Contract...";
   "Uploaded Wasm: " +:+ hash_at pk (s + 1); "Deployed Increment Contract: " +:+ addr;
   "Contract deployed successfully. Address: " +:+ addr;
   Deploy.nl +:+ "--- Calling increment() function multiple times ---";
   "Increment call #1: 1"; "Increment call #2: 2"; "Increment call #3: 3";
   Deploy.nl +:+ "--- Getting current value ---"; "Current value: 3";
   Deploy.nl +:+ "--- Resetting value to 0 ---";
   Deploy.nl +:+ "--- Verifying reset ---"; "Final value after reset: 0"].

(** C20: the increment example on the ledger.  From any ledger on which
    the signer's account is at [s] (with no transaction recorded under
    the hashes of its later sequence numbers, and [s + 7] an [int64]),
    with the wasm file on disk and the address of the deployment free,
    [main] runs to its end: it uploads and deploys the counter, prints
    the counts 1, 2 and 3, the current value 3, resets it and prints the
    final value 0 read by simulation, exactly the lines of
    [increment_transcript]; seven transactions are sent and the counter
    is left at 0. *)
Theorem main_increment_on_ledger env (w : World Ledger) s :
  config_ok env ->
  let kp := fromSecret (PRIVATE_KEY env) in
  let pk := publicKey kp in
  let addr := encodeContract (host_tx_hash pk (s + 1)) in
  w_files w !! INCREMENT_WASM = Some increment_wasm ->
  ready pk s (w_net w) -> (s + 7 < 2 ^ 63)%Z ->
  lg_contracts (w_net w) !! addr = None ->
  exists L, runs (main_increment env) w tt L (increment_transcript pk addr s) /\
            lg_accounts L !! pk = Some (s + 7)%Z /\
            lg_contracts L !! addr = Some (mkInstance (host_wasm_hash increment_wasm) (ScvU32 0)).
Proof.
  intros Hcfg kp pk addr Hf Hr Hb Hfree.
  pose (w0 := advance w (w_net w) [] [RULE; "Increment Example"; RULE;
                "Stellar provider initialized successfully"; "User account: " +:+ pk]).
  destruct (deploy_script_run "Deploying Increment Contract..." INCREMENT_WASM "Deployed Increment Contract: "
              increment_wasm kp w0 s Hf Hr ltac:(lia) Hfree) as (L1 & c1 & Hd & Hr1 & Hc1 & Hcode1 & _ & _).
  pose (w1 := advance w0 L1 c1 ["Deploying Increment Contract..."; "Uploaded Wasm: " +:+ hash_at pk (s + 1);
                                 "Deployed Increment Contract: " +:+ addr]).
  pose (w2 := advance w1 (w_net w1) [] ["Contract deployed successfully. Address: " +:+ addr]).
  pose (w3 := advance w2 (w_net w2) [] [Deploy.nl +:+ "--- Calling increment() function multiple times ---"]).
  destruct (increment_calls_run false kp addr _ w3 (s + 2) 0 ScvVoid Hr1 ltac:(lia) Hc1 eq_refl Hcode1
              ltac:(lia) ltac:(unfold U32_MAX; lia)) as (L4 & (c4 & Hl) & Hr4 & (st4 & Hc4 & Hcount4) & Hcode4 & _).
  pose (w4 := advance w3 L4 c4 (map (increment_line 0) (seqZ 1 3))).
  destruct (get_current_value_run kp addr _ st4 false w4 (s + 2 + 3) Hr4 ltac:(lia) Hc4
              ltac:(unfold w4; cbn [w_net advance]; rewrite Hcode4; exact Hcode1)) as (L5 & (c5 & Hg) & Hr5 & Hc5 & Hcode5).
  pose (w5 := advance w4 L5 c5 [Deploy.nl +:+ "--- Getting current value ---";
                                 "Current value: " +:+ pretty (count_of st4)]).
  destruct (reset_value_run kp addr _ st4 false w5 (s + 2 + 3 + 1) Hr5 ltac:(lia) Hc5
              Hcode5) as (L6 & (c6 & Hrs) & Hr6 & Hc6 & Hcode6).
  pose (w6 := advance w5 L6 c6 [Deploy.nl +:+ "--- Resetting value to 0 ---"]).
  destruct (verify_reset_run kp addr _ (ScvU32 0) false w6 (s + 2 + 3 + 1 + 1) (proj1 Hr6) Hc6
              Hcode6) as (c7 & Hv).
  exists L6. split_and!; [| replace (s + 7)%Z with (s + 2 + 3 + 1 + 1)%Z by lia; apply Hr6 | exact Hc6].
  eexists. unfold main_increment. cbv zeta.
  step (banner_run "Increment Example" env w Hcfg). fold w0.
  rewrite deployIncrementContract_script. step Hd. fold w1.
  log_step. fold w2. log_step. fold w3. step Hl. fold w4. step Hg. fold w5. step Hrs. fold w6.
  etransitivity; [exact Hv|]. unfold w6, w5, w4, w3, w2, w1, w0. rewrite !advance_advance.
  cbn [w_net advance]. rewrite Hcount4. reflexivity.
Qed.

(** The lines the events driver prints before it lists the events. *)
Definition events_prefix (pk addr : string) (s : Z) : list string :=
  [RULE; "Events Example"; RULE; "Stellar provider initialized successfully";
   "User account: " +:+ pk; "Deploying Events Contract...";
   "Uploaded Wasm: " +:+ hash_at pk (s + 1); "Contract deployed successfully: " +:+ addr;
   Deploy.nl +:+ "--- Calling increment() function to generate events ---";
   "Increment call #1: 1"; "Increment call #2: 2"; "Increment call #3: 3"].

(** The events driver up to the query: deployment on [s + 1] and
    [s + 2], three increments, each publishing its event. *)
Lemma main_events_prefix env (w : World Ledger) s :
  config_ok env ->
  let kp := fromSecret (PRIVATE_KEY env) in
  let pk := publicKey kp in
  let addr := encodeContract (host_tx_hash pk (s + 1)) in
  w_files w !! EVENTS_WASM = Some events_wasm ->
  ready pk s (w_net w) -> (s + 5 < 2 ^ 63)%Z ->
  lg_contracts (w_net w) !! addr = None ->
  exists L c, main_events env w = list_events addr (advance w L c (events_prefix pk addr s)) /\
              lg_sequence L = (lg_sequence (w_net w) + 5)%Z /\
              lg_events L = lg_events (w_net w) ++ counter_events true addr 0 (lg_sequence (w_net w) + 2) 3.
Proof.
  intros Hcfg kp pk addr Hf Hr Hb Hfree.
  pose (w0 := advance w (w_net w) [] [RULE; "Events Example"; RULE;
                "Stellar provider initialized successfully"; "User account: " +:+ pk]).
  destruct (deploy_script_run "Deploying Events Contract..." EVENTS_WASM "Contract deployed successfully: "
              events_wasm kp w0 s Hf Hr ltac:(lia) Hfree) as (L1 & c1 & Hd & Hr1 & Hc1 & Hcode1 & Hseq1 & Hev1).
  change (w_net w0) with (w_net w) in Hseq1, Hev1.
  pose (w1 := advance w0 L1 c1 ["Deploying Events Contract..."; "Uploaded Wasm: " +:+ hash_at pk (s + 1);
                                 "Contract deployed successfully: " +:+ addr]).
  pose (w2 := advance w1 (w_net w1) []
                [Deploy.nl +:+ "--- Calling increment() function to generate events ---"]).
  destruct (increment_calls_run true kp addr _ w2 (s + 2) 0 ScvVoid Hr1 ltac:(lia) Hc1 eq_refl Hcode1
              ltac:(lia) ltac:(unfold U32_MAX; lia)) as (L4 & (c4 & Hl) & _ & _ & _ & Hseq4 & Hev4).
  exists L4, (c1 ++ [] ++ c4). split_and!.
  - unfold main_events. cbv zeta. step (banner_run "Events Example" env w Hcfg). fold w0.
    rewrite deployEventsContract_script. step Hd. fold w1. log_step. fold w2.
    rewrite (bind_Ok _ _ _ _ _ Hl). unfold w2, w1, w0. by rewrite !advance_advance.
  - rewrite Hseq4. cbn [w2 w1 w_net advance]. rewrite Hseq1. lia.
  - rewrite Hev4. cbn [w2 w1 w_net advance]. by rewrite Hev1, Hseq1.
Qed.

(** The query finds exactly the three events of the new contract: the
    older events are of other contracts, and the new ones are in the
    window. *)
Lemma counter_events_listed addr seq0 old :
  Forall (fun e => event_contractId e <> addr) old ->
  filter (fun e => event_contractId e ∈ [addr] /\ (seq0 + 5 - 100 <= event_ledger e)%Z)
    (old ++ counter_events true addr 0 (seq0 + 2) 3) = counter_events true addr 0 (seq0 + 2) 3.
Proof.
  intros Hold. rewrite filter_app, filter_none.
  2: { eapply Forall_impl; [exact Hold|]. intros e He [Hin _]. by apply He, list_elem_of_singleton. }
  cbn [app counter_events]. replace (seqZ 1 3) with [1; 2; 3]%Z by reflexivity. cbn [map].
  rewrite !filter_cons_True, filter_nil; [done | split; [set_solver | cbn; lia] ..].
Qed.

(** C21: the events example on a ledger past its first 95 ledgers.  With
    the account ready at [s], the wasm file on disk, the deployment
    address free and no event of that address recorded, [main] runs to
    its end and prints, after the deployment and the three increments,
    the topic [COUNTER] and the values 1, 2 and 3 of the three events
    the increments published: the query window [sequence - 100] covers
    them. *)
Theorem main_events_on_ledger env (w : World Ledger) s :
  config_ok env ->
  let kp := fromSecret (PRIVATE_KEY env) in
  let pk := publicKey kp in
  let addr := encodeContract (host_tx_hash pk (s + 1)) in
  w_files w !! EVENTS_WASM = Some events_wasm ->
  ready pk s (w_net w) -> (s + 5 < 2 ^ 63)%Z ->
  lg_contracts (w_net w) !! addr = None ->
  Forall (fun e => event_contractId e <> addr) (lg_events (w_net w)) ->
  (100 < lg_sequence (w_net w) + 5)%Z ->
  exists L c, main_events env w =
    (Ok tt, advance w L c (events_prefix pk addr s ++
                           ["Topic: COUNTER"; "Value: 1"; "Topic: COUNTER"; "Value: 2";
                            "Topic: COUNTER"; "Value: 3"])).
Proof.
  intros Hcfg kp pk addr Hf Hr Hb Hfree Hold Hyoung.
  destruct (main_events_prefix env w s Hcfg Hf Hr Hb Hfree) as (L & c & Hpre & Hseq & Hev).
  exists L. eexists. rewrite Hpre, list_events_step. change (w_net (advance w L c _)) with L.
  cbn [events_request ev_startLedger]. rewrite Hseq, (proj2 (Z.leb_gt _ _)) by lia. rewrite Hev, counter_events_listed by done.
  rewrite take_ge by (cbn; rewrite length_map, length_seqZ; lia).
  rewrite for_of_print_events by (cbn; repeat constructor; discriminate).
  rewrite !advance_advance. reflexivity.
Qed.

(** C22: on a ledger that has closed at most 95 ledgers, the events
    example deploys the contract and makes its three increments, then
    asks for events from ledger [sequence - 100 <= 0], which the server
    refuses: [main] throws after printing the increments. *)
Theorem main_events_young_ledger env (w : World Ledger) s :
  config_ok env ->
  let kp := fromSecret (PRIVATE_KEY env) in
  let pk := publicKey kp in
  let addr := encodeContract (host_tx_hash pk (s + 1)) in
  w_files w !! EVENTS_WASM = Some events_wasm ->
  ready pk s (w_net w) -> (s + 5 < 2 ^ 63)%Z ->
  lg_contracts (w_net w) !! addr = None ->
  (lg_sequence (w_net w) + 5 <= 100)%Z ->
  exists L c, main_events env w =
    (Throw (new_Error "startLedger must be positive"), advance w L c (events_prefix pk addr s)).
Proof.
  intros Hcfg kp pk addr Hf Hr Hb Hfree Hyoung.
  destruct (main_events_prefix env w s Hcfg Hf Hr Hb Hfree) as (L & c & Hpre & Hseq & _).
  exists L. eexists. rewrite Hpre, list_events_step. change (w_net (advance w L c _)) with L.
  cbn [events_request ev_startLedger]. rewrite Hseq, (proj2 (Z.leb_le _ _)) by lia. rewrite advance_advance, app_nil_r. reflexivity.
Qed.

(** What the hello world example prints, around the lines [out] its
    deploy function prints. *)
Definition hello_transcript (pk : string) (out : list string) : list string :=
  [RULE; "Hello World Example"; RULE; "Stellar provider initialized successfully";
   "User account: " +:+ pk] ++ out ++ ["Hello World response: Hello, World"].

(** C30: the events module run with [node], its configuration read by
    [dotenv.config()] (from the environment or [.env]), on a ledger that
    has closed at most 95 ledgers: the contract is deployed and
    incremented three times, the refused events query rejects [main]'s
    promise, Node reports the error on stderr and the process ends with
    code 1. *)
Theorem program_events_young_ledger env (w : World Ledger) s :
  let env' := loaded_env (w_files w) env in
  config_ok env' ->
  let kp := fromSecret (PRIVATE_KEY env') in
  let pk := publicKey kp in
  let addr := encodeContract (host_tx_hash pk (s + 1)) in
  w_files w !! EVENTS_WASM = Some events_wasm ->
  ready pk s (w_net w) -> (s + 5 < 2 ^ 63)%Z ->
  lg_contracts (w_net w) !! addr = None ->
  (lg_sequence (w_net w) + 5 <= 100)%Z ->
  exists L c, program_events env w =
    (Exit 1, reported (advance w L c (events_prefix pk addr s)) (new_Error "startLedger must be positive")).
Proof.
  intros env' Hcfg kp pk addr Hf Hr Hb Hfree Hyoung.
  destruct (main_events_prefix env' w s Hcfg Hf Hr Hb Hfree) as (L & c & Hpre & Hseq & _).
  exists L. eexists. unfold program_events. rewrite (bind_Ok _ _ _ _ _ (dotenv_config_run env w)).
  apply node_main_throw. fold env'. rewrite Hpre, list_events_step. change (w_net (advance w L c _)) with L.
  cbn [events_request ev_startLedger]. rewrite Hseq, (proj2 (Z.leb_le _ _)) by lia.
  rewrite advance_advance, app_nil_r. reflexivity.
Qed.

(** A call of [hello] on the hello world contract at [addr]. *)
Lemma run_hello L pk s fee pass addr wh st to :
  lg_contracts L !! addr = Some (mkInstance wh st) ->
  lg_code L !! wh = Some hello_wasm ->
  run_tx L (pipeline_tx pk s fee pass (call (mkContract addr) "hello" [ScvString to])) =
    inr (mkEffect (ScvVec [ScvSymbol "Hello"; ScvString to]) (lg_code L)
           (<[addr := mkInstance wh st]> (lg_contracts L)) []).
Proof.
  intros Hc Hcode. unfold run_tx, pipeline_tx, call. cbn [tx_operations run_op contract_address].
  rewrite Hc. cbn [inst_wasm inst_storage]. by rewrite Hcode.
Qed.

(** C23: the hello world example on the ledger, given the
    [deployHelloWorldContract] its missing [./deploy.js] would provide:
    when that function deploys the hello world contract at [addr] from
    the ledger the script starts on, [main] calls [hello(" World")] and
    prints [Hello World response: Hello, World], the two strings of the
    returned vector joined by a comma. *)
Theorem main_hello_on_ledger (deployHelloWorldContract : Keypair -> M (World Ledger) string)
    env (w : World Ledger) s addr wh st L1 out1 :
  config_ok env ->
  let kp := fromSecret (PRIVATE_KEY env) in
  let pk := publicKey kp in
  (forall w', w_net w' = w_net w ->
     exists c1, deployHelloWorldContract kp w' = (Ok addr, advance w' L1 c1 out1)) ->
  ready pk s L1 -> (s + 1 < 2 ^ 63)%Z ->
  lg_contracts L1 !! addr = Some (mkInstance wh st) -> lg_code L1 !! wh = Some hello_wasm ->
  exists L c, main_hello deployHelloWorldContract env w =
    (Ok tt, advance w L c (hello_transcript pk out1)).
Proof.
  intros Hcfg kp pk Hdeploy Hr Hb Hc Hcode.
  pose (w0 := advance w (w_net w) [] [RULE; "Hello World Example"; RULE;
                "Stellar provider initialized successfully"; "User account: " +:+ pk]).
  destruct (Hdeploy w0 eq_refl) as (c1 & Hd).
  pose proof (run_hello L1 pk s BASE_FEE TESTNET addr wh st " World" Hc Hcode) as Hrun.
  eexists _, _. unfold main_hello. cbv zeta. step (banner_run "Hello World Example" env w Hcfg). fold w0.
  step Hd.
  step (submitTransaction_step kp (mkContract addr) "hello" [nativeToScVal_string " World"]
          (advance w0 L1 c1 out1) s _ Hr Hb Hrun).
  cbn [print_return returnValue eff_return]. rewrite console_log_advance. unfold w0.
  rewrite !advance_advance. reflexivity.
Qed.

End Runs.
End DriverRuns.

(** ** The drivers on concrete ledgers

    The account [GS] (the public key of the secret [S] under the toy
    encodings of [Fake.fake_crypto]) at sequence 5, both wasm files on
    disk. *)
Module DriverWitnesses.
Import Fake DriverRuns DriversFacts LedgerFacts.

(** A Node runtime for the concrete runs: buffers as their bytes, other
    objects as [[object]], an unhandled error reported by its
    [toString], an unresolved import reported by its specifier, and no
    variable parsed from [.env]. *)
#[local] Instance plain_runtime : NodeRuntime := {
  buffer_toString := String.string_of_list_byte;
  inspect_object := fun _ => "[object]";
  uncaught_report := fun e => [js_error_toString e];
  module_not_found := fun s => new_Error (String.append "Cannot find module " s);
  dotenv_parse := fun _ => []
}.

Definition TESTNET_RPC : string := "https://soroban-testnet.stellar.org".

Definition env0 : gmap string string :=
  {[ "STELLAR_PRIVATE_KEY" := "S"; "STELLAR_RPC_URL" := TESTNET_RPC ]}.

Lemma env0_ok : config_ok env0.
Proof. split; reflexivity. Qed.

Definition wasm_files : gmap string bytes :=
  {[ INCREMENT_WASM := increment_wasm; EVENTS_WASM := events_wasm ]}.

Definition ledger_at (seq : Z) : Ledger := mkLedger {[ "GS" := 5%Z ]} ∅ ∅ ∅ seq [].

Definition world_at (seq : Z) : World Ledger := mkWorld (ledger_at seq) [] [] [] 0 wasm_files.

Lemma ledger_at_ready seq : ready "GS" 5 (ledger_at seq).
Proof. split_and!; [reflexivity | intros k _; apply lookup_empty | lia]. Qed.

Lemma main_increment_on_ledger_witness :
  exists L, runs (main_increment env0) (world_at 100) tt L
              (increment_transcript "GS" (encodeContract (host_tx_hash "GS" 6)) 5).
Proof.
  pose proof (main_increment_on_ledger env0 (world_at 100) 5 env0_ok ltac:(reflexivity) (ledger_at_ready 100)
                ltac:(lia) (lookup_empty _)) as (L & Hr & _).
  exists L. exact Hr.
Defined.

Lemma main_events_on_ledger_witness :
  exists L c, main_events env0 (world_at 100) =
    (Ok tt, advance (world_at 100) L c
              (events_prefix "GS" (encodeContract (host_tx_hash "GS" 6)) 5 ++
               ["Topic: COUNTER"; "Value: 1"; "Topic: COUNTER"; "Value: 2"; "Topic: COUNTER"; "Value: 3"])).
Proof.
  exact (main_events_on_ledger env0 (world_at 100) 5 env0_ok ltac:(reflexivity) (ledger_at_ready 100)
           ltac:(lia) (lookup_empty _) (List.Forall_nil _) ltac:(cbn; lia)).
Defined.

Lemma main_events_young_ledger_witness :
  exists L c, main_events env0 (world_at 10) =
    (Throw (new_Error "startLedger must be positive"),
     advance (world_at 10) L c (events_prefix "GS" (encodeContract (host_tx_hash "GS" 6)) 5)).
Proof.
  exact (main_events_young_ledger env0 (world_at 10) 5 env0_ok ltac:(reflexivity) (ledger_at_ready 10)
           ltac:(lia) (lookup_empty _) ltac:(cbn; lia)).
Defined.

(** The hello world contract already deployed at [CHELLO], and a
    deploy function that returns its address. *)
Definition hello_hash : bytes := host_wasm_hash hello_wasm.

Definition hello_ledger : Ledger :=
  mkLedger {[ "GS" := 5%Z ]} {[ hello_hash := hello_wasm ]}
    {[ "CHELLO" := mkInstance hello_hash ScvVoid ]} ∅ 100 [].

Lemma main_hello_on_ledger_witness :
  exists L c, main_hello (fun _ => ret "CHELLO") env0 (mkWorld hello_ledger [] [] [] 0 ∅) =
    (Ok tt, advance (mkWorld hello_ledger [] [] [] 0 ∅) L c
              (hello_transcript (publicKey (fromSecret (PRIVATE_KEY env0))) [])).
Proof.
  apply (main_hello_on_ledger (fun _ => ret "CHELLO") env0 (mkWorld hello_ledger [] [] [] 0 ∅) 5 "CHELLO"
           hello_hash ScvVoid hello_ledger []).
  - exact env0_ok.
  - intros w' Hn. exists []. unfold ret. cbn in Hn. rewrite <- Hn. by rewrite advance_nil.
  - split_and!; [reflexivity | intros k _; apply lookup_empty | lia].
  - lia.
  - reflexivity.
  - reflexivity.
Defined.

(** A counter at its largest value. *)
Definition inc_hash : bytes := host_wasm_hash increment_wasm.

Definition max_ledger : Ledger :=
  mkLedger {[ "GS" := 5%Z ]} {[ inc_hash := increment_wasm ]}
    {[ "CINC" := mkInstance inc_hash (ScvU32 U32_MAX) ]} ∅ 100 [].

Lemma print_events_missing_topic_witness :
  for_of ([mkEvent "CINC" [ScvSymbol "COUNTER"] (ScvU32 1) 101] ++ mkEvent "CINC" [] ScvVoid 102 :: [])
    print_event (mkWorld max_ledger [] [] [] 0 ∅) =
    (Throw undefined_switch, advance (mkWorld max_ledger [] [] [] 0 ∅) max_ledger [] ["Topic: COUNTER"; "Value: 1"]).
Proof.
  exact (print_events_missing_topic [mkEvent "CINC" [ScvSymbol "COUNTER"] (ScvU32 1) 101]
           (mkEvent "CINC" [] ScvVoid 102) [] (mkWorld max_ledger [] [] [] 0 ∅)
           ltac:(constructor; [discriminate | constructor]) eq_refl).
Defined.

Lemma main_increment_missing_wasm_witness :
  main_increment env0 (start (scenario [] (SimSuccess None))) =
    (Exit 1,
     mkWorld (scenario [] (SimSuccess None)) []
       ([] ++ [RULE; "Increment Example"; RULE; "Stellar provider initialized successfully";
               "User account: " +:+ publicKey (fromSecret (PRIVATE_KEY env0));
               "Deploying Increment Contract..."])
       ([] ++ [Deploy.nl +:+ "ERROR: Required WASM file not found at " +:+ INCREMENT_WASM +:+ "!";
               Deploy.nl +:+ "Please run the following command to compile contracts first:";
               Deploy.nl +:+ "    make build" +:+ Deploy.nl])
       0 ∅).
Proof. exact (main_increment_missing_wasm env0 (start (scenario [] (SimSuccess None))) env0_ok eq_refl). Defined.

(** No [.env] and nothing in the environment: the URL is [""]. *)
Definition env_empty : gmap string string := ∅.

Lemma mains_insecure_server_url_witness :
  Server_new (STELLAR_RPC_URL env_empty) = inl (new_Error INSECURE_SERVER) /\
  main_increment env_empty (start (scenario [] (SimSuccess None))) =
    (Throw (new_Error INSECURE_SERVER),
     printed (start (scenario [] (SimSuccess None))) [RULE; "Increment Example"; RULE]) /\
  main_events env_empty (start (scenario [] (SimSuccess None))) =
    (Throw (new_Error INSECURE_SERVER),
     printed (start (scenario [] (SimSuccess None))) [RULE; "Events Example"; RULE]) /\
  main_hello (fun _ => ret "CHELLO") env_empty (start (scenario [] (SimSuccess None))) =
    (Throw (new_Error INSECURE_SERVER),
     printed (start (scenario [] (SimSuccess None))) [RULE; "Hello World Example"; RULE]).
Proof. split; [reflexivity|]. apply mains_insecure_server_url. reflexivity. Defined.

(** The URL set, the key not. *)
Definition env_no_key : gmap string string := {[ "STELLAR_RPC_URL" := TESTNET_RPC ]}.

Lemma mains_invalid_secret_witness :
  Server_new (STELLAR_RPC_URL env_no_key) = inr tt /\
  secret_seed_error (PRIVATE_KEY env_no_key) = Some "invalid encoded string" /\
  main_increment env_no_key (start (scenario [] (SimSuccess None))) =
    (Throw (new_Error "invalid encoded string"),
     printed (start (scenario [] (SimSuccess None))) [RULE; "Increment Example"; RULE]) /\
  main_events env_no_key (start (scenario [] (SimSuccess None))) =
    (Throw (new_Error "invalid encoded string"),
     printed (start (scenario [] (SimSuccess None))) [RULE; "Events Example"; RULE]) /\
  main_hello (fun _ => ret "CHELLO") env_no_key (start (scenario [] (SimSuccess None))) =
    (Throw (new_Error "invalid encoded string"),
     printed (start (scenario [] (SimSuccess None))) [RULE; "Hello World Example"; RULE]).
Proof. split; [reflexivity|]. split; [reflexivity|]. apply mains_invalid_secret; reflexivity. Defined.

Lemma program_events_young_ledger_witness :
  exists L c, program_events env0 (world_at 10) =
    (Exit 1, reported (advance (world_at 10) L c (events_prefix "GS" (encodeContract (host_tx_hash "GS" 6)) 5))
               (new_Error "startLedger must be positive")).
Proof.
  exact (program_events_young_ledger env0 (world_at 10) 5 env0_ok ltac:(reflexivity) (ledger_at_ready 10)
           ltac:(lia) (lookup_empty _) ltac:(cbn; lia)).
Defined.

Lemma programs_insecure_server_url_witness :
  Server_new (STELLAR_RPC_URL (loaded_env (w_files (world_at 10)) env_empty)) = inl (new_Error INSECURE_SERVER) /\
  program_increment env_empty (world_at 10) =
    (Exit 1, reported (printed (world_at 10) [RULE; "Increment Example"; RULE]) (new_Error INSECURE_SERVER)) /\
  program_events env_empty (world_at 10) =
    (Exit 1, reported (printed (world_at 10) [RULE; "Events Example"; RULE]) (new_Error INSECURE_SERVER)) /\
  program_hello (world_at 10) =
    (Exit 1, reported (world_at 10) (module_not_found HELLO_DEPLOY_MODULE)).
Proof. split; [reflexivity|]. apply programs_insecure_server_url. reflexivity. Defined.

End DriverWitnesses.
